(** * rtspMonitor: the monitoring core of [rtspMonitor.py]

    A shallow embedding of the parts of [CameraMonitorGUI] that carry the
    monitoring logic: the five regular expressions and [parse_ffmpeg_line],
    the statistics kept by the ingestion loop of [run_ffmpeg_monitor], the
    rows it hands to [csv.writer], the launch and grace-period checks,
    [stop_monitoring], [start_monitoring] and the averages computed by
    [update_log_display] and [update_graphs].

    Conventions.
    - A Python [str] is a [string]; its characters are the code points
      0..255, so [\d] is ['0'..'9'] and [\s] is the white space of that range.
    - A Python [float] is a binary64 primitive [float]; a Python [int] is a
      [Z].
    - A Python exception is a value of [exn]; code that may raise returns
      [Exc A].
    - What the operating system decides (whether the executable is found,
      whether the probe survived the grace period, what it prints, whether
      it obeys SIGTERM, what time it is) is input data of the model. *)

From Stdlib Require Import ZArith List String Ascii Bool Lia.
From Stdlib Require Import Floats.PrimFloat Floats.SpecFloat Floats.FloatOps.
Import ListNotations.

Open Scope string_scope.
Open Scope Z_scope.

(** ** Python values *)

Module Py.

(** Exceptions the modelled code can meet. *)
Inductive exn : Type :=
| ValueError (msg : string)
| AttributeError (msg : string)
| ZeroDivisionError
| FileNotFoundError
| TypeError (msg : string)
| OSError (msg : string)
| TimeoutExpired.

(** A computation that returns or raises. *)
Inductive Exc (A : Type) : Type :=
| Ret (a : A)
| Raise (e : exn).
Arguments Ret {A} a.
Arguments Raise {A} e.

Definition bind {A B : Type} (m : Exc A) (f : A -> Exc B) : Exc B :=
  match m with
  | Ret a => f a
  | Raise e => Raise e
  end.

Definition is_ValueError (e : exn) : bool :=
  match e with ValueError _ => true | _ => false end.

(** [try: body / except ValueError: handler]. *)
Definition try_except_ValueError {A : Type} (body handler : Exc A) : Exc A :=
  match body with
  | Ret a => Ret a
  | Raise e => if is_ValueError e then handler else Raise e
  end.

(** *** Character classes *)

Definition code (c : ascii) : N := N_of_ascii c.

(** [\d]: the decimal digits. *)
Definition is_digit (c : ascii) : bool :=
  (N.leb 48 (code c) && N.leb (code c) 57)%bool.

Definition is_dot (c : ascii) : bool := N.eqb (code c) 46.

(** [[\d\.]]. *)
Definition is_digit_or_dot (c : ascii) : bool := (is_digit c || is_dot c)%bool.

(** [\s] and the characters removed by [str.strip()]: TAB, LF, VT, FF, CR,
    the separators 0x1c..0x1f, SPACE, NEL (0x85) and NBSP (0xa0). *)
Definition is_space (c : ascii) : bool :=
  let n := code c in
  ((N.leb 9 n && N.leb n 13) || (N.leb 28 n && N.leb n 32)
   || N.eqb n 133 || N.eqb n 160)%bool.

(** *** Strings *)

Fixpoint lstrip (s : string) : string :=
  match s with
  | String c s' => if is_space c then lstrip s' else s
  | EmptyString => EmptyString
  end.

(** [rstrip] keeps a character when something that is not white space
    follows it or when it is not white space itself. *)
Fixpoint rstrip (s : string) : string :=
  match s with
  | String c s' =>
      match rstrip s' with
      | EmptyString => if is_space c then EmptyString else String c EmptyString
      | t => String c t
      end
  | EmptyString => EmptyString
  end.

(** [s.strip()]. *)
Definition strip (s : string) : string := rstrip (lstrip s).

(** [s.startswith(p)], returning what follows the prefix. *)
Fixpoint strip_prefix (p s : string) : option string :=
  match p, s with
  | EmptyString, _ => Some s
  | String a p', String b s' => if Ascii.eqb a b then strip_prefix p' s' else None
  | String _ _, EmptyString => None
  end.

(** Truth value of a [str]: the empty string is false. *)
Definition truthy_str (s : string) : bool :=
  match s with EmptyString => false | String _ _ => true end.

(** *** Regular expressions

    The fragment of [re] the five patterns are written in: literal text, a
    greedy [*] or [+] over a character class, a capturing group, and
    concatenation.  Matching is by backtracking, longest repetition first,
    as in [re]. *)

Inductive regex : Type :=
| Lit (s : string)
| Star (cls : ascii -> bool)
| Plus (cls : ascii -> bool)
| Group (r : regex)
| Cat (r1 r2 : regex).

(** Greedy repetition of a class: take a character if possible and come back
    to the shorter repetition when the continuation fails. *)
Fixpoint many {A : Type} (cls : ascii -> bool) (s : string)
  (k : string -> option A) : option A :=
  match s with
  | String c s' =>
      if cls c
      then match many cls s' k with
           | Some r => Some r
           | None => k s
           end
      else k s
  | EmptyString => k s
  end.

(** The text consumed between [s] and its suffix [rest]. *)
Definition consumed (s rest : string) : string :=
  substring 0 (String.length s - String.length rest)%nat s.

(** [rmatch r s gs k]: match [r] at the start of [s], with the groups closed
    so far in [gs]; [k] receives the rest of the text and the groups. *)
Fixpoint rmatch {A : Type} (r : regex) (s : string) (gs : list string)
  (k : string -> list string -> option A) : option A :=
  match r with
  | Lit l =>
      match strip_prefix l s with
      | Some rest => k rest gs
      | None => None
      end
  | Star cls => many cls s (fun rest => k rest gs)
  | Plus cls =>
      match s with
      | String c s' => if cls c then many cls s' (fun rest => k rest gs) else None
      | EmptyString => None
      end
  | Group r' => rmatch r' s gs (fun rest gs' => k rest (gs' ++ [consumed s rest])%list)
  | Cat r1 r2 => rmatch r1 s gs (fun rest gs' => rmatch r2 rest gs' k)
  end.

(** A match object, reduced to its groups: [group n] is the n-th one. *)
Definition Match : Type := list string.

Definition group (n : nat) (m : Match) : string := nth (pred n) m "".

(** [pattern.search(s)]: the match at the leftmost position that has one. *)
Fixpoint search (r : regex) (s : string) : option Match :=
  match rmatch r s [] (fun _ gs => Some gs) with
  | Some m => Some m
  | None =>
      match s with
      | String _ s' => search r s'
      | EmptyString => None
      end
  end.

(** *** Numbers *)

Definition digit_value (c : ascii) : Z := Z.of_N (code c) - 48.

(** Value of a run of decimal digits, most significant first. *)
Fixpoint decimal_value (acc : Z) (s : string) : Z :=
  match s with
  | String c s' => decimal_value (10 * acc + digit_value c) s'
  | EmptyString => acc
  end.

Fixpoint all_chars (p : ascii -> bool) (s : string) : bool :=
  match s with
  | String c s' => (p c && all_chars p s')%bool
  | EmptyString => true
  end.

Fixpoint count_chars (p : ascii -> bool) (s : string) : nat :=
  match s with
  | String c s' => ((if p c then 1 else 0) + count_chars p s')%nat
  | EmptyString => 0%nat
  end.

(** CPython's default limit on the length of a decimal literal given to
    [int()] ([sys.int_info.default_max_str_digits]). *)
Definition int_max_str_digits : nat := 4300.

(** [int(s)] for a text of decimal digits, the only texts [(\d+)] captures:
    [ValueError] on anything else and on a text longer than the limit. *)
Definition py_int (s : string) : Exc Z :=
  if (negb (truthy_str s) || negb (all_chars is_digit s))%bool
  then Raise (ValueError "invalid literal for int() with base 10")
  else if (int_max_str_digits <? String.length s)%nat
  then Raise (ValueError "Exceeds the limit for integer string conversion")
  else Ret (decimal_value 0 s).

(** Whether [str(n)] returns for an [int], as when an f-string formats it:
    the same limit makes it raise [ValueError] when [n] has more decimal
    digits. *)
Definition int_fits_str (n : Z) : bool :=
  Z.abs n <? 10 ^ Z.of_nat int_max_str_digits.

(** [float(n)] for an [int]: the nearest binary64, ties to even. *)
Definition float_of_int (n : Z) : float :=
  SF2Prim (binary_normalize prec emax n 0 false).

(** The binary64 nearest to [m / d], ties to even. *)
Definition float_of_ratio (m : Z) (d : positive) : float :=
  match m with
  | Zpos p => SF2Prim (SFdiv prec emax (S754_finite false p 0) (S754_finite false d 0))
  | _ => zero
  end.

Fixpoint filter_chars (p : ascii -> bool) (s : string) : string :=
  match s with
  | String c s' => if p c then String c (filter_chars p s') else filter_chars p s'
  | EmptyString => EmptyString
  end.

(** What follows the first dot of [s]. *)
Fixpoint after_dot (s : string) : string :=
  match s with
  | String c s' => if is_dot c then s' else after_dot s'
  | EmptyString => EmptyString
  end.

(** [float(s)] for a text of digits and dots, the only texts [([\d\.]+)]
    captures: a value when there is at most one dot and at least one digit
    ([25], [25.], [.5], [25.0]), [ValueError] otherwise ([.], [1.2.3]).  The
    value is the correctly rounded quotient of the digits read as an integer
    by the power of ten of the fraction's length. *)
Definition py_float (s : string) : Exc float :=
  if (all_chars is_digit_or_dot s
      && (count_chars is_dot s <=? 1)%nat
      && (1 <=? count_chars is_digit s)%nat)%bool
  then Ret (float_of_ratio (decimal_value 0 (filter_chars is_digit s))
              (Z.to_pos (10 ^ Z.of_nat (String.length (after_dot s)))))
  else Raise (ValueError "could not convert string to float").

End Py.

Import Py.

Declare Scope exc_scope.
Delimit Scope exc_scope with exc.
Notation "x <- m ;; k" := (bind m (fun x => k))
  (at level 61, m at next level, right associativity) : exc_scope.

(** ** The patterns (lines 22-26) *)

(** [fps=\s*([\d\.]+)] *)
Definition FPS_PATTERN : regex :=
  Cat (Lit "fps=") (Cat (Star is_space) (Group (Plus is_digit_or_dot))).

(** [speed=\s*([\d\.]+)x] *)
Definition SPEED_PATTERN : regex :=
  Cat (Lit "speed=") (Cat (Star is_space) (Cat (Group (Plus is_digit_or_dot)) (Lit "x"))).

(** [missed (\d+) packets] *)
Definition MISSED_PACKETS_PATTERN : regex :=
  Cat (Lit "missed ") (Cat (Group (Plus is_digit)) (Lit " packets")).

(** [max delay reached] *)
Definition MAX_DELAY_PATTERN : regex := Lit "max delay reached".

(** [concealing (\d+) DC,\s*(\d+) AC,\s*(\d+) MV errors] *)
Definition DECODE_ERROR_PATTERN : regex :=
  Cat (Lit "concealing ")
    (Cat (Group (Plus is_digit))
       (Cat (Lit " DC,")
          (Cat (Star is_space)
             (Cat (Group (Plus is_digit))
                (Cat (Lit " AC,")
                   (Cat (Star is_space)
                      (Cat (Group (Plus is_digit)) (Lit " MV errors")))))))).

(** ** [parse_ffmpeg_line] (lines 350-378) *)

(** The dictionary [result], whose five keys are fixed. *)
Record Parsed : Type := mkParsed {
  fps : option float;
  speed : option float;
  missed_packets : option Z;
  max_delay : bool;
  decode_errors : option string
}.

Definition set_fps (v : option float) (r : Parsed) : Parsed :=
  mkParsed v (speed r) (missed_packets r) (max_delay r) (decode_errors r).
Definition set_speed (v : option float) (r : Parsed) : Parsed :=
  mkParsed (fps r) v (missed_packets r) (max_delay r) (decode_errors r).
Definition set_missed_packets (v : option Z) (r : Parsed) : Parsed :=
  mkParsed (fps r) (speed r) v (max_delay r) (decode_errors r).
Definition set_max_delay (v : bool) (r : Parsed) : Parsed :=
  mkParsed (fps r) (speed r) (missed_packets r) v (decode_errors r).
Definition set_decode_errors (v : option string) (r : Parsed) : Parsed :=
  mkParsed (fps r) (speed r) (missed_packets r) (max_delay r) v.

Definition parse_ffmpeg_line (line : string) : Exc Parsed :=
  (let result := mkParsed None None None false None in
  result <- match search FPS_PATTERN line with
            | Some fps_match =>
                try_except_ValueError
                  (x <- py_float (group 1 fps_match) ;; Ret (set_fps (Some x) result))
                  (Ret (set_fps None result))
            | None => Ret result
            end ;;
  result <- match search SPEED_PATTERN line with
            | Some speed_match =>
                try_except_ValueError
                  (x <- py_float (group 1 speed_match) ;; Ret (set_speed (Some x) result))
                  (Ret (set_speed None result))
            | None => Ret result
            end ;;
  result <- match search MISSED_PACKETS_PATTERN line with
            | Some missed_match =>
                try_except_ValueError
                  (n <- py_int (group 1 missed_match) ;; Ret (set_missed_packets (Some n) result))
                  (Ret (set_missed_packets None result))
            | None => Ret result
            end ;;
  let result := match search MAX_DELAY_PATTERN line with
                | Some _ => set_max_delay true result
                | None => result
                end in
  let result := match search DECODE_ERROR_PATTERN line with
                | Some decode_match =>
                    let dc_errs := group 1 decode_match in
                    let ac_errs := group 2 decode_match in
                    let mv_errs := group 3 decode_match in
                    set_decode_errors
                      (Some ("DC=" ++ dc_errs ++ ",AC=" ++ ac_errs ++ ",MV=" ++ mv_errs))
                      result
                | None => result
                end in
  Ret result)%exc.

(** ** Python objects in a CSV row *)

Inductive value : Type :=
| VNone
| VInt (n : Z)
| VFloat (x : float)
| VStr (s : string).

Definition of_opt_float (v : option float) : value :=
  match v with Some x => VFloat x | None => VNone end.
Definition of_opt_int (v : option Z) : value :=
  match v with Some n => VInt n | None => VNone end.
Definition of_opt_str (v : option string) : value :=
  match v with Some s => VStr s | None => VNone end.

(** [v is not None]. *)
Definition is_not_None (v : value) : bool :=
  match v with VNone => false | _ => true end.

(** Truth value: [None], [0], [0.0] and [''] are false. *)
Definition truthy (v : value) : bool :=
  match v with
  | VNone => false
  | VInt n => negb (n =? 0)
  | VFloat x => negb (PrimFloat.eqb x zero)
  | VStr s => truthy_str s
  end.

(** The list given to [writer.writerow] (lines 327-335). *)
Definition csv_row (timestamp_str : string) (parsed : Parsed) (line : string) : list value :=
  [ VStr timestamp_str;
    if is_not_None (of_opt_float (fps parsed)) then of_opt_float (fps parsed) else VStr "";
    if is_not_None (of_opt_float (speed parsed)) then of_opt_float (speed parsed) else VStr "";
    if truthy (of_opt_int (missed_packets parsed)) then of_opt_int (missed_packets parsed) else VStr "";
    VInt (if max_delay parsed then 1 else 0);
    if truthy (of_opt_str (decode_errors parsed)) then of_opt_str (decode_errors parsed) else VStr "";
    VStr line ].

(** The header row (lines 308-309). *)
Definition csv_header : list value :=
  [ VStr "timestamp"; VStr "fps"; VStr "speed"; VStr "missed_packets";
    VStr "max_delay_reached"; VStr "decode_errors"; VStr "raw_log_line" ].

(** ** Statistics (lines 48-51) *)

Record Stats : Type := mkStats {
  total_frames : Z;
  sum_fps : float;
  speed_values : list float;
  missed_packets_count : Z
}.

(** [deque(maxlen=50)] *)
Definition maxlen : nat := 50.

(** [deque.append]: add on the right, then drop the leftmost element when
    the length exceeds [maxlen]. *)
Definition deque_append (x : float) (d : list float) : list float :=
  let d' := (d ++ [x])%list in
  if (maxlen <? List.length d')%nat then tl d' else d'.

(** The four statements that write a statistic (lines 320, 321, 323, 325). *)
Definition incr_total_frames (s : Stats) : Stats :=
  mkStats (total_frames s + 1) (sum_fps s) (speed_values s) (missed_packets_count s).
Definition add_sum_fps (x : float) (s : Stats) : Stats :=
  mkStats (total_frames s) (PrimFloat.add (sum_fps s) x) (speed_values s) (missed_packets_count s).
Definition append_speed (x : float) (s : Stats) : Stats :=
  mkStats (total_frames s) (sum_fps s) (deque_append x (speed_values s)) (missed_packets_count s).
Definition add_missed (n : Z) (s : Stats) : Stats :=
  mkStats (total_frames s) (sum_fps s) (speed_values s) (missed_packets_count s + n).

(** The statements lines 319-325 execute for one parsed line, in order. *)
Definition stat_writes (parsed : Parsed) : list (Stats -> Stats) :=
  ((match fps parsed with
    | Some x => [incr_total_frames; add_sum_fps x]
    | None => []
    end)
   ++ (match speed parsed with
       | Some x => [append_speed x]
       | None => []
       end)
   ++ (match missed_packets parsed with
       | Some n => [add_missed n]
       | None => []
       end))%list.

Definition run_writes (ws : list (Stats -> Stats)) (s : Stats) : Stats :=
  fold_left (fun acc w => w acc) ws s.

(** "Update stats" (lines 318-325). *)
Definition update_stats (parsed : Parsed) (s : Stats) : Stats :=
  run_writes (stat_writes parsed) s.

(** The reset of lines 234-237. *)
Definition reset_stats : Stats := mkStats 0 zero [] 0.

(** [x / n] for a float and an int. *)
Definition py_truediv (x : float) (n : Z) : Exc float :=
  if n =? 0 then Raise ZeroDivisionError else Ret (PrimFloat.div x (float_of_int n)).

(** ** The application object *)

(** One line of the probe's diagnostic output as [readline()] returns it,
    with the text [datetime.now().isoformat()] gives when the loop handles
    it. *)
Record Arrival : Type := mkArrival {
  text : string;
  stamp : string
}.

(** A [subprocess.Popen] object: the command, the exit status as [poll()]
    reports it ([None] while the process runs), whether the process exits
    within two seconds of [terminate()], and what is left to read on its
    [stderr]. *)
Record Popen : Type := mkPopen {
  args : list string;
  returncode : option Z;
  obeys_terminate : bool;
  stderr : list Arrival
}.

Inductive Signal : Type := SIGTERM | SIGKILL.

(** What lies outside the process: the file at [output_csv] ([None] when it
    does not exist), the exception [open()] raises on it if any, the signals
    sent so far and the commands spawned so far. *)
Record OS : Type := mkOS {
  csv_file : option (list (list value));
  csv_open_error : option exn;
  signals : list Signal;
  spawned : list (list string)
}.

Definition set_csv_file (v : option (list (list value))) (w : OS) : OS :=
  mkOS v (csv_open_error w) (signals w) (spawned w).
Definition set_signals (v : list Signal) (w : OS) : OS :=
  mkOS (csv_file w) (csv_open_error w) v (spawned w).
Definition set_spawned (v : list (list string)) (w : OS) : OS :=
  mkOS (csv_file w) (csv_open_error w) (signals w) v.

(** The five lists behind the graphs (lines 55-59). *)
Record GraphData : Type := mkGraphData {
  graph_time_data : list float;
  graph_timestamp_labels : list string;
  graph_avg_fps_data : list float;
  graph_avg_speed_data : list float;
  graph_missed_packets_data : list Z
}.

Definition empty_graph : GraphData := mkGraphData [] [] [] [] [].

Inductive WidgetState : Type := NORMAL | DISABLED.

Inductive Tag : Type := tag_error | tag_warning | tag_fps | tag_speed | tag_decode.

(** The texts [status_var] takes: ["Idle"], ["Monitoring..."],
    ["Monitoring... Avg FPS: .., Avg Speed: ..x, Missed Packets: .."] with
    the three numbers it formats, and ["Stopped"]. *)
Inductive Status : Type :=
| StatusIdle
| StatusMonitoring
| StatusStats (avg_fps avg_speed : float) (missed : Z)
| StatusStopped.

(** The callbacks given to [master.after]. *)
Inductive Callback : Type := cb_update_log_display | cb_update_graphs.

(** The arguments the monitor thread is started with (line 253). *)
Record ThreadArgs : Type := mkThreadArgs {
  thread_rtsp_url : string;
  thread_output_csv : string;
  thread_ffmpeg_exe : string;
  thread_additional_params : string
}.

Record GUI : Type := mkGUI {
  ffmpeg_process : option Popen;
  monitor_thread : option ThreadArgs;
  running_event : bool;
  log_queue : list string;
  stats : Stats;
  start_time : option float;
  graph : GraphData;
  start_button : WidgetState;
  stop_button : WidgetState;
  status_var : Status;
  log_text : list (string * option Tag);
  messageboxes : list (string * string);
  after_calls : list (Z * Callback);
  os : OS
}.

Definition set_ffmpeg_process (v : option Popen) (g : GUI) : GUI :=
  mkGUI v (monitor_thread g) (running_event g) (log_queue g) (stats g) (start_time g) (graph g) (start_button g) (stop_button g) (status_var g) (log_text g) (messageboxes g) (after_calls g) (os g).
Definition set_monitor_thread (v : option ThreadArgs) (g : GUI) : GUI :=
  mkGUI (ffmpeg_process g) v (running_event g) (log_queue g) (stats g) (start_time g) (graph g) (start_button g) (stop_button g) (status_var g) (log_text g) (messageboxes g) (after_calls g) (os g).
Definition set_running_event (v : bool) (g : GUI) : GUI :=
  mkGUI (ffmpeg_process g) (monitor_thread g) v (log_queue g) (stats g) (start_time g) (graph g) (start_button g) (stop_button g) (status_var g) (log_text g) (messageboxes g) (after_calls g) (os g).
Definition set_log_queue (v : list string) (g : GUI) : GUI :=
  mkGUI (ffmpeg_process g) (monitor_thread g) (running_event g) v (stats g) (start_time g) (graph g) (start_button g) (stop_button g) (status_var g) (log_text g) (messageboxes g) (after_calls g) (os g).
Definition set_stats (v : Stats) (g : GUI) : GUI :=
  mkGUI (ffmpeg_process g) (monitor_thread g) (running_event g) (log_queue g) v (start_time g) (graph g) (start_button g) (stop_button g) (status_var g) (log_text g) (messageboxes g) (after_calls g) (os g).
Definition set_start_time (v : option float) (g : GUI) : GUI :=
  mkGUI (ffmpeg_process g) (monitor_thread g) (running_event g) (log_queue g) (stats g) v (graph g) (start_button g) (stop_button g) (status_var g) (log_text g) (messageboxes g) (after_calls g) (os g).
Definition set_graph (v : GraphData) (g : GUI) : GUI :=
  mkGUI (ffmpeg_process g) (monitor_thread g) (running_event g) (log_queue g) (stats g) (start_time g) v (start_button g) (stop_button g) (status_var g) (log_text g) (messageboxes g) (after_calls g) (os g).
Definition set_start_button (v : WidgetState) (g : GUI) : GUI :=
  mkGUI (ffmpeg_process g) (monitor_thread g) (running_event g) (log_queue g) (stats g) (start_time g) (graph g) v (stop_button g) (status_var g) (log_text g) (messageboxes g) (after_calls g) (os g).
Definition set_stop_button (v : WidgetState) (g : GUI) : GUI :=
  mkGUI (ffmpeg_process g) (monitor_thread g) (running_event g) (log_queue g) (stats g) (start_time g) (graph g) (start_button g) v (status_var g) (log_text g) (messageboxes g) (after_calls g) (os g).
Definition set_status_var (v : Status) (g : GUI) : GUI :=
  mkGUI (ffmpeg_process g) (monitor_thread g) (running_event g) (log_queue g) (stats g) (start_time g) (graph g) (start_button g) (stop_button g) v (log_text g) (messageboxes g) (after_calls g) (os g).
Definition set_log_text (v : list (string * option Tag)) (g : GUI) : GUI :=
  mkGUI (ffmpeg_process g) (monitor_thread g) (running_event g) (log_queue g) (stats g) (start_time g) (graph g) (start_button g) (stop_button g) (status_var g) v (messageboxes g) (after_calls g) (os g).
Definition set_messageboxes (v : list (string * string)) (g : GUI) : GUI :=
  mkGUI (ffmpeg_process g) (monitor_thread g) (running_event g) (log_queue g) (stats g) (start_time g) (graph g) (start_button g) (stop_button g) (status_var g) (log_text g) v (after_calls g) (os g).
Definition set_after_calls (v : list (Z * Callback)) (g : GUI) : GUI :=
  mkGUI (ffmpeg_process g) (monitor_thread g) (running_event g) (log_queue g) (stats g) (start_time g) (graph g) (start_button g) (stop_button g) (status_var g) (log_text g) (messageboxes g) v (os g).
Definition set_os (v : OS) (g : GUI) : GUI :=
  mkGUI (ffmpeg_process g) (monitor_thread g) (running_event g) (log_queue g) (stats g) (start_time g) (graph g) (start_button g) (stop_button g) (status_var g) (log_text g) (messageboxes g) (after_calls g) v.

(** The object [__init__] builds (lines 40-59, 166). *)
Definition init_gui (w : OS) : GUI :=
  mkGUI None None false [] reset_stats None empty_graph
    NORMAL DISABLED StatusIdle [] [] [] w.

(** ** Methods: state and exceptions *)

(** A method body: it may change the object and it returns or raises. *)
Definition M (A : Type) : Type := GUI -> Exc A * GUI.

Definition mret {A : Type} (a : A) : M A := fun g => (Ret a, g).
Definition mraise {A : Type} (e : exn) : M A := fun g => (Raise e, g).
Definition mbind {A B : Type} (m : M A) (f : A -> M B) : M B :=
  fun g =>
    match m g with
    | (Ret a, g') => f a g'
    | (Raise e, g') => (Raise e, g')
    end.
Definition lift {A : Type} (m : Exc A) : M A := fun g => (m, g).
Definition get : M GUI := fun g => (Ret g, g).
Definition modify (f : GUI -> GUI) : M unit := fun g => (Ret tt, f g).

Declare Scope m_scope.
Delimit Scope m_scope with M.
Notation "x <- m ;; k" := (mbind m (fun x => k))
  (at level 61, m at next level, right associativity) : m_scope.
Notation "m ;; k" := (mbind m (fun _ => k))
  (at level 61, right associativity) : m_scope.

(** [try: body / except <the exceptions catches accepts> as e: handler e]. *)
Definition try_except {A : Type} (catches : exn -> bool) (body : M A)
  (handler : exn -> M A) : M A :=
  fun g =>
    match body g with
    | (Ret a, g') => (Ret a, g')
    | (Raise e, g') => if catches e then handler e g' else (Raise e, g')
    end.

Definition is_FileNotFoundError (e : exn) : bool :=
  match e with FileNotFoundError => true | _ => false end.
Definition is_TimeoutExpired (e : exn) : bool :=
  match e with TimeoutExpired => true | _ => false end.
Definition is_Exception (e : exn) : bool := true.

(** [str(e)]. *)
Definition exn_text (e : exn) : string :=
  match e with
  | ValueError msg => msg
  | AttributeError msg => msg
  | TypeError msg => msg
  | OSError msg => msg
  | ZeroDivisionError => "float division by zero"
  | FileNotFoundError => "No such file or directory"
  | TimeoutExpired => "timed out"
  end.

Definition nl : string := String (ascii_of_nat 10) "".

(** *** Small actions *)

Definition queue_put (msg : string) : M unit :=
  modify (fun g => set_log_queue (log_queue g ++ [msg])%list g).

Definition running_event_set : M unit := modify (set_running_event true).
Definition running_event_clear : M unit := modify (set_running_event false).

(** [os.kill] with the given signal, kept in the trace of signals. *)
Definition send_signal (sig : Signal) : M unit :=
  modify (fun g => set_os (set_signals (signals (os g) ++ [sig])%list (os g)) g).

(** [self.ffmpeg_process.<attr>]: an [AttributeError] on [None]. *)
Definition deref_process : M Popen :=
  fun g =>
    match ffmpeg_process g with
    | Some p => (Ret p, g)
    | None => (Raise (AttributeError "'NoneType' object has no attribute"), g)
    end.

(** [self.ffmpeg_process.wait(timeout=2)] after [terminate()]. *)
Definition Popen_wait : M unit :=
  (p <- deref_process ;;
   if obeys_terminate p
   then modify (set_ffmpeg_process
                  (Some (mkPopen (args p) (Some (-15)) (obeys_terminate p) (stderr p))))
   else mraise TimeoutExpired)%M.

(** [messagebox.showerror(title, message)]. *)
Definition showerror (title message : string) : M unit :=
  modify (fun g => set_messageboxes (messageboxes g ++ [(title, message)])%list g).

(** [self.master.after(ms, callback)]. *)
Definition master_after (ms : Z) (cb : Callback) : M unit :=
  modify (fun g => set_after_calls (after_calls g ++ [(ms, cb)])%list g).

(** *** [stop_monitoring] (lines 263-274) *)

(** Lines 265-270, which lines 341-346 repeat: terminate the probe when
    there is one and it still runs, kill it when it does not exit in time. *)
Definition terminate_if_running : M unit :=
  (g <- get ;;
   let alive :=
     match ffmpeg_process g with
     | Some p => match returncode p with None => true | Some _ => false end
     | None => false
     end in
   if alive
   then send_signal SIGTERM ;;
        try_except is_TimeoutExpired Popen_wait (fun _ => send_signal SIGKILL)
   else mret tt)%M.

Definition stop_monitoring : M unit :=
  (running_event_clear ;;
   terminate_if_running ;;
   modify (set_ffmpeg_process None) ;;
   modify (set_start_button NORMAL) ;;
   modify (set_stop_button DISABLED) ;;
   modify (set_status_var StatusStopped))%M.

(** *** The log view (lines 380-400) *)

(** [c.lower()] on the code points 0..255: A-Z and the capital letters
    0xC0..0xDE except the multiplication sign 0xD7. *)
Definition lower_char (c : ascii) : ascii :=
  let n := code c in
  if ((N.leb 65 n && N.leb n 90)
      || (N.leb 192 n && N.leb n 222 && negb (N.eqb n 215)))%bool
  then ascii_of_N (n + 32)
  else c.

Fixpoint lower (s : string) : string :=
  match s with
  | String c s' => String (lower_char c) (lower s')
  | EmptyString => EmptyString
  end.

(** [sub in s]. *)
Fixpoint contains (sub s : string) : bool :=
  match strip_prefix sub s with
  | Some _ => true
  | None =>
      match s with
      | String _ s' => contains sub s'
      | EmptyString => false
      end
  end.

Definition classify (log_line : string) : option Tag :=
  let lower_line := lower log_line in
  if contains "max delay reached" lower_line then Some tag_error
  else if contains "missed" lower_line then Some tag_warning
  else if contains "fps=" lower_line then Some tag_fps
  else if contains "speed=" lower_line then Some tag_speed
  else if (contains "concealing" lower_line || contains "decode" lower_line)%bool
       then Some tag_decode
  else None.

(** The loop of lines 381-400: every queued line goes to the text widget
    with its tag. *)
Definition drain_log_queue : M unit :=
  modify (fun g =>
    set_log_queue []
      (set_log_text
         (log_text g ++ map (fun log_line => ((log_line ++ nl)%string, classify log_line)) (log_queue g))%list
         g)).

(** [clear_log] (lines 185-186). *)
Definition clear_log : M unit := modify (set_log_text []).

(** *** The averages (lines 402-403 and again 415-416) *)

(** [(self.sum_fps / self.total_frames) if self.total_frames > 0 else 0.0] *)
Definition average_fps (s : Stats) : Exc float :=
  if 0 <? total_frames s
  then py_truediv (sum_fps s) (total_frames s)
  else Ret zero.

Section Monitor.

(** [sum] over a non-empty sequence of floats: the additions from left to
    right up to Python 3.11, a compensated summation since 3.12. *)
Variable py_sum : list float -> float.

(** [shlex.split], which raises [ValueError] on an unbalanced quote or a
    trailing backslash. *)
Variable shlex_split : string -> Exc (list string).

(** [(sum(self.speed_values) / len(self.speed_values)) if self.speed_values
    else 0.0] *)
Definition average_speed (s : Stats) : Exc float :=
  if negb (Nat.eqb (List.length (speed_values s)) 0)
  then py_truediv (py_sum (speed_values s)) (Z.of_nat (List.length (speed_values s)))
  else Ret zero.

(** *** [update_log_display] (lines 380-409)

    The status line is kept as the three numbers it shows.  Their
    formatting into a text (lines 404-405) is left out; it raises
    [ValueError] when [int_fits_str] is false of the missed-packet count. *)

Definition update_log_display : M unit :=
  (drain_log_queue ;;
   g <- get ;;
   avg_fps <- lift (average_fps (stats g)) ;;
   avg_speed <- lift (average_speed (stats g)) ;;
   let status_text := StatusStats avg_fps avg_speed (missed_packets_count (stats g)) in
   (if running_event g then modify (set_status_var status_text) else mret tt) ;;
   (if running_event g then master_after 200 cb_update_log_display else mret tt))%M.

(** *** [update_graphs] (lines 411-467)

    [now] is [time.time()] and [label] is [datetime.now().isoformat()] as
    read by this call; the drawing of the three figures is left out. *)
Definition update_graphs (now : float) (label : string) : M unit :=
  (g <- get ;;
   if running_event g
   then
     t0 <- match start_time g with
           | Some t0 => mret t0
           | None => mraise (TypeError "unsupported operand type(s) for -: 'float' and 'NoneType'")
           end ;;
     let current_time := PrimFloat.sub now t0 in
     avg_fps <- lift (average_fps (stats g)) ;;
     avg_speed <- lift (average_speed (stats g)) ;;
     modify (fun g =>
       set_graph
         (mkGraphData
            (graph_time_data (graph g) ++ [current_time])
            (graph_timestamp_labels (graph g) ++ [label])
            (graph_avg_fps_data (graph g) ++ [avg_fps])
            (graph_avg_speed_data (graph g) ++ [avg_speed])
            (graph_missed_packets_data (graph g) ++ [missed_packets_count (stats g)]))%list
         g) ;;
     master_after 1000 cb_update_graphs
   else mret tt)%M.

(** *** [run_ffmpeg_monitor] (lines 276-348) *)

(** "Build ffmpeg command" (lines 278-281). *)
Definition build_cmd (ffmpeg_exe rtsp_url additional_params : string) : Exc (list string) :=
  (let cmd := [ffmpeg_exe; "-i"; rtsp_url] in
   cmd <- (if truthy_str additional_params
           then extra <- shlex_split additional_params ;; Ret (cmd ++ extra)%list
           else Ret cmd) ;;
   Ret (cmd ++ ["-f"; "null"; "-"])%list)%exc.

(** What [subprocess.Popen(cmd, ...)] does: it raises, or it starts a
    process, described as it stands when the grace period of one second is
    over: its exit status if it is gone by then, whether it obeys
    [terminate()], and its diagnostic output. *)
Inductive SpawnOutcome : Type :=
| SpawnRaises (e : exn)
| Spawned (status_after_grace : option Z) (obeys : bool) (output : list Arrival).

Definition Popen_spawn (cmd : list string) (outcome : SpawnOutcome) : M unit :=
  match outcome with
  | SpawnRaises e => mraise e
  | Spawned rc obeys output =>
      modify (fun g =>
        set_ffmpeg_process (Some (mkPopen cmd rc obeys output))
          (set_os (set_spawned (spawned (os g) ++ [cmd])%list (os g)) g))
  end.

(** [stderr.read()]: all that is left, in one string. *)
Definition read_all (output : list Arrival) : string :=
  fold_right (fun a acc => (text a ++ acc)%string) "" output.

(** [open(output_csv, mode="a", ...)]: creates the file when it is absent. *)
Definition open_append : M unit :=
  fun g =>
    match csv_open_error (os g) with
    | Some e => (Raise e, g)
    | None =>
        match csv_file (os g) with
        | Some _ => (Ret tt, g)
        | None => (Ret tt, set_os (set_csv_file (Some []) (os g)) g)
        end
    end.

(** [writer.writerow(row)] followed by the flush: the row is in the file. *)
Definition writerow (row : list value) : M unit :=
  modify (fun g =>
    set_os (set_csv_file
              (Some (match csv_file (os g) with
                     | Some rows => rows ++ [row]
                     | None => [row]
                     end)%list)
              (os g)) g).

(** [self.ffmpeg_process.stderr.readline()]: the next line leaves the
    pipe. *)
Definition readline_advance : M unit :=
  (p <- deref_process ;;
   modify (set_ffmpeg_process
             (Some (mkPopen (args p) (returncode p) (obeys_terminate p) (tl (stderr p))))))%M.

(** The loop of lines 310-337 over what the pipe still holds; the end of
    the pipe makes [readline()] return the empty string. *)
Fixpoint monitor_loop (output : list Arrival) : M unit :=
  (g <- get ;;
   if running_event g
   then
     readline_advance ;;
     match output with
     | [] => mret tt
     | a :: output' =>
         let line := text a in
         if negb (truthy_str line)
         then mret tt
         else
           let line := strip line in
           parsed <- lift (parse_ffmpeg_line line) ;;
           let timestamp_str := stamp a in
           modify (fun g => set_stats (update_stats parsed (stats g)) g) ;;
           writerow (csv_row timestamp_str parsed line) ;;
           queue_put (timestamp_str ++ " -> " ++ line)%string ;;
           monitor_loop output'
     end
   else mret tt)%M.

(** A probe that outlives the grace period is taken to be running still
    when line 341 polls it; that it may have exited by itself by then, so
    that line 342 sends nothing, is left out. *)
Definition run_ffmpeg_monitor (rtsp_url output_csv ffmpeg_exe additional_params : string)
  (outcome : SpawnOutcome) : M unit :=
  (cmd <- lift (build_cmd ffmpeg_exe rtsp_url additional_params) ;;
   started <- try_except is_FileNotFoundError
                (Popen_spawn cmd outcome ;; mret true)
                (fun _ =>
                   queue_put "Error: ffmpeg not found. Check installation or path." ;;
                   running_event_clear ;;
                   mret false) ;;
   if negb started
   then mret tt
   else
     p <- deref_process ;;
     match returncode p with
     | Some _ =>
         let leftover := read_all (stderr p) in
         queue_put ("FFmpeg failed to start:" ++ nl ++ leftover)%string ;;
         running_event_clear
     | None =>
         g <- get ;;
         let csv_exists := match csv_file (os g) with Some _ => true | None => false end in
         try_except is_Exception
           (open_append ;;
            (if negb csv_exists then writerow csv_header else mret tt) ;;
            monitor_loop (stderr p))
           (fun e => queue_put ("Error writing CSV: " ++ exn_text e)%string) ;;
         terminate_if_running ;;
         modify (set_ffmpeg_process None) ;;
         queue_put ("Monitoring stopped." ++ nl)%string
     end)%M.

(** *** [start_monitoring] (lines 206-261) *)

(** The four entry fields as the user left them. *)
Record Form : Type := mkForm {
  rtsp_url_var : string;
  output_csv_var : string;
  ffmpeg_path_var : string;
  ffmpeg_params_var : string
}.

(** What [start_monitoring] asks its surroundings: [os.path.isfile],
    [shutil.which("ffmpeg")], [time.time()] at line 239, and the two clock
    readings of the first [update_graphs]. *)
Record StartEnv : Type := mkStartEnv {
  isfile : string -> bool;
  which_ffmpeg : option string;
  time_at_start : float;
  time_at_graph : float;
  label_at_graph : string
}.

(** Lines 230-261, once the executable is chosen. *)
Definition launch (env : StartEnv) (rtsp_url output_csv ffmpeg_exe additional_params : string)
  : M unit :=
  (stop_monitoring ;;
   modify (set_stats reset_stats) ;;
   modify (set_start_time (Some (time_at_start env))) ;;
   modify (set_graph empty_graph) ;;
   modify (set_start_button DISABLED) ;;
   modify (set_stop_button NORMAL) ;;
   clear_log ;;
   running_event_set ;;
   modify (set_monitor_thread
             (Some (mkThreadArgs rtsp_url output_csv ffmpeg_exe additional_params))) ;;
   master_after 200 cb_update_log_display ;;
   update_graphs (time_at_graph env) (label_at_graph env) ;;
   modify (set_status_var StatusMonitoring))%M.

Definition start_monitoring (form : Form) (env : StartEnv) : M unit :=
  let rtsp_url := strip (rtsp_url_var form) in
  let output_csv := strip (output_csv_var form) in
  let custom_ffmpeg_path := strip (ffmpeg_path_var form) in
  let additional_params := strip (ffmpeg_params_var form) in
  if negb (truthy_str rtsp_url)
  then showerror "Error" "Please enter an RTSP URL."
  else if truthy_str custom_ffmpeg_path
  then
    let ffmpeg_exe := custom_ffmpeg_path in
    if negb (isfile env ffmpeg_exe)
    then showerror "FFmpeg Error" ("Provided path not found:" ++ nl ++ ffmpeg_exe)
    else launch env rtsp_url output_csv ffmpeg_exe additional_params
  else
    let found := which_ffmpeg env in
    if truthy (of_opt_str found)
    then
      match found with
      | Some ffmpeg_exe => launch env rtsp_url output_csv ffmpeg_exe additional_params
      | None => mret tt
      end
    else showerror "FFmpeg Not Found"
           "ffmpeg is not in PATH. Please install it or specify its full path.".

End Monitor.

(** ** The keys of a parsed line *)

(** What each key of the result is, from its own pattern alone. *)
Definition fps_of (line : string) : option float :=
  match search FPS_PATTERN line with
  | Some m => match py_float (group 1 m) with Ret x => Some x | Raise _ => None end
  | None => None
  end.

Definition speed_of (line : string) : option float :=
  match search SPEED_PATTERN line with
  | Some m => match py_float (group 1 m) with Ret x => Some x | Raise _ => None end
  | None => None
  end.

Definition missed_packets_of (line : string) : option Z :=
  match search MISSED_PACKETS_PATTERN line with
  | Some m => match py_int (group 1 m) with Ret n => Some n | Raise _ => None end
  | None => None
  end.

Definition max_delay_of (line : string) : bool :=
  match search MAX_DELAY_PATTERN line with Some _ => true | None => false end.

Definition decode_errors_of (line : string) : option string :=
  match search DECODE_ERROR_PATTERN line with
  | Some m => Some ("DC=" ++ group 1 m ++ ",AC=" ++ group 2 m ++ ",MV=" ++ group 3 m)
  | None => None
  end.

(** ** What a run has seen *)

(** The lines [readline()] returns before the end of the pipe. *)
Fixpoint before_eof (output : list Arrival) : list Arrival :=
  match output with
  | a :: output' => if truthy_str (text a) then a :: before_eof output' else []
  | [] => []
  end.

(** The lines the loop handles: those read before the end of the pipe,
    stripped (lines 311-314). *)
Definition delivered (output : list Arrival) : list string :=
  map (fun a => strip (text a)) (before_eof output).

(** The record of a line; [parse_ffmpeg_line] never raises (shown below),
    so the second branch is never taken. *)
Definition record_of (line : string) : Parsed :=
  match parse_ffmpeg_line line with
  | Ret r => r
  | Raise _ => mkParsed None None None false None
  end.

Definition present {A : Type} (v : option A) : list A :=
  match v with Some a => [a] | None => [] end.

Definition fps_observations (lines : list string) : list float :=
  flat_map (fun l => present (fps (record_of l))) lines.
Definition speed_observations (lines : list string) : list float :=
  flat_map (fun l => present (speed (record_of l))) lines.
Definition missed_observations (lines : list string) : list Z :=
  flat_map (fun l => present (missed_packets (record_of l))) lines.

(** The statistics after the records of [lines], one after the other. *)
Definition ingest (lines : list string) (s : Stats) : Stats :=
  fold_left (fun acc l => update_stats (record_of l) acc) lines s.

Definition Zsum (l : list Z) : Z := fold_left Z.add l 0.

(** The last [n] elements of a list. *)
Definition lastn {A : Type} (n : nat) (l : list A) : list A :=
  skipn (List.length l - n)%nat l.

(** The state after [readline()] took a line from the pipe. *)
Definition advance (g : GUI) : GUI :=
  match ffmpeg_process g with
  | Some p =>
      set_ffmpeg_process
        (Some (mkPopen (args p) (returncode p) (obeys_terminate p) (tl (stderr p)))) g
  | None => g
  end.

(** The state after one turn of the loop on the line [a] (lines 311-337). *)
Definition loop_body (a : Arrival) (g : GUI) : GUI :=
  let line := strip (text a) in
  let parsed := record_of line in
  let g := advance g in
  let g := set_stats (update_stats parsed (stats g)) g in
  let g := snd (writerow (csv_row (stamp a) parsed line) g) in
  snd (queue_put (stamp a ++ " -> " ++ line) g).

(** The loop leaves alone what it does not write. *)
Record same_frame (g g' : GUI) : Prop := mk_same_frame {
  frame_running_event : running_event g' = running_event g;
  frame_monitor_thread : monitor_thread g' = monitor_thread g;
  frame_start_time : start_time g' = start_time g;
  frame_graph : graph g' = graph g;
  frame_start_button : start_button g' = start_button g;
  frame_stop_button : stop_button g' = stop_button g;
  frame_status_var : status_var g' = status_var g;
  frame_log_text : log_text g' = log_text g;
  frame_messageboxes : messageboxes g' = messageboxes g;
  frame_after_calls : after_calls g' = after_calls g;
  frame_signals : signals (os g') = signals (os g);
  frame_spawned : spawned (os g') = spawned (os g);
  frame_csv_open_error : csv_open_error (os g') = csv_open_error (os g);
  frame_process :
    match ffmpeg_process g, ffmpeg_process g' with
    | Some p, Some p' =>
        args p' = args p /\ returncode p' = returncode p
        /\ obeys_terminate p' = obeys_terminate p
    | None, None => True
    | _, _ => False
    end
}.

(** A session is running while [running_event] is set; it is idle when the
    event is clear and no probe of its own is alive. *)
Definition process_alive (g : GUI) : bool :=
  match ffmpeg_process g with
  | Some p => match returncode p with None => true | Some _ => false end
  | None => false
  end.

Definition session_idle (g : GUI) : bool :=
  (negb (running_event g) && negb (process_alive g))%bool.

(** ** The two threads

    [run_ffmpeg_monitor] runs on a thread of its own (lines 251-256) and the
    timers run on the main loop; both use [total_frames], [sum_fps],
    [speed_values] and [missed_packets_count] and the file takes no lock.
    The interpreter may switch threads between two statements of the
    thread, and between two reads of a timer.  A statement of [stat_writes]
    and a read of a timer are taken to be indivisible, as they are under
    the interpreter's global lock: a read returns the value a statistic has
    after some number of statements of the thread. *)

(** The statements the thread executes on the statistics for [records],
    in the order it executes them. *)
Definition writes_of (records : list Parsed) : list (Stats -> Stats) :=
  flat_map stat_writes records.

(** The statistics when the thread has executed [t] of these statements,
    starting from [s]; all of them when there are fewer than [t]. *)
Definition at_instant (records : list Parsed) (s : Stats) (t : nat) : Stats :=
  run_writes (firstn t (writes_of records)) s.

(** The number of statements executed when the first [j] records are in. *)
Definition statements_for (records : list Parsed) (j : nat) : nat :=
  List.length (writes_of (firstn j records)).

(** The statistics when the first [j] records of [records] are in and
    nothing is in flight. *)
Definition between_updates (records : list Parsed) (j : nat) (s : Stats) : Stats :=
  fold_left (fun acc r => update_stats r acc) (firstn j records) s.

(** What a timer computes (lines 402-405, and lines 415-416 with 422). *)
Record Snapshot : Type := mkSnapshot {
  snapshot_avg_fps : Exc float;
  snapshot_avg_speed : Exc float;
  snapshot_missed_packets : Z
}.

(** The snapshot of one state of the statistics: what a timer computes
    when the thread executes nothing while the timer runs. *)
Definition snapshot (py_sum : list float -> float) (s : Stats) : Snapshot :=
  mkSnapshot (average_fps s) (average_speed py_sum s) (missed_packets_count s).

(** A timer reads the statistics seven times, in the order in which Python
    evaluates lines 402-405 (and lines 415-416 and 422): [total_frames] for
    the test, [sum_fps], [total_frames] for the division; [speed_values]
    for the test, for [sum] and for [len]; [missed_packets_count].  The
    thread can run between any two of the reads.  A schedule gives the
    number of statements the thread has executed at the first read, and for
    each later read the number it executes since the read before. *)
Record Schedule : Type := mkSchedule {
  at_frames_test : nat;
  then_sum_fps : nat;
  then_total_frames : nat;
  then_speed_test : nat;
  then_speed_sum : nat;
  then_speed_len : nat;
  then_missed_packets : nat
}.

(** All seven reads when the thread has executed [t] statements. *)
Definition at_once (t : nat) : Schedule := mkSchedule t 0 0 0 0 0 0.

(** What a timer computes under a schedule, the thread working through
    [records] from the statistics [s]. *)
Definition timer_snapshot (py_sum : list float -> float) (records : list Parsed)
  (s : Stats) (sch : Schedule) : Snapshot :=
  let t1 := at_frames_test sch in
  let t2 := (t1 + then_sum_fps sch)%nat in
  let t3 := (t2 + then_total_frames sch)%nat in
  let t4 := (t3 + then_speed_test sch)%nat in
  let t5 := (t4 + then_speed_sum sch)%nat in
  let t6 := (t5 + then_speed_len sch)%nat in
  let t7 := (t6 + then_missed_packets sch)%nat in
  let seen := at_instant records s in
  mkSnapshot
    (if 0 <? total_frames (seen t1)
     then py_truediv (sum_fps (seen t2)) (total_frames (seen t3))
     else Ret zero)
    (if negb (Nat.eqb (List.length (speed_values (seen t4))) 0)
     then py_truediv (py_sum (speed_values (seen t5)))
            (Z.of_nat (List.length (speed_values (seen t6))))
     else Ret zero)
    (missed_packets_count (seen t7)).

(** The mean of the frame rates [obs], added from left to right; [0.0]
    when there is none. *)
Definition mean (obs : list float) : float :=
  match obs with
  | [] => zero
  | _ :: _ =>
      PrimFloat.div (fold_left PrimFloat.add obs zero)
        (float_of_int (Z.of_nat (List.length obs)))
  end.

(** A statement that lowers neither the frame count nor the length of the
    window. *)
Definition never_shrinks (w : Stats -> Stats) : Prop :=
  forall s : Stats,
    total_frames s <= total_frames (w s)
    /\ (List.length (speed_values s) <= List.length (speed_values (w s)))%nat.

(** ** Instances for the examples *)

(** [sum] as the additions from left to right, starting from [0]. *)
Definition sum_left (xs : list float) : float := fold_left PrimFloat.add xs zero.

Definition is_blank (c : ascii) : bool :=
  let n := code c in (N.eqb n 32 || N.eqb n 9 || N.eqb n 13 || N.eqb n 10)%bool.

(** Cutting at blanks, which is what [shlex.split] does to a text without
    quotes and backslashes. *)
Fixpoint split_blanks_aux (word : string) (s : string) : list string :=
  match s with
  | String c s' =>
      if is_blank c
      then (if truthy_str word then [word] else []) ++ split_blanks_aux "" s'
      else split_blanks_aux (word ++ String c "") s'
  | EmptyString => if truthy_str word then [word] else []
  end%list.

Definition split_blanks (s : string) : Exc (list string) := Ret (split_blanks_aux "" s).

(** A line of output as the pipe gives it, with the time it is handled. *)
Definition line_of (s : string) : Arrival := mkArrival (s ++ nl) "2024-01-01T00:00:00".

(** The application before any session, with no log file yet. *)
Definition fresh_gui : GUI := init_gui (mkOS None None [] []).

Definition example_env : StartEnv :=
  mkStartEnv (fun _ => false) (Some "/usr/bin/ffmpeg") 1000 1000 "2024-01-01T00:00:00".

Definition example_cmd : list string :=
  ["/usr/bin/ffmpeg"; "-i"; "rtsp://example/stream"; "-f"; "null"; "-"].


(** ** What a run leaves behind *)

(** The row written for a line (lines 327-335) and the message queued for
    it (line 337). *)
Definition row_of (a : Arrival) : list value :=
  csv_row (stamp a) (record_of (strip (text a))) (strip (text a)).

Definition message_of (a : Arrival) : string :=
  stamp a ++ " -> " ++ strip (text a).

(** The rows of the log file, none when there is no file. *)
Definition rows_before (g : GUI) : list (list value) :=
  match csv_file (os g) with
  | Some rows => rows
  | None => []
  end.

(** The signals that stopping sends in a state: none unless a probe is
    alive, SIGTERM to a live probe, and SIGKILL after it when the probe
    does not exit within the two seconds (lines 265-270). *)
Definition stop_signals (g : GUI) : list Signal :=
  match ffmpeg_process g with
  | Some p =>
      match returncode p with
      | None => SIGTERM :: (if obeys_terminate p then [] else [SIGKILL])
      | Some _ => []
      end
  | None => []
  end.

(** The five lists behind the graphs have one length. *)
Definition graph_aligned (gr : GraphData) : Prop :=
  List.length (graph_timestamp_labels gr) = List.length (graph_time_data gr)
  /\ List.length (graph_avg_fps_data gr) = List.length (graph_time_data gr)
  /\ List.length (graph_avg_speed_data gr) = List.length (graph_time_data gr)
  /\ List.length (graph_missed_packets_data gr) = List.length (graph_time_data gr).

(** ** Histories

    The methods of the object, run one after the other in any order and
    with any inputs, starting from the object [__init__] builds. *)

Inductive Op : Type :=
| op_start_monitoring (form : Form) (env : StartEnv)
| op_stop_monitoring
| op_run_ffmpeg_monitor (rtsp_url output_csv ffmpeg_exe additional_params : string)
    (outcome : SpawnOutcome)
| op_update_log_display
| op_update_graphs (now : float) (label : string).

Definition apply_op (py_sum : list float -> float)
  (shlex_split : string -> Exc (list string)) (op : Op) (g : GUI) : GUI :=
  snd (match op with
       | op_start_monitoring form env => start_monitoring py_sum form env g
       | op_stop_monitoring => stop_monitoring g
       | op_run_ffmpeg_monitor rtsp_url output_csv ffmpeg_exe additional_params outcome =>
           run_ffmpeg_monitor shlex_split rtsp_url output_csv ffmpeg_exe
             additional_params outcome g
       | op_update_log_display => update_log_display py_sum g
       | op_update_graphs now label => update_graphs py_sum now label g
       end).

Definition history (py_sum : list float -> float)
  (shlex_split : string -> Exc (list string)) (ops : list Op) (w : OS) : GUI :=
  fold_left (fun g op => apply_op py_sum shlex_split op g) ops (init_gui w).

(** The window is within its capacity and the two counters are not
    negative. *)
Definition stats_bounded (s : Stats) : Prop :=
  (List.length (speed_values s) <= maxlen)%nat
  /\ 0 <= total_frames s
  /\ 0 <= missed_packets_count s.

(** A set event comes with a recorded start time. *)
Definition started_when_running (g : GUI) : Prop :=
  running_event g = false \/ exists t0 : float, start_time g = Some t0.

(** ** What a pattern consumes and captures *)

(** [captures r t gs]: the pattern [r] can consume exactly the text [t],
    closing the groups [gs] on the way, in the order they are closed. *)
Fixpoint captures (r : regex) (t : string) (gs : list string) : Prop :=
  match r with
  | Lit l => t = l /\ gs = []
  | Star cls => all_chars cls t = true /\ gs = []
  | Plus cls => truthy_str t = true /\ all_chars cls t = true /\ gs = []
  | Group r' => exists inner : list string, captures r' t inner /\ gs = (inner ++ [t])%list
  | Cat r1 r2 =>
      exists (t1 t2 : string) (gs1 gs2 : list string),
        t = t1 ++ t2 /\ captures r1 t1 gs1 /\ captures r2 t2 gs2 /\ gs = (gs1 ++ gs2)%list
  end.

(** ** More instances for the examples *)

(** A progress line and a warning, as the probe prints them. *)
Definition example_output : list Arrival :=
  [ line_of "frame= 120 fps= 25.0 q=-1.0 size=N/A time=00:00:05.00 bitrate=N/A speed=1.02x";
    line_of "[rtsp @ 0x1] max delay reached. need to consume packet" ].

(** A session about to start its thread, with no log file yet. *)
Definition ready_gui : GUI := set_running_event true fresh_gui.

(** The same with a log file that cannot be opened. *)
Definition locked_gui : GUI :=
  set_running_event true (init_gui (mkOS None (Some (OSError "Permission denied")) [] [])).

(** A running session with two messages queued, one frame rate of 25,
    one speed of 1 and 7 packets missed. *)
Definition queued_gui : GUI :=
  set_log_queue ["t1 -> fps= 25.0 speed=1.02x"; "t2 -> missed 7 packets"]
    (set_stats (mkStats 1 25%float [1%float] 7) ready_gui).

Definition example_form : Form :=
  mkForm " rtsp://example/stream " "stream_log.csv" "" "-rtsp_transport tcp".

(** * Properties *)

(** ** Conversions *)

Lemma py_float_raises_ValueError (s : string) (e : exn) :
  py_float s = Raise e -> is_ValueError e = true.
Proof.
  unfold py_float.
  destruct (all_chars is_digit_or_dot s && (count_chars is_dot s <=? 1)%nat
            && (1 <=? count_chars is_digit s)%nat)%bool; intros H.
  - discriminate H.
  - injection H as <-. reflexivity.
Qed.

Lemma py_int_raises_ValueError (s : string) (e : exn) :
  py_int s = Raise e -> is_ValueError e = true.
Proof.
  unfold py_int.
  destruct (negb (truthy_str s) || negb (all_chars is_digit s))%bool.
  - intros H. injection H as <-. reflexivity.
  - destruct (int_max_str_digits <? String.length s)%nat; intros H.
    + injection H as <-. reflexivity.
    + discriminate H.
Qed.

Lemma is_digit_value (c : ascii) : is_digit c = true -> 0 <= digit_value c <= 9.
Proof.
  unfold is_digit, digit_value. intros H.
  apply andb_prop in H. destruct H as [H1 H2].
  apply N.leb_le in H1. apply N.leb_le in H2. lia.
Qed.

Lemma decimal_value_nonneg (s : string) :
  forall acc, all_chars is_digit s = true -> 0 <= acc -> 0 <= decimal_value acc s.
Proof.
  induction s as [|c s IH]; intros acc Hd Hacc; cbn [decimal_value all_chars] in *.
  - exact Hacc.
  - apply andb_prop in Hd. destruct Hd as [Hc Hs].
    apply IH; [exact Hs|]. pose proof (is_digit_value c Hc). lia.
Qed.

Lemma py_int_nonneg (s : string) (n : Z) : py_int s = Ret n -> 0 <= n.
Proof.
  unfold py_int.
  destruct (negb (truthy_str s)) eqn:Ht; simpl; [discriminate|].
  destruct (all_chars is_digit s) eqn:Hd; simpl; [|discriminate].
  destruct (int_max_str_digits <? String.length s)%nat; [discriminate|].
  intros H. injection H as <-. apply decimal_value_nonneg; [exact Hd|lia].
Qed.

(** ** The parser *)

Lemma parse_ffmpeg_line_fields (line : string) :
  parse_ffmpeg_line line =
  Ret (mkParsed (fps_of line) (speed_of line) (missed_packets_of line)
         (max_delay_of line) (decode_errors_of line)).
Proof.
  unfold parse_ffmpeg_line, fps_of, speed_of, missed_packets_of, max_delay_of,
    decode_errors_of, bind, try_except_ValueError.
  destruct (search FPS_PATTERN line) as [m1|];
    [destruct (py_float (group 1 m1)) as [x1|e1] eqn:E1;
     [|rewrite (py_float_raises_ValueError _ _ E1)]|];
  (destruct (search SPEED_PATTERN line) as [m2|];
    [destruct (py_float (group 1 m2)) as [x2|e2] eqn:E2;
     [|rewrite (py_float_raises_ValueError _ _ E2)]|]);
  (destruct (search MISSED_PACKETS_PATTERN line) as [m3|];
    [destruct (py_int (group 1 m3)) as [x3|e3] eqn:E3;
     [|rewrite (py_int_raises_ValueError _ _ E3)]|]);
  destruct (search MAX_DELAY_PATTERN line);
  destruct (search DECODE_ERROR_PATTERN line);
  reflexivity.
Qed.

(** C4. [parse_ffmpeg_line] returns a record for every line and never
    raises.  Each key depends on its own pattern alone: it is absent when
    the pattern does not occur in the line, and when the captured number
    does not convert ([ValueError]) that key alone is absent; the other keys
    are what their own patterns give. *)
Theorem parse_ffmpeg_line_never_fails (line : string) :
  exists r : Parsed,
    parse_ffmpeg_line line = Ret r
    /\ fps r = fps_of line
    /\ speed r = speed_of line
    /\ missed_packets r = missed_packets_of line
    /\ max_delay r = max_delay_of line
    /\ decode_errors r = decode_errors_of line.
Proof.
  eexists. split; [apply parse_ffmpeg_line_fields|].
  repeat split; reflexivity.
Qed.

Lemma record_of_fields (line : string) :
  record_of line =
  mkParsed (fps_of line) (speed_of line) (missed_packets_of line)
    (max_delay_of line) (decode_errors_of line).
Proof. unfold record_of. rewrite parse_ffmpeg_line_fields. reflexivity. Qed.

(** A line whose frame rate does not convert keeps its other keys. *)
Example parse_malformed_fps :
  parse_ffmpeg_line "fps=1.2.3 speed=2x missed 4 packets"
  = Ret (mkParsed None (Some 2%float) (Some 4) false None).
Proof. vm_compute. reflexivity. Qed.

Example parse_progress_line :
  parse_ffmpeg_line
    "frame= 120 fps= 25.0 q=-1.0 size=N/A time=00:00:05.00 bitrate=N/A speed=1.02x"
  = Ret (mkParsed (Some 25%float) (Some 0x1.051eb851eb852p+0%float) None false None).
Proof. vm_compute. reflexivity. Qed.

(** ** The rows *)

Lemma csv_row_fps (ts line : string) (r : Parsed) :
  nth 1 (csv_row ts r line) VNone
  = match fps r with Some x => VFloat x | None => VStr "" end.
Proof. destruct r as [[x|] s m d e]; reflexivity. Qed.

Lemma csv_row_speed (ts line : string) (r : Parsed) :
  nth 2 (csv_row ts r line) VNone
  = match speed r with Some x => VFloat x | None => VStr "" end.
Proof. destruct r as [f [x|] m d e]; reflexivity. Qed.

Lemma csv_row_max_delay (ts line : string) (r : Parsed) :
  nth 4 (csv_row ts r line) VNone = VInt (if max_delay r then 1 else 0).
Proof. reflexivity. Qed.

(** A composite text made by the parser is never empty, so the truth test
    of line 333 lets it through. *)
Lemma csv_row_decode_errors (ts line raw : string) :
  nth 5 (csv_row ts (record_of raw) line) VNone
  = match decode_errors_of raw with Some s => VStr s | None => VStr "" end.
Proof.
  rewrite record_of_fields. unfold decode_errors_of.
  destruct (search DECODE_ERROR_PATTERN raw); reflexivity.
Qed.

(** Line 331 tests the truth of the count, not its presence. *)
Lemma csv_row_missed_packets (ts line : string) (r : Parsed) :
  nth 3 (csv_row ts r line) VNone
  = match missed_packets r with
    | Some n => if n =? 0 then VStr "" else VInt n
    | None => VStr ""
    end.
Proof.
  destruct r as [f s [n|] d e]; [|reflexivity].
  unfold csv_row; cbn. destruct (n =? 0); reflexivity.
Qed.

(** C1, at the line ["missed 0 packets"]: the count is present and is [0],
    its column is the empty string, and the whole row is the row of the
    record without a count. *)
Theorem csv_row_zero_missed_packets_is_blank :
  parse_ffmpeg_line "missed 0 packets" = Ret (mkParsed None None (Some 0) false None)
  /\ (forall (ts line : string) (f s : option float) (d : bool) (e : option string),
        nth 3 (csv_row ts (mkParsed f s (Some 0) d e) line) VNone = VStr ""
        /\ csv_row ts (mkParsed f s (Some 0) d e) line
           = csv_row ts (mkParsed f s None d e) line).
Proof.
  split; [vm_compute; reflexivity|].
  intros ts line f s d e. split; reflexivity.
Qed.

(** ** Stopping *)

(** C3. [stop_monitoring] returns without raising from every state, and a
    second call right after it leaves the state as the first one left it:
    nothing is signalled, no field changes. *)
Theorem stop_monitoring_idempotent (g : GUI) :
  exists g1 : GUI,
    stop_monitoring g = (Ret tt, g1)
    /\ stop_monitoring g1 = (Ret tt, g1).
Proof.
  destruct g as [[[a [rc|] [|] out]|] th run q st t0 gr sb pb sv lt mb ac w];
    (eexists; split; [reflexivity|reflexivity]).
Qed.

(** The state [stop_monitoring] leaves is idle. *)
Lemma stop_monitoring_idle (g : GUI) : session_idle (snd (stop_monitoring g)) = true.
Proof.
  destruct g as [[[a [rc|] [|] out]|] th run q st t0 gr sb pb sv lt mb ac w]; reflexivity.
Qed.

(** ** The averages *)

Lemma average_fps_returns (s : Stats) :
  average_fps s
  = Ret (if 0 <? total_frames s
         then PrimFloat.div (sum_fps s) (float_of_int (total_frames s))
         else zero).
Proof.
  unfold average_fps, py_truediv.
  destruct (0 <? total_frames s) eqn:H; [|reflexivity].
  apply Z.ltb_lt in H.
  destruct (total_frames s =? 0) eqn:H0; [apply Z.eqb_eq in H0; lia|reflexivity].
Qed.

Lemma average_speed_returns (py_sum : list float -> float) (s : Stats) :
  average_speed py_sum s
  = Ret (match speed_values s with
         | [] => zero
         | _ :: _ =>
             PrimFloat.div (py_sum (speed_values s))
               (float_of_int (Z.of_nat (List.length (speed_values s))))
         end).
Proof.
  unfold average_speed, py_truediv.
  destruct (speed_values s) as [|x l]; [reflexivity|].
  cbn [List.length Nat.eqb negb].
  destruct (Z.of_nat (S (List.length l)) =? 0) eqn:H0; [apply Z.eqb_eq in H0; lia|reflexivity].
Qed.

(** C10. Neither average divides by zero: both return for every state of
    the statistics, [0.0] when nothing was counted, and so the two timers
    never raise [ZeroDivisionError]; [update_graphs] raises only when it
    runs while the event is set and no start time was recorded. *)
Theorem averages_never_divide_by_zero (py_sum : list float -> float) :
  (forall s : Stats, exists x y : float,
      average_fps s = Ret x /\ average_speed py_sum s = Ret y)
  /\ (forall (f : float) (sv : list float) (m : Z),
        average_fps (mkStats 0 f sv m) = Ret zero)
  /\ (forall (n : Z) (f : float) (m : Z),
        average_speed py_sum (mkStats n f [] m) = Ret zero)
  /\ (forall g : GUI, fst (update_log_display py_sum g) = Ret tt)
  /\ (forall (now : float) (label : string) (g : GUI),
        fst (update_graphs py_sum now label g)
        = match running_event g, start_time g with
          | true, None =>
              Raise (TypeError "unsupported operand type(s) for -: 'float' and 'NoneType'")
          | _, _ => Ret tt
          end).
Proof.
  split; [|split; [|split; [|split]]].
  - intros s. rewrite average_fps_returns, average_speed_returns.
    eexists. eexists. split; reflexivity.
  - reflexivity.
  - reflexivity.
  - intros g. unfold update_log_display, mbind, drain_log_queue, modify, get, lift.
    cbn. rewrite average_fps_returns, average_speed_returns.
    cbn. destruct (running_event g); reflexivity.
  - intros now label g. unfold update_graphs, mbind, get, lift.
    destruct (running_event g); [|reflexivity].
    destruct (start_time g); [|reflexivity].
    cbn. rewrite average_fps_returns, average_speed_returns. reflexivity.
Qed.

(** ** The ingestion loop *)

Lemma loop_body_running_event (a : Arrival) (g : GUI) :
  running_event (loop_body a g) = running_event g.
Proof. unfold loop_body, advance. destruct (ffmpeg_process g); reflexivity. Qed.

Lemma loop_body_stats (a : Arrival) (g : GUI) :
  stats (loop_body a g) = update_stats (record_of (strip (text a))) (stats g).
Proof. unfold loop_body, advance. destruct (ffmpeg_process g); reflexivity. Qed.

Lemma loop_body_process (a : Arrival) (g : GUI) (p : Popen) :
  ffmpeg_process g = Some p ->
  ffmpeg_process (loop_body a g)
  = Some (mkPopen (args p) (returncode p) (obeys_terminate p) (tl (stderr p))).
Proof. intros H. unfold loop_body, advance. rewrite H. reflexivity. Qed.

Lemma monitor_loop_step (a : Arrival) (output : list Arrival) (g : GUI) (p : Popen) :
  running_event g = true ->
  ffmpeg_process g = Some p ->
  truthy_str (text a) = true ->
  monitor_loop (a :: output) g = monitor_loop output (loop_body a g).
Proof.
  intros Hrun Hp Ha.
  cbn [monitor_loop]. unfold mbind at 1. unfold get at 1. rewrite Hrun.
  unfold mbind at 1. unfold readline_advance, mbind at 1, deref_process at 1. rewrite Hp.
  unfold modify at 1. rewrite Ha. cbn [negb].
  unfold mbind at 1, lift at 1. rewrite parse_ffmpeg_line_fields.
  unfold loop_body, advance. rewrite Hp, record_of_fields.
  reflexivity.
Qed.

Lemma monitor_loop_end (g : GUI) (p : Popen) :
  running_event g = true ->
  ffmpeg_process g = Some p ->
  monitor_loop [] g = (Ret tt, advance g).
Proof.
  intros Hrun Hp. cbn [monitor_loop]. unfold mbind, get, readline_advance, mbind,
    deref_process, modify, mret, advance.
  rewrite Hrun, Hp. reflexivity.
Qed.

Lemma monitor_loop_eof (a : Arrival) (output : list Arrival) (g : GUI) (p : Popen) :
  running_event g = true ->
  ffmpeg_process g = Some p ->
  truthy_str (text a) = false ->
  monitor_loop (a :: output) g = (Ret tt, advance g).
Proof.
  intros Hrun Hp Ha. cbn [monitor_loop]. unfold mbind, get, readline_advance, mbind,
    deref_process, modify, mret, advance.
  rewrite Hrun, Hp, Ha. reflexivity.
Qed.

(** The loop returns, and its effect is that of its turns on the lines read
    before the end of the pipe, followed by the read that finds the end. *)
Lemma monitor_loop_run (output : list Arrival) :
  forall (g : GUI) (p : Popen),
    running_event g = true ->
    ffmpeg_process g = Some p ->
    monitor_loop output g
    = (Ret tt, advance (fold_left (fun acc a => loop_body a acc) (before_eof output) g)).
Proof.
  induction output as [|a output IH]; intros g p Hrun Hp.
  - apply (monitor_loop_end g p Hrun Hp).
  - cbn [before_eof]. destruct (truthy_str (text a)) eqn:Ha.
    + rewrite (monitor_loop_step a output g p Hrun Hp Ha).
      cbn [fold_left].
      eapply IH.
      * rewrite loop_body_running_event. exact Hrun.
      * apply (loop_body_process a g p Hp).
    + apply (monitor_loop_eof a output g p Hrun Hp Ha).
Qed.

Lemma same_frame_refl (g : GUI) : same_frame g g.
Proof.
  constructor; try reflexivity. destruct (ffmpeg_process g); [repeat split|exact I].
Qed.

Lemma same_frame_trans (g1 g2 g3 : GUI) :
  same_frame g1 g2 -> same_frame g2 g3 -> same_frame g1 g3.
Proof.
  intros [] []. constructor; try congruence.
  destruct (ffmpeg_process g1), (ffmpeg_process g2), (ffmpeg_process g3);
    try contradiction; try exact I.
  intuition congruence.
Qed.

Lemma advance_frame (g : GUI) : same_frame g (advance g).
Proof.
  unfold advance. destruct (ffmpeg_process g) eqn:Hp.
  - constructor; try reflexivity. rewrite Hp. cbn. repeat split.
  - apply same_frame_refl.
Qed.

Lemma loop_body_frame (a : Arrival) (g : GUI) : same_frame g (loop_body a g).
Proof.
  unfold loop_body, advance. destruct (ffmpeg_process g) eqn:Hp.
  - constructor; try reflexivity. rewrite Hp. cbn. repeat split.
  - constructor; try reflexivity. rewrite Hp. cbn. rewrite Hp. exact I.
Qed.

Lemma loop_turns_frame (l : list Arrival) :
  forall g : GUI, same_frame g (fold_left (fun acc a => loop_body a acc) l g).
Proof.
  induction l as [|a l IH]; intros g; cbn [fold_left].
  - apply same_frame_refl.
  - eapply same_frame_trans; [apply (loop_body_frame a g)|apply IH].
Qed.

Lemma loop_turns_stats (l : list Arrival) :
  forall g : GUI,
    stats (fold_left (fun acc a => loop_body a acc) l g)
    = ingest (map (fun a => strip (text a)) l) (stats g).
Proof.
  induction l as [|a l IH]; intros g; cbn [fold_left map].
  - reflexivity.
  - rewrite IH, loop_body_stats. reflexivity.
Qed.

Lemma advance_stats (g : GUI) : stats (advance g) = stats g.
Proof. unfold advance. destruct (ffmpeg_process g); reflexivity. Qed.

(** ** A run of the monitor thread *)

Lemma writerow_frame (row : list value) (g : GUI) :
  same_frame g (snd (writerow row g))
  /\ stats (snd (writerow row g)) = stats g
  /\ ffmpeg_process (snd (writerow row g)) = ffmpeg_process g.
Proof.
  split; [|split; reflexivity].
  constructor; try reflexivity. cbn. destruct (ffmpeg_process g); [repeat split|exact I].
Qed.

(** The body of the [with] statement (lines 305-337) on a live probe and a
    file that opens. *)
Lemma with_block_run (csv_exists : bool) (output : list Arrival) (g : GUI) (p : Popen) :
  running_event g = true ->
  ffmpeg_process g = Some p ->
  csv_open_error (os g) = None ->
  exists gl : GUI,
    (open_append ;;
     (if negb csv_exists then writerow csv_header else mret tt) ;;
     monitor_loop output)%M g = (Ret tt, gl)
    /\ same_frame g gl
    /\ stats gl = ingest (delivered output) (stats g).
Proof.
  intros Hrun Hp Hopen.
  assert (Hopened : exists g1, open_append g = (Ret tt, g1) /\ same_frame g g1
                               /\ stats g1 = stats g /\ ffmpeg_process g1 = Some p).
  { unfold open_append. rewrite Hopen. destruct (csv_file (os g)).
    - exists g. repeat split; try assumption. apply same_frame_refl.
    - eexists. split; [reflexivity|]. split; [|split; [reflexivity|exact Hp]].
      constructor; try reflexivity. rewrite Hp. cbn. rewrite Hp. repeat split. }
  destruct Hopened as (g1 & E1 & F1 & S1 & P1).
  assert (Hheader : exists g2,
             (if negb csv_exists then writerow csv_header else mret tt) g1 = (Ret tt, g2)
             /\ same_frame g1 g2 /\ stats g2 = stats g1 /\ ffmpeg_process g2 = Some p).
  { destruct csv_exists; cbn [negb].
    - exists g1. repeat split; try assumption. apply same_frame_refl.
    - exists (snd (writerow csv_header g1)).
      destruct (writerow_frame csv_header g1) as (F & S & P).
      split; [reflexivity|]. split; [exact F|]. split; [exact S|]. rewrite P. exact P1. }
  destruct Hheader as (g2 & E2 & F2 & S2 & P2).
  assert (Hrun2 : running_event g2 = true).
  { rewrite (frame_running_event _ _ F2), (frame_running_event _ _ F1). exact Hrun. }
  eexists. split.
  - unfold mbind. rewrite E1, E2. apply (monitor_loop_run output g2 p Hrun2 P2).
  - split.
    + eapply same_frame_trans; [exact F1|].
      eapply same_frame_trans; [exact F2|].
      eapply same_frame_trans; [apply loop_turns_frame|apply advance_frame].
    + rewrite advance_stats, loop_turns_stats, S2, S1. reflexivity.
Qed.

(** Lines 341-348 on a probe that still runs. *)
Lemma shutdown_run (g : GUI) (p : Popen) :
  ffmpeg_process g = Some p ->
  returncode p = None ->
  exists g2 : GUI,
    (terminate_if_running ;;
     modify (set_ffmpeg_process None) ;;
     queue_put ("Monitoring stopped." ++ nl))%M g = (Ret tt, g2)
    /\ stats g2 = stats g
    /\ spawned (os g2) = spawned (os g)
    /\ running_event g2 = running_event g
    /\ ffmpeg_process g2 = None
    /\ signals (os g2)
       = (signals (os g) ++ SIGTERM :: (if obeys_terminate p then [] else [SIGKILL]))%list
    /\ log_queue g2 = (log_queue g ++ [("Monitoring stopped." ++ nl)%string])%list
    /\ csv_file (os g2) = csv_file (os g).
Proof.
  intros Hp Hrc.
  unfold terminate_if_running, mbind, get, send_signal, modify, try_except, Popen_wait,
    mbind, deref_process, queue_put, modify, mraise.
  rewrite Hp, Hrc. cbn. rewrite Hp. destruct (obeys_terminate p); cbn.
  - eexists. split; [reflexivity|]. repeat split.
  - eexists. split; [reflexivity|]. repeat split.
    cbn. rewrite <- app_assoc. reflexivity.
Qed.

(** A run whose probe outlives the grace period and whose file opens: the
    thread returns and the statistics are those of the lines read. *)
Lemma run_ffmpeg_monitor_running (shlex_split : string -> Exc (list string))
  (rtsp_url output_csv ffmpeg_exe additional_params : string)
  (cmd : list string) (obeys : bool) (output : list Arrival) (g : GUI) :
  build_cmd shlex_split ffmpeg_exe rtsp_url additional_params = Ret cmd ->
  running_event g = true ->
  csv_open_error (os g) = None ->
  exists g2 : GUI,
    run_ffmpeg_monitor shlex_split rtsp_url output_csv ffmpeg_exe additional_params
      (Spawned None obeys output) g = (Ret tt, g2)
    /\ stats g2 = ingest (delivered output) (stats g)
    /\ spawned (os g2) = (spawned (os g) ++ [cmd])%list
    /\ ffmpeg_process g2 = None
    /\ running_event g2 = true.
Proof.
  intros Hcmd Hrun Hopen.
  unfold run_ffmpeg_monitor. unfold mbind at 1. unfold lift at 1. rewrite Hcmd.
  unfold mbind at 1. unfold try_except at 1.
  unfold mbind at 1. unfold Popen_spawn at 1. unfold modify at 1. unfold mret at 1.
  cbn [negb].
  unfold mbind at 1. unfold deref_process at 1.
  cbn [ffmpeg_process set_ffmpeg_process returncode stderr].
  unfold mbind at 1. unfold get at 1.
  set (p := mkPopen cmd None obeys output).
  set (g1 := set_ffmpeg_process (Some p) _).
  set (b := match csv_file (os g1) with Some _ => true | None => false end).
  destruct (with_block_run b output g1 p) as (gl & El & Fl & Sl);
    [exact Hrun|reflexivity|exact Hopen|].
  unfold mbind at 1. unfold try_except at 1. rewrite El.
  pose proof (frame_process _ _ Fl) as Hproc. cbn [g1 ffmpeg_process set_ffmpeg_process] in Hproc.
  destruct (ffmpeg_process gl) as [p'|] eqn:Hp'; [|contradiction].
  destruct Hproc as (_ & Hrc & _). cbn in Hrc.
  destruct (shutdown_run gl p' Hp' Hrc) as (g2 & E2 & S2 & W2 & R2 & P2 & _).
  exists g2. split; [exact E2|].
  split; [rewrite S2, Sl; reflexivity|].
  split; [rewrite W2, (frame_spawned _ _ Fl); reflexivity|].
  split; [exact P2|].
  rewrite R2, (frame_running_event _ _ Fl). exact Hrun.
Qed.

(** ** The statistics of a run *)

Lemma update_stats_missed (r : Parsed) (s : Stats) :
  missed_packets_count (update_stats r s)
  = missed_packets_count s + Zsum (present (missed_packets r)).
Proof.
  destruct r as [[f|] [v|] [n|] d e]; unfold Zsum; cbn; lia.
Qed.

Lemma update_stats_total_frames (r : Parsed) (s : Stats) :
  total_frames (update_stats r s)
  = total_frames s + Z.of_nat (List.length (present (fps r))).
Proof.
  destruct r as [[f|] [v|] [n|] d e]; cbn; lia.
Qed.

Lemma update_stats_sum_fps (r : Parsed) (s : Stats) :
  sum_fps (update_stats r s) = fold_left PrimFloat.add (present (fps r)) (sum_fps s).
Proof.
  destruct r as [[f|] [v|] [n|] d e]; reflexivity.
Qed.

Lemma update_stats_speed_values (r : Parsed) (s : Stats) :
  speed_values (update_stats r s)
  = fold_left (fun d x => deque_append x d) (present (speed r)) (speed_values s).
Proof.
  destruct r as [[f|] [v|] [n|] d e]; reflexivity.
Qed.

Lemma Zsum_from (l : list Z) : forall a : Z, fold_left Z.add l a = a + Zsum l.
Proof.
  unfold Zsum. induction l as [|x l IH]; intros a; cbn [fold_left].
  - lia.
  - rewrite (IH (a + x)), (IH (0 + x)). lia.
Qed.

Lemma Zsum_app (l1 l2 : list Z) : Zsum (l1 ++ l2) = Zsum l1 + Zsum l2.
Proof.
  unfold Zsum at 1. rewrite fold_left_app. rewrite Zsum_from. reflexivity.
Qed.

Lemma ingest_missed (lines : list string) :
  forall s : Stats,
    missed_packets_count (ingest lines s)
    = missed_packets_count s + Zsum (missed_observations lines).
Proof.
  unfold ingest, missed_observations.
  induction lines as [|l lines IH]; intros s; cbn [fold_left flat_map].
  - unfold Zsum. cbn. lia.
  - rewrite IH, update_stats_missed, Zsum_app. lia.
Qed.

Lemma ingest_total_frames (lines : list string) :
  forall s : Stats,
    total_frames (ingest lines s)
    = total_frames s + Z.of_nat (List.length (fps_observations lines)).
Proof.
  unfold ingest, fps_observations.
  induction lines as [|l lines IH]; intros s; cbn [fold_left flat_map].
  - cbn. lia.
  - rewrite IH, update_stats_total_frames, length_app. lia.
Qed.

Lemma ingest_sum_fps (lines : list string) :
  forall s : Stats,
    sum_fps (ingest lines s) = fold_left PrimFloat.add (fps_observations lines) (sum_fps s).
Proof.
  unfold ingest, fps_observations.
  induction lines as [|l lines IH]; intros s; cbn [fold_left flat_map].
  - reflexivity.
  - rewrite IH, update_stats_sum_fps, fold_left_app. reflexivity.
Qed.

Lemma ingest_speed_values (lines : list string) :
  forall s : Stats,
    speed_values (ingest lines s)
    = fold_left (fun d x => deque_append x d) (speed_observations lines) (speed_values s).
Proof.
  unfold ingest, speed_observations.
  induction lines as [|l lines IH]; intros s; cbn [fold_left flat_map].
  - reflexivity.
  - rewrite IH, update_stats_speed_values, fold_left_app. reflexivity.
Qed.

(** A parsed count is never negative, so no update lowers the counter. *)
Lemma missed_packets_of_nonneg (line : string) (n : Z) :
  missed_packets_of line = Some n -> 0 <= n.
Proof.
  unfold missed_packets_of.
  destruct (search MISSED_PACKETS_PATTERN line) as [m|]; [|discriminate].
  destruct (py_int (group 1 m)) as [k|e] eqn:E; [|discriminate].
  intros H. injection H as <-. exact (py_int_nonneg _ _ E).
Qed.

Lemma update_stats_monotone (line : string) (s : Stats) :
  missed_packets_count s <= missed_packets_count (update_stats (record_of line) s).
Proof.
  rewrite update_stats_missed, record_of_fields. cbn [missed_packets].
  destruct (missed_packets_of line) as [n|] eqn:E; unfold Zsum; cbn.
  - pose proof (missed_packets_of_nonneg line n E). lia.
  - lia.
Qed.

(** *** The bounded window *)

Lemma lastn_all {A : Type} (n : nat) (l : list A) :
  (List.length l <= n)%nat -> lastn n l = l.
Proof.
  intros H. unfold lastn. replace (List.length l - n)%nat with 0%nat by lia. reflexivity.
Qed.

Lemma lastn_length {A : Type} (n : nat) (l : list A) :
  List.length (lastn n l) = Nat.min (List.length l) n.
Proof. unfold lastn. rewrite length_skipn. lia. Qed.

Lemma skipn_tl {A : Type} (k : nat) (l : list A) : tl (skipn k l) = skipn (S k) l.
Proof.
  revert l. induction k as [|k IH]; intros l.
  - destruct l; reflexivity.
  - destruct l as [|x l]; [reflexivity|]. cbn [skipn]. rewrite IH.
    destruct l; reflexivity.
Qed.

Lemma tl_app_nonempty {A : Type} (l1 l2 : list A) :
  (0 < List.length l1)%nat -> tl (l1 ++ l2) = (tl l1 ++ l2)%list.
Proof. destruct l1; cbn; [lia|reflexivity]. Qed.

Lemma deque_append_lastn (x : float) (l : list float) :
  deque_append x (lastn maxlen l) = lastn maxlen (l ++ [x]).
Proof.
  unfold deque_append, lastn, maxlen. rewrite length_app, length_app, length_skipn.
  cbn [List.length].
  destruct (Nat.ltb_spec 50
              (List.length l - (List.length l - 50) + 1)%nat) as [H|H].
  - rewrite tl_app_nonempty by (rewrite length_skipn; lia).
    rewrite skipn_tl, skipn_app.
    replace (List.length l + 1 - 50)%nat with (S (List.length l - 50)) by lia.
    replace (S (List.length l - 50) - List.length l)%nat with 0%nat by lia.
    reflexivity.
  - replace (List.length l - 50)%nat with 0%nat by lia.
    replace (List.length l + 1 - 50)%nat with 0%nat by lia.
    reflexivity.
Qed.

Lemma deque_fill (xs : list float) :
  forall l : list float,
    fold_left (fun d x => deque_append x d) xs (lastn maxlen l) = lastn maxlen (l ++ xs).
Proof.
  induction xs as [|x xs IH]; intros l; cbn [fold_left].
  - rewrite app_nil_r. reflexivity.
  - rewrite deque_append_lastn, IH, <- app_assoc. reflexivity.
Qed.

(** ** The two threads *)

Lemma deque_append_grows (x : float) (d : list float) :
  (List.length d <= List.length (deque_append x d))%nat.
Proof.
  unfold deque_append.
  destruct (maxlen <? List.length (d ++ [x]))%nat.
  - destruct d as [|y d]; cbn [app tl List.length]; [lia|].
    rewrite length_app. cbn [List.length]. lia.
  - rewrite length_app. lia.
Qed.

Lemma stat_writes_never_shrink (parsed : Parsed) :
  Forall never_shrinks (stat_writes parsed).
Proof.
  unfold stat_writes.
  destruct (fps parsed), (speed parsed), (missed_packets parsed);
    cbn [app]; repeat constructor; cbn; try lia; apply deque_append_grows.
Qed.

Lemma writes_of_never_shrink (records : list Parsed) :
  Forall never_shrinks (writes_of records).
Proof.
  unfold writes_of. induction records as [|r records IH]; cbn [flat_map].
  - constructor.
  - apply Forall_app. split; [apply stat_writes_never_shrink|exact IH].
Qed.

Lemma run_writes_app (ws ws' : list (Stats -> Stats)) (s : Stats) :
  run_writes (ws ++ ws') s = run_writes ws' (run_writes ws s).
Proof. unfold run_writes. apply fold_left_app. Qed.

Lemma prefix_never_shrinks (ws : list (Stats -> Stats)) :
  Forall never_shrinks ws ->
  forall (t : nat) (s : Stats),
    total_frames s <= total_frames (run_writes (firstn t ws) s)
    /\ (List.length (speed_values s)
        <= List.length (speed_values (run_writes (firstn t ws) s)))%nat.
Proof.
  induction 1 as [|w ws Hw _ IH]; intros t s.
  - rewrite firstn_nil. cbn. lia.
  - destruct t as [|t]; [cbn; lia|].
    rewrite firstn_cons. unfold run_writes. cbn [fold_left].
    destruct (Hw s) as [F L]. destruct (IH t (w s)) as [F' L'].
    unfold run_writes in F', L'. lia.
Qed.

Lemma later_prefix_never_shrinks (ws : list (Stats -> Stats)) :
  Forall never_shrinks ws ->
  forall (t t' : nat) (s : Stats),
    (t <= t')%nat ->
    total_frames (run_writes (firstn t ws) s) <= total_frames (run_writes (firstn t' ws) s)
    /\ (List.length (speed_values (run_writes (firstn t ws) s))
        <= List.length (speed_values (run_writes (firstn t' ws) s)))%nat.
Proof.
  intros H. induction H as [|w ws Hw Hws IH]; intros t t' s Ht.
  - rewrite !firstn_nil. cbn. lia.
  - destruct t as [|t].
    + rewrite firstn_0. exact (prefix_never_shrinks (w :: ws) (Forall_cons w Hw Hws) t' s).
    + destruct t' as [|t']; [lia|].
      rewrite !firstn_cons. unfold run_writes. cbn [fold_left].
      apply (IH t t' (w s)). lia.
Qed.

(** The frame count and the length of the window never go down while the
    thread works. *)
Lemma at_instant_never_shrinks (records : list Parsed) (s : Stats) (t t' : nat) :
  (t <= t')%nat ->
  total_frames (at_instant records s t) <= total_frames (at_instant records s t')
  /\ (List.length (speed_values (at_instant records s t))
      <= List.length (speed_values (at_instant records s t')))%nat.
Proof.
  intros Ht. unfold at_instant.
  exact (later_prefix_never_shrinks _ (writes_of_never_shrink records) t t' s Ht).
Qed.

Lemma run_writes_of (records : list Parsed) :
  forall s : Stats,
    run_writes (writes_of records) s = fold_left (fun acc r => update_stats r acc) records s.
Proof.
  unfold writes_of. induction records as [|r records IH]; intros s; cbn [flat_map fold_left].
  - reflexivity.
  - rewrite run_writes_app, IH. reflexivity.
Qed.

(** Between two updates the thread is at a state [between_updates]. *)
Lemma at_instant_between_updates (records : list Parsed) (j : nat) (s : Stats) :
  at_instant records s (statements_for records j) = between_updates records j s.
Proof.
  unfold at_instant, statements_for, between_updates.
  rewrite <- (firstn_skipn j records) at 2.
  unfold writes_of at 2. rewrite flat_map_app. fold (writes_of (firstn j records)).
  rewrite firstn_app, firstn_all, Nat.sub_diag, firstn_0, app_nil_r.
  apply run_writes_of.
Qed.

Lemma between_updates_ingest (lines : list string) (j : nat) (s : Stats) :
  between_updates (map record_of lines) j s = ingest (firstn j lines) s.
Proof.
  unfold between_updates, ingest. rewrite firstn_map.
  generalize (firstn j lines) s. intros l. induction l as [|x l IH]; intros s'; cbn [map fold_left].
  - reflexivity.
  - apply IH.
Qed.

(** The missed-packet counter has one statement of its own, the last of an
    update: whenever it is read, its value is that of a state between two
    updates. *)
Lemma missed_packets_count_whole (records : list Parsed) :
  forall (s : Stats) (t : nat),
    exists j : nat,
      missed_packets_count (at_instant records s t)
      = missed_packets_count (between_updates records j s).
Proof.
  induction records as [|r records IH]; intros s t.
  - exists 0%nat. unfold at_instant, between_updates. cbn. rewrite firstn_nil. reflexivity.
  - destruct (Nat.ltb_spec t (List.length (stat_writes r))) as [L|L].
    + exists 0%nat. unfold at_instant, between_updates, writes_of.
      cbn [flat_map firstn fold_left]. rewrite firstn_app.
      replace (t - List.length (stat_writes r))%nat with 0%nat by lia.
      rewrite firstn_0, app_nil_r.
      revert L. unfold stat_writes.
      destruct (fps r), (speed r), (missed_packets r); cbn [app List.length];
        intros L; destruct t as [|[|[|[|t]]]]; cbn in L; try lia; reflexivity.
    + destruct (IH (update_stats r s) (t - List.length (stat_writes r))%nat) as [j Hj].
      exists (S j). unfold at_instant, between_updates, writes_of in *.
      cbn [flat_map firstn fold_left]. rewrite firstn_app, run_writes_app.
      rewrite (firstn_all2 (stat_writes r)) by lia. exact Hj.
Qed.

(** ** A session: [launch], then the monitor thread *)

(** Lines 230-261 return from every state; they leave the statistics reset,
    the event set, no probe, and one point on each graph. *)
Lemma launch_run (py_sum : list float -> float) (env : StartEnv)
  (rtsp_url output_csv ffmpeg_exe additional_params : string) (g0 : GUI) :
  exists g : GUI,
    launch py_sum env rtsp_url output_csv ffmpeg_exe additional_params g0 = (Ret tt, g)
    /\ stats g = reset_stats
    /\ running_event g = true
    /\ ffmpeg_process g = None
    /\ csv_open_error (os g) = csv_open_error (os g0)
    /\ csv_file (os g) = csv_file (os g0)
    /\ spawned (os g) = spawned (os g0)
    /\ graph_avg_fps_data (graph g) = [zero]
    /\ graph_avg_speed_data (graph g) = [zero]
    /\ graph_missed_packets_data (graph g) = [0].
Proof.
  destruct g0 as [[[a [rc|] [|] out]|] th run q st t0 gr sb pb sv lt mb ac w].
  all: eexists; split; [lazy; reflexivity|].
  all: lazy; repeat split.
Qed.

Lemma session_run (py_sum : list float -> float) (shlex_split : string -> Exc (list string))
  (env : StartEnv) (rtsp_url output_csv ffmpeg_exe additional_params : string)
  (cmd : list string) (obeys : bool) (output : list Arrival) (g0 : GUI) :
  build_cmd shlex_split ffmpeg_exe rtsp_url additional_params = Ret cmd ->
  csv_open_error (os g0) = None ->
  exists g g2 : GUI,
    launch py_sum env rtsp_url output_csv ffmpeg_exe additional_params g0 = (Ret tt, g)
    /\ stats g = reset_stats
    /\ run_ffmpeg_monitor shlex_split rtsp_url output_csv ffmpeg_exe additional_params
         (Spawned None obeys output) g = (Ret tt, g2)
    /\ stats g2 = ingest (delivered output) reset_stats.
Proof.
  intros Hcmd Hopen.
  destruct (launch_run py_sum env rtsp_url output_csv ffmpeg_exe additional_params g0)
    as (g & L & St & R & _ & O & _).
  destruct (run_ffmpeg_monitor_running shlex_split rtsp_url output_csv ffmpeg_exe
              additional_params cmd obeys output g Hcmd R) as (g2 & E & S2 & _).
  { rewrite O. exact Hopen. }
  exists g, g2. rewrite St in S2. auto.
Qed.

(** C5. In a session (the start of lines 230-261, then the monitor thread
    on a probe that outlives the grace period, with a log file that opens)
    the counter starts at zero and ends as the sum of the counts parsed from
    the lines read; and no update of the statistics by a parsed line lowers
    it. *)
Theorem missed_packets_accumulate (py_sum : list float -> float)
  (shlex_split : string -> Exc (list string))
  (env : StartEnv) (rtsp_url output_csv ffmpeg_exe additional_params : string)
  (cmd : list string) (obeys : bool) (output : list Arrival) (g0 : GUI) :
  build_cmd shlex_split ffmpeg_exe rtsp_url additional_params = Ret cmd ->
  csv_open_error (os g0) = None ->
  (exists g g2 : GUI,
     launch py_sum env rtsp_url output_csv ffmpeg_exe additional_params g0 = (Ret tt, g)
     /\ missed_packets_count (stats g) = 0
     /\ run_ffmpeg_monitor shlex_split rtsp_url output_csv ffmpeg_exe additional_params
          (Spawned None obeys output) g = (Ret tt, g2)
     /\ missed_packets_count (stats g2) = Zsum (missed_observations (delivered output)))
  /\ (forall (line : string) (s : Stats),
        missed_packets_count s <= missed_packets_count (update_stats (record_of line) s)).
Proof.
  intros Hcmd Hopen. split; [|exact update_stats_monotone].
  destruct (session_run py_sum shlex_split env rtsp_url output_csv ffmpeg_exe
              additional_params cmd obeys output g0 Hcmd Hopen) as (g & g2 & L & St & E & S2).
  exists g, g2. split; [exact L|]. split; [rewrite St; reflexivity|].
  split; [exact E|]. rewrite S2, ingest_missed. reflexivity.
Qed.

Lemma average_fps_ingest (lines : list string) :
  average_fps (ingest lines reset_stats) = Ret (mean (fps_observations lines)).
Proof.
  rewrite average_fps_returns, ingest_total_frames, ingest_sum_fps.
  cbn [total_frames sum_fps reset_stats]. unfold mean.
  destruct (fps_observations lines) as [|x obs]; [reflexivity|].
  cbn [List.length Z.add].
  destruct (0 <? Z.of_nat (S (List.length obs))) eqn:H; [reflexivity|].
  apply Z.ltb_ge in H. lia.
Qed.

(** C6, amended. In a session the frame count and the frame-rate sum start
    at zero; after the lines read they are the number of frame rates parsed
    and their sum, added from left to right, and the average the timers
    compute is that sum divided by that number ([0.0] before the first
    one).  The same holds during the session whenever a timer reads the
    count and the sum between two updates: with the first [j] lines handled
    it computes the mean of the frame rates of these lines. *)
Theorem average_fps_is_sum_over_count (py_sum : list float -> float)
  (shlex_split : string -> Exc (list string))
  (env : StartEnv) (rtsp_url output_csv ffmpeg_exe additional_params : string)
  (cmd : list string) (obeys : bool) (output : list Arrival) (g0 : GUI) :
  build_cmd shlex_split ffmpeg_exe rtsp_url additional_params = Ret cmd ->
  csv_open_error (os g0) = None ->
  exists g g2 : GUI,
    launch py_sum env rtsp_url output_csv ffmpeg_exe additional_params g0 = (Ret tt, g)
    /\ total_frames (stats g) = 0
    /\ sum_fps (stats g) = zero
    /\ run_ffmpeg_monitor shlex_split rtsp_url output_csv ffmpeg_exe additional_params
         (Spawned None obeys output) g = (Ret tt, g2)
    /\ total_frames (stats g2)
       = Z.of_nat (List.length (fps_observations (delivered output)))
    /\ sum_fps (stats g2)
       = fold_left PrimFloat.add (fps_observations (delivered output)) zero
    /\ average_fps (stats g2)
       = Ret (match fps_observations (delivered output) with
              | [] => zero
              | obs =>
                  PrimFloat.div (fold_left PrimFloat.add obs zero)
                    (float_of_int (Z.of_nat (List.length obs)))
              end)
    /\ stats g2
       = between_updates (map record_of (delivered output))
           (List.length (delivered output)) (stats g)
    /\ forall j after_fps_1 after_fps_2 after_fps_3 after_fps_4 : nat,
         snapshot_avg_fps
           (timer_snapshot py_sum (map record_of (delivered output)) (stats g)
              (mkSchedule (statements_for (map record_of (delivered output)) j) 0 0
                 after_fps_1 after_fps_2 after_fps_3 after_fps_4))
         = Ret (mean (fps_observations (firstn j (delivered output)))).
Proof.
  intros Hcmd Hopen.
  destruct (session_run py_sum shlex_split env rtsp_url output_csv ffmpeg_exe
              additional_params cmd obeys output g0 Hcmd Hopen) as (g & g2 & L & St & E & S2).
  exists g, g2. split; [exact L|]. split; [rewrite St; reflexivity|].
  split; [rewrite St; reflexivity|]. split; [exact E|].
  assert (T : total_frames (stats g2)
              = Z.of_nat (List.length (fps_observations (delivered output)))).
  { rewrite S2, ingest_total_frames. reflexivity. }
  assert (F : sum_fps (stats g2)
              = fold_left PrimFloat.add (fps_observations (delivered output)) zero).
  { rewrite S2, ingest_sum_fps. reflexivity. }
  split; [exact T|]. split; [exact F|].
  split.
  { rewrite average_fps_returns, T, F.
    destruct (fps_observations (delivered output)) as [|x obs]; [reflexivity|].
    cbn [List.length].
    destruct (0 <? Z.of_nat (S (List.length obs))) eqn:H; [reflexivity|].
    apply Z.ltb_ge in H. lia. }
  split.
  { rewrite between_updates_ingest, firstn_all, St. exact S2. }
  intros j a b c d.
  unfold timer_snapshot.
  cbn [snapshot_avg_fps at_frames_test then_sum_fps then_total_frames].
  rewrite !Nat.add_0_r, at_instant_between_updates, between_updates_ingest, St.
  exact (average_fps_ingest (firstn j (delivered output))).
Qed.

(** C6 as stated fails between lines 320 and 321: with the frame rate 10
    counted and the frame rate 20 counted but not yet added, a timer reads
    the average 10 / 2 = 5, which is the mean of the frame rates of no
    number of lines (those are 0, 10 and 15). *)
Lemma count_runs_ahead_of_sum :
  ~ (forall (py_sum : list float -> float) (lines : list string) (sch : Schedule),
       exists j : nat,
         snapshot_avg_fps (timer_snapshot py_sum (map record_of lines) reset_stats sch)
         = Ret (mean (fps_observations (firstn j lines)))).
Proof.
  intros H.
  destruct (H sum_left ["fps=10"; "fps=20"] (at_once 3)) as [j Hj].
  assert (D : forall x : float,
             PrimFloat.eqb x 5%float = false -> Ret 5%float <> Ret x).
  { intros x Hx E. injection E as <-. vm_compute in Hx. discriminate Hx. }
  destruct j as [|[|[|j]]]; vm_compute in Hj; revert Hj; apply D; vm_compute; reflexivity.
Qed.

(** C7. In a session the window holds the last [min(n, 50)] of the [n]
    speeds parsed from the lines read, oldest first, and the average the
    timers compute is [sum] of the window divided by its length ([0.0] on
    an empty window). *)
Theorem average_speed_over_last_50 (py_sum : list float -> float)
  (shlex_split : string -> Exc (list string))
  (env : StartEnv) (rtsp_url output_csv ffmpeg_exe additional_params : string)
  (cmd : list string) (obeys : bool) (output : list Arrival) (g0 : GUI) :
  build_cmd shlex_split ffmpeg_exe rtsp_url additional_params = Ret cmd ->
  csv_open_error (os g0) = None ->
  exists g g2 : GUI,
    launch py_sum env rtsp_url output_csv ffmpeg_exe additional_params g0 = (Ret tt, g)
    /\ speed_values (stats g) = []
    /\ run_ffmpeg_monitor shlex_split rtsp_url output_csv ffmpeg_exe additional_params
         (Spawned None obeys output) g = (Ret tt, g2)
    /\ speed_values (stats g2) = lastn 50 (speed_observations (delivered output))
    /\ List.length (speed_values (stats g2))
       = Nat.min (List.length (speed_observations (delivered output))) 50
    /\ average_speed py_sum (stats g2)
       = Ret (match lastn 50 (speed_observations (delivered output)) with
              | [] => zero
              | window =>
                  PrimFloat.div (py_sum window)
                    (float_of_int (Z.of_nat (List.length window)))
              end).
Proof.
  intros Hcmd Hopen.
  destruct (session_run py_sum shlex_split env rtsp_url output_csv ffmpeg_exe
              additional_params cmd obeys output g0 Hcmd Hopen) as (g & g2 & L & St & E & S2).
  exists g, g2. split; [exact L|]. split; [rewrite St; reflexivity|].
  split; [exact E|].
  assert (W : speed_values (stats g2) = lastn 50 (speed_observations (delivered output))).
  { rewrite S2, ingest_speed_values. apply (deque_fill _ []). }
  split; [exact W|]. split; [rewrite W; apply lastn_length|].
  rewrite average_speed_returns, W.
  destruct (lastn 50 (speed_observations (delivered output))); reflexivity.
Qed.

(** ** The launch *)

Lemma build_cmd_order (shlex_split : string -> Exc (list string))
  (ffmpeg_exe rtsp_url additional_params : string) (extra : list string) :
  (if truthy_str additional_params then shlex_split additional_params else Ret [])
  = Ret extra ->
  build_cmd shlex_split ffmpeg_exe rtsp_url additional_params
  = Ret ([ffmpeg_exe; "-i"; rtsp_url] ++ extra ++ ["-f"; "null"; "-"])%list.
Proof.
  intros H. unfold build_cmd, bind.
  destruct (truthy_str additional_params).
  - rewrite H. rewrite <- app_assoc. reflexivity.
  - injection H as <-. reflexivity.
Qed.

(** When the tokenizer raises, so does the thread, before any spawn. *)
Lemma build_cmd_raises (shlex_split : string -> Exc (list string))
  (ffmpeg_exe rtsp_url additional_params : string) (e : exn) :
  (if truthy_str additional_params then shlex_split additional_params else Ret [])
  = Raise e ->
  forall (output_csv : string) (outcome : SpawnOutcome) (g : GUI),
    run_ffmpeg_monitor shlex_split rtsp_url output_csv ffmpeg_exe additional_params outcome g
    = (Raise e, g).
Proof.
  intros H output_csv outcome g. unfold run_ffmpeg_monitor, mbind, lift, build_cmd, bind.
  destruct (truthy_str additional_params); [rewrite H; reflexivity|discriminate H].
Qed.

(** The probe is gone when the grace period ends (lines 297-301). *)
Lemma run_ffmpeg_monitor_exited (shlex_split : string -> Exc (list string))
  (rtsp_url output_csv ffmpeg_exe additional_params : string)
  (cmd : list string) (rc : Z) (obeys : bool) (output : list Arrival) (g : GUI) :
  build_cmd shlex_split ffmpeg_exe rtsp_url additional_params = Ret cmd ->
  run_ffmpeg_monitor shlex_split rtsp_url output_csv ffmpeg_exe additional_params
    (Spawned (Some rc) obeys output) g
  = (Ret tt,
     set_running_event false
       (set_log_queue
          (log_queue g ++ [("FFmpeg failed to start:" ++ nl ++ read_all output)%string])%list
          (set_ffmpeg_process (Some (mkPopen cmd (Some rc) obeys output))
             (set_os (set_spawned (spawned (os g) ++ [cmd])%list (os g)) g)))).
Proof.
  intros Hcmd.
  unfold run_ffmpeg_monitor. unfold mbind at 1. unfold lift at 1. rewrite Hcmd.
  reflexivity.
Qed.

(** C2. When the probe is gone at the end of the grace period, the thread
    returns after one more message on the queue, ["FFmpeg failed to
    start:"] followed by everything left on the probe's diagnostic output;
    the event is clear and no probe is alive, so the session is idle; the
    statistics and the log file are as they were and no signal was sent. *)
Theorem launch_failure_is_reported (shlex_split : string -> Exc (list string))
  (rtsp_url output_csv ffmpeg_exe additional_params : string)
  (cmd : list string) (rc : Z) (obeys : bool) (output : list Arrival) (g : GUI) :
  build_cmd shlex_split ffmpeg_exe rtsp_url additional_params = Ret cmd ->
  exists g2 : GUI,
    run_ffmpeg_monitor shlex_split rtsp_url output_csv ffmpeg_exe additional_params
      (Spawned (Some rc) obeys output) g = (Ret tt, g2)
    /\ log_queue g2
       = (log_queue g ++ [("FFmpeg failed to start:" ++ nl ++ read_all output)%string])%list
    /\ running_event g2 = false
    /\ session_idle g2 = true
    /\ stats g2 = stats g
    /\ csv_file (os g2) = csv_file (os g)
    /\ signals (os g2) = signals (os g).
Proof.
  intros Hcmd. eexists. split.
  - apply (run_ffmpeg_monitor_exited _ _ _ _ _ cmd rc obeys output g Hcmd).
  - repeat split.
Qed.

(** ** The command of the probe *)

Lemma monitor_loop_not_running (output : list Arrival) (g : GUI) :
  running_event g = false -> monitor_loop output g = (Ret tt, g).
Proof.
  intros H. destruct output; cbn [monitor_loop]; unfold mbind, get; rewrite H; reflexivity.
Qed.

Lemma queue_put_frame (msg : string) (g : GUI) :
  queue_put msg g = (Ret tt, snd (queue_put msg g))
  /\ same_frame g (snd (queue_put msg g)).
Proof.
  split; [reflexivity|].
  constructor; try reflexivity. cbn. destruct (ffmpeg_process g); [repeat split|exact I].
Qed.

(** The [try] statement of lines 304-339 returns whatever the event and the
    file are, and leaves the probe and the trace of spawns as they were. *)
Lemma guarded_with_block (csv_exists : bool) (output : list Arrival) (g : GUI) (p : Popen) :
  ffmpeg_process g = Some p ->
  exists gl : GUI,
    try_except is_Exception
      (open_append ;;
       (if negb csv_exists then writerow csv_header else mret tt) ;;
       monitor_loop output)%M
      (fun e => queue_put ("Error writing CSV: " ++ exn_text e)) g = (Ret tt, gl)
    /\ same_frame g gl.
Proof.
  intros Hp. unfold try_except.
  destruct (csv_open_error (os g)) as [e|] eqn:Hopen.
  - assert (E : (open_append ;;
                 (if negb csv_exists then writerow csv_header else mret tt) ;;
                 monitor_loop output)%M g = (Raise e, g)).
    { unfold mbind at 1. unfold open_append. rewrite Hopen. reflexivity. }
    rewrite E. cbn [is_Exception].
    destruct (queue_put_frame ("Error writing CSV: " ++ exn_text e) g) as (Eq & Fq).
    eexists. split; [exact Eq|exact Fq].
  - destruct (running_event g) eqn:Hrun.
    + destruct (with_block_run csv_exists output g p Hrun Hp Hopen) as (gl & El & Fl & _).
      rewrite El. exists gl. split; [reflexivity|exact Fl].
    + assert (E : exists gl,
                 (open_append ;;
                  (if negb csv_exists then writerow csv_header else mret tt) ;;
                  monitor_loop output)%M g = (Ret tt, gl) /\ same_frame g gl).
      { unfold mbind at 1. unfold open_append at 1. rewrite Hopen.
        destruct (csv_file (os g)) eqn:Hfile; destruct csv_exists; cbn [negb];
          unfold mbind, mret; cbn [writerow modify];
          rewrite monitor_loop_not_running by exact Hrun.
        all: eexists; (split; [reflexivity|]).
        all: constructor; try reflexivity; cbn; rewrite ?Hp; cbn; rewrite ?Hp; repeat split. }
      destruct E as (gl & El & Fl). rewrite El. exists gl. split; [reflexivity|exact Fl].
Qed.

(** C8. Whenever the thread spawns the probe, the command is the
    executable, ["-i"], the address, the tokens of the additional
    parameters (none when that field is empty), then ["-f"], ["null"],
    ["-"]; the thread then returns, whatever the probe, the event and the
    log file do. *)
Theorem probe_command_order (shlex_split : string -> Exc (list string))
  (rtsp_url output_csv ffmpeg_exe additional_params : string)
  (extra : list string) (rc : option Z) (obeys : bool) (output : list Arrival) (g : GUI) :
  (if truthy_str additional_params then shlex_split additional_params else Ret [])
  = Ret extra ->
  exists g2 : GUI,
    run_ffmpeg_monitor shlex_split rtsp_url output_csv ffmpeg_exe additional_params
      (Spawned rc obeys output) g = (Ret tt, g2)
    /\ spawned (os g2)
       = (spawned (os g)
          ++ [[ffmpeg_exe; "-i"; rtsp_url] ++ extra ++ ["-f"; "null"; "-"]])%list.
Proof.
  intros Hextra.
  pose proof (build_cmd_order shlex_split ffmpeg_exe rtsp_url additional_params extra Hextra)
    as Hcmd.
  set (cmd := ([ffmpeg_exe; "-i"; rtsp_url] ++ extra ++ ["-f"; "null"; "-"])%list) in *.
  destruct rc as [rc|].
  - rewrite (run_ffmpeg_monitor_exited _ _ _ _ _ cmd rc obeys output g Hcmd).
    eexists. split; reflexivity.
  - unfold run_ffmpeg_monitor. unfold mbind at 1. unfold lift at 1. rewrite Hcmd.
    unfold mbind at 1. unfold try_except at 1.
    unfold mbind at 1. unfold Popen_spawn at 1. unfold modify at 1. unfold mret at 1.
    cbn [negb].
    unfold mbind at 1. unfold deref_process at 1.
    cbn [ffmpeg_process set_ffmpeg_process returncode stderr].
    unfold mbind at 1. unfold get at 1.
    set (p := mkPopen cmd None obeys output).
    set (g1 := set_ffmpeg_process (Some p) _).
    set (b := match csv_file (os g1) with Some _ => true | None => false end).
    destruct (guarded_with_block b output g1 p eq_refl) as (gl & El & Fl).
    unfold mbind at 1. rewrite El.
    pose proof (frame_process _ _ Fl) as Hproc.
    cbn [g1 ffmpeg_process set_ffmpeg_process] in Hproc.
    destruct (ffmpeg_process gl) as [p'|] eqn:Hp'; [|contradiction].
    destruct Hproc as (_ & Hrc & _). cbn in Hrc.
    destruct (shutdown_run gl p' Hp' Hrc) as (g2 & E2 & _ & W2 & _).
    exists g2. split; [exact E2|].
    rewrite W2, (frame_spawned _ _ Fl). reflexivity.
Qed.

(** ** What a timer reads *)

(** C9, amended. The timers read the statistics while the thread updates
    them, with no lock.  Whenever the seven reads of a snapshot fall,
    neither division is by zero, because the count and the window never
    shrink between the test and the division, and the missed-packet count
    read is that of a state between two updates.  A snapshot whose reads
    all fall at one moment between two updates is the snapshot of the state
    the thread has reached there. *)
Theorem snapshot_is_whole_when_read_between_updates (py_sum : list float -> float)
  (records : list Parsed) (s : Stats) (sch : Schedule) :
  (exists avg_fps avg_speed : float,
     snapshot_avg_fps (timer_snapshot py_sum records s sch) = Ret avg_fps
     /\ snapshot_avg_speed (timer_snapshot py_sum records s sch) = Ret avg_speed)
  /\ (exists j : nat,
        snapshot_missed_packets (timer_snapshot py_sum records s sch)
        = missed_packets_count (between_updates records j s))
  /\ (forall j : nat,
        timer_snapshot py_sum records s (at_once (statements_for records j))
        = snapshot py_sum (between_updates records j s)).
Proof.
  split; [|split].
  - unfold timer_snapshot. cbn [snapshot_avg_fps snapshot_avg_speed].
    set (t1 := at_frames_test sch).
    set (t2 := (t1 + then_sum_fps sch)%nat).
    set (t3 := (t2 + then_total_frames sch)%nat).
    set (t4 := (t3 + then_speed_test sch)%nat).
    set (t5 := (t4 + then_speed_sum sch)%nat).
    set (t6 := (t5 + then_speed_len sch)%nat).
    destruct (at_instant_never_shrinks records s t1 t3) as [F _]; [lia|].
    destruct (at_instant_never_shrinks records s t4 t6) as [_ W]; [lia|].
    unfold py_truediv.
    destruct (0 <? total_frames (at_instant records s t1)) eqn:H1.
    + apply Z.ltb_lt in H1.
      destruct (total_frames (at_instant records s t3) =? 0) eqn:H3;
        [apply Z.eqb_eq in H3; lia|].
      destruct (Nat.eqb (List.length (speed_values (at_instant records s t4))) 0) eqn:H4;
        cbn [negb].
      * eexists _, _. split; reflexivity.
      * apply Nat.eqb_neq in H4.
        destruct (Z.of_nat (List.length (speed_values (at_instant records s t6))) =? 0)
          eqn:H6; [apply Z.eqb_eq in H6; lia|].
        eexists _, _. split; reflexivity.
    + destruct (Nat.eqb (List.length (speed_values (at_instant records s t4))) 0) eqn:H4;
        cbn [negb].
      * eexists _, _. split; reflexivity.
      * apply Nat.eqb_neq in H4.
        destruct (Z.of_nat (List.length (speed_values (at_instant records s t6))) =? 0)
          eqn:H6; [apply Z.eqb_eq in H6; lia|].
        eexists _, _. split; reflexivity.
  - unfold timer_snapshot. cbn [snapshot_missed_packets].
    apply missed_packets_count_whole.
  - intros j. unfold timer_snapshot, at_once, snapshot.
    cbn [at_frames_test then_sum_fps then_total_frames then_speed_test then_speed_sum
         then_speed_len then_missed_packets].
    rewrite !Nat.add_0_r, at_instant_between_updates. reflexivity.
Qed.

(** C9 as stated fails even when every read falls between two updates:
    with the speeds 1 and 3, a timer that sums the window after the first
    update and takes its length after the second computes 1 / 2 = 0.5,
    and no state between two updates has that average (they have 0, 1
    and 2). *)
Lemma snapshot_mixes_two_states :
  ~ (forall (py_sum : list float -> float) (records : list Parsed) (sch : Schedule),
       exists j : nat,
         timer_snapshot py_sum records reset_stats sch
         = snapshot py_sum (between_updates records j reset_stats)).
Proof.
  intros H.
  destruct (H sum_left
              [mkParsed None (Some 1%float) None false None;
               mkParsed None (Some 3%float) None false None]
              (mkSchedule 1 0 0 0 0 1 0)) as [j Hj].
  apply (f_equal snapshot_avg_speed) in Hj.
  assert (D : forall x : float,
             PrimFloat.eqb x 0.5%float = false -> Ret 0.5%float <> Ret x).
  { intros x Hx E. injection E as <-. vm_compute in Hx. discriminate Hx. }
  destruct j as [|[|[|j]]]; vm_compute in Hj; revert Hj; apply D; vm_compute; reflexivity.
Qed.

(** * Examples *)

(** ["missed 3 packets"] then ["missed 2 packets"] in one session: 5. *)
Lemma missed_3_then_2_is_5 :
  build_cmd split_blanks "/usr/bin/ffmpeg" "rtsp://example/stream" "" = Ret example_cmd
  /\ csv_open_error (os fresh_gui) = None
  /\ exists g g2 : GUI,
       launch sum_left example_env "rtsp://example/stream" "stream_log.csv"
         "/usr/bin/ffmpeg" "" fresh_gui = (Ret tt, g)
       /\ run_ffmpeg_monitor split_blanks "rtsp://example/stream" "stream_log.csv"
            "/usr/bin/ffmpeg" ""
            (Spawned None true [line_of "missed 3 packets"; line_of "missed 2 packets"]) g
          = (Ret tt, g2)
       /\ missed_packets_count (stats g2) = 5.
Proof.
  assert (Hcmd : build_cmd split_blanks "/usr/bin/ffmpeg" "rtsp://example/stream" ""
                 = Ret example_cmd) by reflexivity.
  assert (Hopen : csv_open_error (os fresh_gui) = None) by reflexivity.
  split; [exact Hcmd|]. split; [exact Hopen|].
  destruct (missed_packets_accumulate sum_left split_blanks example_env
              "rtsp://example/stream" "stream_log.csv" "/usr/bin/ffmpeg" "" example_cmd true
              [line_of "missed 3 packets"; line_of "missed 2 packets"] fresh_gui Hcmd Hopen)
    as [(g & g2 & L & _ & E & M) _].
  exists g, g2. split; [exact L|]. split; [exact E|].
  rewrite M. vm_compute. reflexivity.
Defined.

(** The frame rates 10, 20 and 30 in one session: the average is 20.0. *)
Lemma average_of_10_20_30_is_20 :
  build_cmd split_blanks "/usr/bin/ffmpeg" "rtsp://example/stream" "" = Ret example_cmd
  /\ csv_open_error (os fresh_gui) = None
  /\ exists g g2 : GUI,
       launch sum_left example_env "rtsp://example/stream" "stream_log.csv"
         "/usr/bin/ffmpeg" "" fresh_gui = (Ret tt, g)
       /\ run_ffmpeg_monitor split_blanks "rtsp://example/stream" "stream_log.csv"
            "/usr/bin/ffmpeg" ""
            (Spawned None true [line_of "fps=10"; line_of "fps= 20.0"; line_of "fps=30."]) g
          = (Ret tt, g2)
       /\ total_frames (stats g2) = 3
       /\ sum_fps (stats g2) = 60%float
       /\ average_fps (stats g2) = Ret 20%float.
Proof.
  assert (Hcmd : build_cmd split_blanks "/usr/bin/ffmpeg" "rtsp://example/stream" ""
                 = Ret example_cmd) by reflexivity.
  assert (Hopen : csv_open_error (os fresh_gui) = None) by reflexivity.
  split; [exact Hcmd|]. split; [exact Hopen|].
  destruct (average_fps_is_sum_over_count sum_left split_blanks example_env
              "rtsp://example/stream" "stream_log.csv" "/usr/bin/ffmpeg" "" example_cmd true
              [line_of "fps=10"; line_of "fps= 20.0"; line_of "fps=30."] fresh_gui Hcmd Hopen)
    as (g & g2 & L & _ & _ & E & T & F & A & _).
  exists g, g2. split; [exact L|]. split; [exact E|].
  split; [rewrite T; vm_compute; reflexivity|].
  split; [rewrite F; vm_compute; reflexivity|].
  rewrite A. vm_compute. reflexivity.
Defined.

(** Sixty speeds in one session, ten times 9 and then fifty times 1: the
    window holds the last fifty and their mean is 1.0. *)
Lemma sixty_speeds_leave_the_last_fifty :
  build_cmd split_blanks "/usr/bin/ffmpeg" "rtsp://example/stream" "" = Ret example_cmd
  /\ csv_open_error (os fresh_gui) = None
  /\ exists g g2 : GUI,
       launch sum_left example_env "rtsp://example/stream" "stream_log.csv"
         "/usr/bin/ffmpeg" "" fresh_gui = (Ret tt, g)
       /\ run_ffmpeg_monitor split_blanks "rtsp://example/stream" "stream_log.csv"
            "/usr/bin/ffmpeg" ""
            (Spawned None true
               (repeat (line_of "speed=9x") 10 ++ repeat (line_of "speed=1x") 50)) g
          = (Ret tt, g2)
       /\ speed_values (stats g2) = repeat 1%float 50
       /\ average_speed sum_left (stats g2) = Ret 1%float.
Proof.
  assert (Hcmd : build_cmd split_blanks "/usr/bin/ffmpeg" "rtsp://example/stream" ""
                 = Ret example_cmd) by reflexivity.
  assert (Hopen : csv_open_error (os fresh_gui) = None) by reflexivity.
  split; [exact Hcmd|]. split; [exact Hopen|].
  destruct (average_speed_over_last_50 sum_left split_blanks example_env
              "rtsp://example/stream" "stream_log.csv" "/usr/bin/ffmpeg" "" example_cmd true
              (repeat (line_of "speed=9x") 10 ++ repeat (line_of "speed=1x") 50)
              fresh_gui Hcmd Hopen)
    as (g & g2 & L & _ & E & W & _ & A).
  exists g, g2. split; [exact L|]. split; [exact E|].
  split; [rewrite W; vm_compute; reflexivity|].
  rewrite A. vm_compute. reflexivity.
Defined.

(** A probe that dies at once on a refused connection. *)
Lemma refused_connection_is_reported :
  build_cmd split_blanks "/usr/bin/ffmpeg" "rtsp://example/stream" "" = Ret example_cmd
  /\ exists g2 : GUI,
       run_ffmpeg_monitor split_blanks "rtsp://example/stream" "stream_log.csv"
         "/usr/bin/ffmpeg" ""
         (Spawned (Some 1) true [line_of "rtsp://example/stream: Connection refused"])
         (set_running_event true fresh_gui)
       = (Ret tt, g2)
       /\ log_queue g2
          = ["FFmpeg failed to start:" ++ nl
             ++ "rtsp://example/stream: Connection refused" ++ nl]
       /\ running_event g2 = false
       /\ session_idle g2 = true
       /\ csv_file (os g2) = None.
Proof.
  assert (Hcmd : build_cmd split_blanks "/usr/bin/ffmpeg" "rtsp://example/stream" ""
                 = Ret example_cmd) by reflexivity.
  split; [exact Hcmd|].
  destruct (launch_failure_is_reported split_blanks "rtsp://example/stream" "stream_log.csv"
              "/usr/bin/ffmpeg" "" example_cmd 1 true
              [line_of "rtsp://example/stream: Connection refused"]
              (set_running_event true fresh_gui) Hcmd)
    as (g2 & E & Q & R & I & _ & C & _).
  exists g2. split; [exact E|]. split; [rewrite Q; reflexivity|].
  split; [exact R|]. split; [exact I|]. rewrite C. reflexivity.
Defined.

(** The command with two additional parameters. *)
Lemma command_with_transport_option :
  (if truthy_str "-rtsp_transport tcp" then split_blanks "-rtsp_transport tcp" else Ret [])
  = Ret ["-rtsp_transport"; "tcp"]
  /\ exists g2 : GUI,
       run_ffmpeg_monitor split_blanks "rtsp://example/stream" "stream_log.csv"
         "/usr/bin/ffmpeg" "-rtsp_transport tcp"
         (Spawned None true []) (set_running_event true fresh_gui)
       = (Ret tt, g2)
       /\ spawned (os g2)
          = [["/usr/bin/ffmpeg"; "-i"; "rtsp://example/stream"; "-rtsp_transport"; "tcp";
              "-f"; "null"; "-"]].
Proof.
  assert (Hextra : (if truthy_str "-rtsp_transport tcp"
                    then split_blanks "-rtsp_transport tcp" else Ret [])
                   = Ret ["-rtsp_transport"; "tcp"]) by reflexivity.
  split; [exact Hextra|].
  destruct (probe_command_order split_blanks "rtsp://example/stream" "stream_log.csv"
              "/usr/bin/ffmpeg" "-rtsp_transport tcp" ["-rtsp_transport"; "tcp"]
              None true [] (set_running_event true fresh_gui) Hextra)
    as (g2 & E & W).
  exists g2. split; [exact E|]. rewrite W. reflexivity.
Defined.

(** * Further properties *)

(** ** The log file and the queue of a run *)

Lemma loop_body_csv (a : Arrival) (g : GUI) :
  csv_file (os (loop_body a g)) = Some (rows_before g ++ [row_of a])%list.
Proof.
  unfold loop_body, advance, rows_before, row_of.
  destruct (ffmpeg_process g); cbn; destruct (csv_file (os g)); reflexivity.
Qed.

Lemma loop_body_queue (a : Arrival) (g : GUI) :
  log_queue (loop_body a g) = (log_queue g ++ [message_of a])%list.
Proof. unfold loop_body, advance. destruct (ffmpeg_process g); reflexivity. Qed.

Lemma loop_turns_csv (l : list Arrival) :
  forall (g : GUI) (rows : list (list value)),
    csv_file (os g) = Some rows ->
    csv_file (os (fold_left (fun acc a => loop_body a acc) l g))
    = Some (rows ++ map row_of l)%list.
Proof.
  induction l as [|a l IH]; intros g rows Hrows; cbn [fold_left map].
  - rewrite app_nil_r. exact Hrows.
  - rewrite (IH (loop_body a g) (rows ++ [row_of a])%list).
    + rewrite <- app_assoc. reflexivity.
    + rewrite loop_body_csv. unfold rows_before. rewrite Hrows. reflexivity.
Qed.

Lemma loop_turns_queue (l : list Arrival) :
  forall g : GUI,
    log_queue (fold_left (fun acc a => loop_body a acc) l g)
    = (log_queue g ++ map message_of l)%list.
Proof.
  induction l as [|a l IH]; intros g; cbn [fold_left map].
  - rewrite app_nil_r. reflexivity.
  - rewrite IH, loop_body_queue, <- app_assoc. reflexivity.
Qed.

Lemma advance_os_queue (g : GUI) :
  os (advance g) = os g /\ log_queue (advance g) = log_queue g.
Proof. unfold advance. destruct (ffmpeg_process g); split; reflexivity. Qed.

(** The body of the [with] statement on a live probe and a file that
    opens: what it adds to the file and to the queue. *)
Lemma with_block_trace (csv_exists : bool) (output : list Arrival) (g : GUI) (p : Popen) :
  running_event g = true ->
  ffmpeg_process g = Some p ->
  csv_open_error (os g) = None ->
  exists gl : GUI,
    (open_append ;;
     (if negb csv_exists then writerow csv_header else mret tt) ;;
     monitor_loop output)%M g = (Ret tt, gl)
    /\ csv_file (os gl)
       = Some (rows_before g ++ (if csv_exists then [] else [csv_header])
                 ++ map row_of (before_eof output))%list
    /\ log_queue gl = (log_queue g ++ map message_of (before_eof output))%list.
Proof.
  intros Hrun Hp Hopen.
  set (g1 := set_os (set_csv_file (Some (rows_before g)) (os g)) g).
  assert (E1 : open_append g = (Ret tt, match csv_file (os g) with Some _ => g | None => g1 end)).
  { unfold open_append, g1, rows_before. rewrite Hopen.
    destruct (csv_file (os g)); reflexivity. }
  set (g1' := match csv_file (os g) with Some _ => g | None => g1 end) in E1.
  assert (F1 : csv_file (os g1') = Some (rows_before g) /\ log_queue g1' = log_queue g
               /\ running_event g1' = true /\ ffmpeg_process g1' = Some p).
  { unfold g1', g1, rows_before. destruct (csv_file (os g)) eqn:Hf; cbn;
      rewrite ?Hf; repeat split; assumption. }
  destruct F1 as (C1 & Q1 & R1 & P1).
  set (g2 := if csv_exists then g1' else snd (writerow csv_header g1')).
  assert (E2 : (if negb csv_exists then writerow csv_header else mret tt) g1' = (Ret tt, g2)).
  { unfold g2. destruct csv_exists; reflexivity. }
  assert (F2 : csv_file (os g2)
               = Some (rows_before g ++ (if csv_exists then [] else [csv_header]))%list
               /\ log_queue g2 = log_queue g
               /\ running_event g2 = true /\ ffmpeg_process g2 = Some p).
  { unfold g2. destruct csv_exists.
    - rewrite app_nil_r. repeat split; assumption.
    - cbn. rewrite C1. repeat split; assumption. }
  destruct F2 as (C2 & Q2 & R2 & P2).
  eexists. split.
  - unfold mbind. rewrite E1, E2. apply (monitor_loop_run output g2 p R2 P2).
  - destruct (advance_os_queue
                (fold_left (fun acc a => loop_body a acc) (before_eof output) g2)) as (O & Q).
    rewrite O, Q. split.
    + rewrite (loop_turns_csv _ g2 _ C2), <- app_assoc. reflexivity.
    + rewrite loop_turns_queue, Q2. reflexivity.
Qed.

(** The state in which the probe has just been spawned. *)
Lemma run_ffmpeg_monitor_alive (shlex_split : string -> Exc (list string))
  (rtsp_url output_csv ffmpeg_exe additional_params : string)
  (cmd : list string) (obeys : bool) (output : list Arrival) (g : GUI) :
  build_cmd shlex_split ffmpeg_exe rtsp_url additional_params = Ret cmd ->
  run_ffmpeg_monitor shlex_split rtsp_url output_csv ffmpeg_exe additional_params
    (Spawned None obeys output) g
  = (try_except is_Exception
       (open_append ;;
        (if negb (match csv_file (os g) with Some _ => true | None => false end)
         then writerow csv_header else mret tt) ;;
        monitor_loop output)
       (fun e => queue_put ("Error writing CSV: " ++ exn_text e)) ;;
     terminate_if_running ;;
     modify (set_ffmpeg_process None) ;;
     queue_put ("Monitoring stopped." ++ nl))%M
      (set_ffmpeg_process (Some (mkPopen cmd None obeys output))
         (set_os (set_spawned (spawned (os g) ++ [cmd])%list (os g)) g)).
Proof.
  intros Hcmd.
  unfold run_ffmpeg_monitor. unfold mbind at 1. unfold lift at 1. rewrite Hcmd.
  reflexivity.
Qed.

Lemma run_ffmpeg_monitor_trace (shlex_split : string -> Exc (list string))
  (rtsp_url output_csv ffmpeg_exe additional_params : string)
  (cmd : list string) (obeys : bool) (output : list Arrival) (g : GUI) :
  build_cmd shlex_split ffmpeg_exe rtsp_url additional_params = Ret cmd ->
  running_event g = true ->
  csv_open_error (os g) = None ->
  exists g2 : GUI,
    run_ffmpeg_monitor shlex_split rtsp_url output_csv ffmpeg_exe additional_params
      (Spawned None obeys output) g = (Ret tt, g2)
    /\ csv_file (os g2)
       = Some ((match csv_file (os g) with Some rows => rows | None => [csv_header] end)
               ++ map row_of (before_eof output))%list
    /\ log_queue g2
       = (log_queue g ++ map message_of (before_eof output)
          ++ [("Monitoring stopped." ++ nl)%string])%list.
Proof.
  intros Hcmd Hrun Hopen.
  rewrite (run_ffmpeg_monitor_alive _ _ _ _ _ cmd obeys output g Hcmd).
  set (p := mkPopen cmd None obeys output).
  set (g1 := set_ffmpeg_process (Some p) _).
  set (b := match csv_file (os g) with Some _ => true | None => false end).
  destruct (with_block_run b output g1 p) as (gl & El & Fl & _);
    [exact Hrun|reflexivity|exact Hopen|].
  destruct (with_block_trace b output g1 p) as (gl' & El' & Cl & Ql);
    [exact Hrun|reflexivity|exact Hopen|].
  rewrite El in El'. injection El' as <-.
  unfold mbind at 1. unfold try_except at 1. rewrite El.
  pose proof (frame_process _ _ Fl) as Hproc.
  cbn [g1 ffmpeg_process set_ffmpeg_process] in Hproc.
  destruct (ffmpeg_process gl) as [p'|] eqn:Hp'; [|contradiction].
  destruct Hproc as (_ & Hrc & _). cbn in Hrc.
  destruct (shutdown_run gl p' Hp' Hrc) as (g2 & E2 & _ & _ & _ & _ & _ & Q2 & C2).
  exists g2. split; [exact E2|]. split.
  - rewrite C2, Cl. unfold rows_before, b. cbn [g1 os set_os set_ffmpeg_process csv_file set_spawned].
    destruct (csv_file (os g)); reflexivity.
  - rewrite Q2, Ql, <- app_assoc. reflexivity.
Qed.

(** X1. A run on a live probe and a log file that opens keeps the rows the
    file had, writes the header first when the file did not exist, and then
    one row for each line read, in the order read. *)
Theorem log_file_gets_one_row_per_line (shlex_split : string -> Exc (list string))
  (rtsp_url output_csv ffmpeg_exe additional_params : string)
  (cmd : list string) (obeys : bool) (output : list Arrival) (g : GUI) :
  build_cmd shlex_split ffmpeg_exe rtsp_url additional_params = Ret cmd ->
  running_event g = true ->
  csv_open_error (os g) = None ->
  exists g2 : GUI,
    run_ffmpeg_monitor shlex_split rtsp_url output_csv ffmpeg_exe additional_params
      (Spawned None obeys output) g = (Ret tt, g2)
    /\ csv_file (os g2)
       = Some ((match csv_file (os g) with Some rows => rows | None => [csv_header] end)
               ++ map row_of (before_eof output))%list
    /\ Forall (fun row => List.length row = 7%nat) (map row_of (before_eof output)).
Proof.
  intros Hcmd Hrun Hopen.
  destruct (run_ffmpeg_monitor_trace shlex_split rtsp_url output_csv ffmpeg_exe
              additional_params cmd obeys output g Hcmd Hrun Hopen) as (g2 & E & C & _).
  exists g2. split; [exact E|]. split; [exact C|].
  apply Forall_forall. intros row Hin. apply in_map_iff in Hin.
  destruct Hin as (a & <- & _). reflexivity.
Qed.

(** X2. Such a run queues one message for each line read, the time and the
    stripped line joined by [" -> "], in the order read, and then the
    message ["Monitoring stopped."]. *)
Theorem queue_gets_one_message_per_line (shlex_split : string -> Exc (list string))
  (rtsp_url output_csv ffmpeg_exe additional_params : string)
  (cmd : list string) (obeys : bool) (output : list Arrival) (g : GUI) :
  build_cmd shlex_split ffmpeg_exe rtsp_url additional_params = Ret cmd ->
  running_event g = true ->
  csv_open_error (os g) = None ->
  exists g2 : GUI,
    run_ffmpeg_monitor shlex_split rtsp_url output_csv ffmpeg_exe additional_params
      (Spawned None obeys output) g = (Ret tt, g2)
    /\ log_queue g2
       = (log_queue g ++ map message_of (before_eof output)
          ++ [("Monitoring stopped." ++ nl)%string])%list.
Proof.
  intros Hcmd Hrun Hopen.
  destruct (run_ffmpeg_monitor_trace shlex_split rtsp_url output_csv ffmpeg_exe
              additional_params cmd obeys output g Hcmd Hrun Hopen) as (g2 & E & _ & Q).
  exists g2. split; [exact E|exact Q].
Qed.

(** ** How a run ends *)

(** X3. Once the probe is spawned and outlives the grace period, the thread
    returns whatever the event and the log file do: it forgets the handle,
    its last message is ["Monitoring stopped."], and it leaves the event as
    it found it. *)
Theorem run_on_a_live_probe_always_returns (shlex_split : string -> Exc (list string))
  (rtsp_url output_csv ffmpeg_exe additional_params : string)
  (cmd : list string) (obeys : bool) (output : list Arrival) (g : GUI) :
  build_cmd shlex_split ffmpeg_exe rtsp_url additional_params = Ret cmd ->
  exists (g2 : GUI) (earlier : list string),
    run_ffmpeg_monitor shlex_split rtsp_url output_csv ffmpeg_exe additional_params
      (Spawned None obeys output) g = (Ret tt, g2)
    /\ ffmpeg_process g2 = None
    /\ log_queue g2 = (earlier ++ [("Monitoring stopped." ++ nl)%string])%list
    /\ running_event g2 = running_event g.
Proof.
  intros Hcmd.
  rewrite (run_ffmpeg_monitor_alive _ _ _ _ _ cmd obeys output g Hcmd).
  set (p := mkPopen cmd None obeys output).
  set (g1 := set_ffmpeg_process (Some p) _).
  set (b := match csv_file (os g) with Some _ => true | None => false end).
  destruct (guarded_with_block b output g1 p eq_refl) as (gl & El & Fl).
  unfold mbind at 1. rewrite El.
  pose proof (frame_process _ _ Fl) as Hproc.
  cbn [g1 ffmpeg_process set_ffmpeg_process] in Hproc.
  destruct (ffmpeg_process gl) as [p'|] eqn:Hp'; [|contradiction].
  destruct Hproc as (_ & Hrc & _). cbn in Hrc.
  destruct (shutdown_run gl p' Hp' Hrc) as (g2 & E2 & _ & _ & R2 & P2 & _ & Q2 & _).
  exists g2, (log_queue gl). split; [exact E2|]. split; [exact P2|].
  split; [exact Q2|].
  rewrite R2, (frame_running_event _ _ Fl). reflexivity.
Qed.

(** X4. When the log file does not open, the thread reads no line: it
    queues ["Error writing CSV: "] with the text of the exception, shuts the
    probe down and queues ["Monitoring stopped."]; the statistics and the
    file are untouched and the event stays as it was. *)
Theorem unwritable_log_is_reported (shlex_split : string -> Exc (list string))
  (rtsp_url output_csv ffmpeg_exe additional_params : string)
  (cmd : list string) (obeys : bool) (output : list Arrival) (g : GUI) (e : exn) :
  build_cmd shlex_split ffmpeg_exe rtsp_url additional_params = Ret cmd ->
  csv_open_error (os g) = Some e ->
  exists g2 : GUI,
    run_ffmpeg_monitor shlex_split rtsp_url output_csv ffmpeg_exe additional_params
      (Spawned None obeys output) g = (Ret tt, g2)
    /\ log_queue g2
       = (log_queue g ++ [("Error writing CSV: " ++ exn_text e)%string;
                          ("Monitoring stopped." ++ nl)%string])%list
    /\ stats g2 = stats g
    /\ csv_file (os g2) = csv_file (os g)
    /\ running_event g2 = running_event g
    /\ ffmpeg_process g2 = None.
Proof.
  intros Hcmd Hopen.
  rewrite (run_ffmpeg_monitor_alive _ _ _ _ _ cmd obeys output g Hcmd).
  unfold mbind at 1. unfold try_except at 1. unfold mbind at 1. unfold open_append at 1.
  cbn [os set_os set_ffmpeg_process csv_open_error set_spawned]. rewrite Hopen.
  cbn [is_Exception]. unfold queue_put at 1. unfold modify at 1. cbv beta iota.
  match goal with
  | |- exists g2 : GUI, _ ?st = _ /\ _ =>
      destruct (shutdown_run st (mkPopen cmd None obeys output) eq_refl eq_refl)
        as (g2 & E2 & S2 & _ & R2 & P2 & _ & Q2 & C2)
  end.
  exists g2. split; [exact E2|].
  rewrite Q2, S2, C2, R2. cbn. rewrite <- app_assoc.
  repeat split. exact P2.
Qed.

(** X5. When the event is already clear as the loop starts, no line is
    read: the file gets its header if it did not exist and no row, the
    statistics are untouched, and the only message is ["Monitoring
    stopped."]. *)
Theorem cleared_event_reads_nothing (shlex_split : string -> Exc (list string))
  (rtsp_url output_csv ffmpeg_exe additional_params : string)
  (cmd : list string) (obeys : bool) (output : list Arrival) (g : GUI) :
  build_cmd shlex_split ffmpeg_exe rtsp_url additional_params = Ret cmd ->
  running_event g = false ->
  csv_open_error (os g) = None ->
  exists g2 : GUI,
    run_ffmpeg_monitor shlex_split rtsp_url output_csv ffmpeg_exe additional_params
      (Spawned None obeys output) g = (Ret tt, g2)
    /\ stats g2 = stats g
    /\ csv_file (os g2)
       = Some (match csv_file (os g) with Some rows => rows | None => [csv_header] end)
    /\ log_queue g2 = (log_queue g ++ [("Monitoring stopped." ++ nl)%string])%list.
Proof.
  intros Hcmd Hrun Hopen.
  rewrite (run_ffmpeg_monitor_alive _ _ _ _ _ cmd obeys output g Hcmd).
  unfold mbind at 1. unfold try_except at 1. unfold mbind at 1. unfold open_append at 1.
  cbn [os set_os set_ffmpeg_process csv_open_error set_spawned csv_file]. rewrite Hopen.
  destruct (csv_file (os g)) eqn:Hfile; cbn [negb]; unfold mbind at 1;
    cbn [writerow modify mret]; rewrite monitor_loop_not_running by exact Hrun.
  all: match goal with
       | |- exists g2 : GUI, _ ?st = _ /\ _ =>
           destruct (shutdown_run st (mkPopen cmd None obeys output) eq_refl eq_refl)
             as (g2 & E2 & S2 & _ & _ & _ & _ & Q2 & C2)
       end.
  all: exists g2; split; [exact E2|]; rewrite Q2, S2, C2; cbn; rewrite ?Hfile;
    repeat split.
Qed.

(** ** A launch that fails *)

(** X6. When the executable is not found, nothing is spawned: the thread
    queues ["Error: ffmpeg not found. Check installation or path."], clears
    the event and returns; the handle, the statistics and the world outside
    are as before. *)
Theorem missing_executable_is_reported (shlex_split : string -> Exc (list string))
  (rtsp_url output_csv ffmpeg_exe additional_params : string)
  (cmd : list string) (g : GUI) :
  build_cmd shlex_split ffmpeg_exe rtsp_url additional_params = Ret cmd ->
  exists g2 : GUI,
    run_ffmpeg_monitor shlex_split rtsp_url output_csv ffmpeg_exe additional_params
      (SpawnRaises FileNotFoundError) g = (Ret tt, g2)
    /\ log_queue g2
       = (log_queue g ++ ["Error: ffmpeg not found. Check installation or path."])%list
    /\ running_event g2 = false
    /\ ffmpeg_process g2 = ffmpeg_process g
    /\ stats g2 = stats g
    /\ os g2 = os g.
Proof.
  intros Hcmd.
  unfold run_ffmpeg_monitor. unfold mbind at 1. unfold lift at 1. rewrite Hcmd.
  eexists. split; [reflexivity|]. repeat split.
Qed.

(** X7. Only [FileNotFoundError] is caught around the spawn.  Any other
    exception of [Popen] leaves the thread with nothing changed: no message
    is queued and the event stays as it was. *)
Theorem other_spawn_errors_escape (shlex_split : string -> Exc (list string))
  (rtsp_url output_csv ffmpeg_exe additional_params : string)
  (cmd : list string) (e : exn) (g : GUI) :
  build_cmd shlex_split ffmpeg_exe rtsp_url additional_params = Ret cmd ->
  is_FileNotFoundError e = false ->
  run_ffmpeg_monitor shlex_split rtsp_url output_csv ffmpeg_exe additional_params
    (SpawnRaises e) g = (Raise e, g).
Proof.
  intros Hcmd He.
  unfold run_ffmpeg_monitor. unfold mbind at 1. unfold lift at 1. rewrite Hcmd.
  unfold mbind at 1. unfold try_except at 1. unfold mbind at 1. unfold Popen_spawn at 1.
  unfold mraise at 1. rewrite He. reflexivity.
Qed.

(** ** Stopping and starting *)

Lemma stop_monitoring_effects (g : GUI) :
  exists g2 : GUI,
    stop_monitoring g = (Ret tt, g2)
    /\ running_event g2 = false
    /\ ffmpeg_process g2 = None
    /\ start_button g2 = NORMAL
    /\ stop_button g2 = DISABLED
    /\ status_var g2 = StatusStopped
    /\ signals (os g2) = (signals (os g) ++ stop_signals g)%list
    /\ stats g2 = stats g
    /\ log_queue g2 = log_queue g
    /\ log_text g2 = log_text g
    /\ graph g2 = graph g
    /\ csv_file (os g2) = csv_file (os g)
    /\ after_calls g2 = after_calls g
    /\ messageboxes g2 = messageboxes g
    /\ csv_open_error (os g2) = csv_open_error (os g)
    /\ spawned (os g2) = spawned (os g).
Proof.
  destruct g as [[[a [rc|] [|] out]|] th run q st t0 gr sb pb sv lt mb ac w];
    (eexists; split; [reflexivity|]); cbn; rewrite ?app_nil_r, <- ?app_assoc;
    repeat split.
Qed.

(** X8. [stop_monitoring] from any state: the event is clear, the handle is
    forgotten, the buttons and the status are those of a stopped session; a
    live probe got SIGTERM, and SIGKILL after it when it did not exit in
    time, and nothing is signalled otherwise.  The statistics, the queue,
    the log view, the graphs and the log file are not touched. *)
Theorem stop_monitoring_escalates (g : GUI) :
  exists g2 : GUI,
    stop_monitoring g = (Ret tt, g2)
    /\ running_event g2 = false
    /\ ffmpeg_process g2 = None
    /\ start_button g2 = NORMAL
    /\ stop_button g2 = DISABLED
    /\ status_var g2 = StatusStopped
    /\ signals (os g2) = (signals (os g) ++ stop_signals g)%list
    /\ stats g2 = stats g
    /\ log_queue g2 = log_queue g
    /\ log_text g2 = log_text g
    /\ graph g2 = graph g
    /\ csv_file (os g2) = csv_file (os g).
Proof.
  destruct (stop_monitoring_effects g)
    as (g2 & E & R & P & B1 & B2 & V & G & S1 & Q & T & Gr & C & _).
  exists g2. repeat split; assumption.
Qed.

Lemma lstrip_blank (s : string) : all_chars is_space s = true -> lstrip s = "".
Proof.
  induction s as [|c s IH]; cbn [all_chars lstrip]; [reflexivity|].
  intros H. apply andb_prop in H. destruct H as [Hc Hs]. rewrite Hc. exact (IH Hs).
Qed.

Lemma strip_blank (s : string) : all_chars is_space s = true -> strip s = "".
Proof. intros H. unfold strip. rewrite (lstrip_blank s H). reflexivity. Qed.

(** X9. With an address field that is empty or holds only white space,
    [start_monitoring] shows the error box ["Please enter an RTSP URL."] and
    does nothing else: a session that runs keeps running. *)
Theorem blank_url_is_rejected (py_sum : list float -> float) (form : Form)
  (env : StartEnv) (g : GUI) :
  all_chars is_space (rtsp_url_var form) = true ->
  start_monitoring py_sum form env g
  = (Ret tt,
     set_messageboxes (messageboxes g ++ [("Error", "Please enter an RTSP URL.")])%list g).
Proof.
  intros H. unfold start_monitoring. rewrite (strip_blank _ H). reflexivity.
Qed.

(** X10. With an address, [start_monitoring] gives up with one error box
    and nothing else changed when the path field names no file, whatever
    the search path holds, and when the path field is blank and the search
    path has no [ffmpeg]. *)
Theorem unresolved_executable_is_rejected (py_sum : list float -> float) (form : Form)
  (env : StartEnv) (g : GUI) :
  truthy_str (strip (rtsp_url_var form)) = true ->
  (truthy_str (strip (ffmpeg_path_var form)) = true
   /\ isfile env (strip (ffmpeg_path_var form)) = false)
  \/ (truthy_str (strip (ffmpeg_path_var form)) = false
      /\ truthy (of_opt_str (which_ffmpeg env)) = false) ->
  exists title message : string,
    start_monitoring py_sum form env g
    = (Ret tt, set_messageboxes (messageboxes g ++ [(title, message)])%list g).
Proof.
  intros Hurl H. unfold start_monitoring. rewrite Hurl. cbn [negb].
  destruct H as [[Hp Hf]|[Hp Hw]]; rewrite Hp.
  - rewrite Hf. cbn [negb]. eexists. eexists. reflexivity.
  - rewrite Hw. eexists. eexists. reflexivity.
Qed.

(** Lines 230-261 from any state. *)
Lemma launch_effects (py_sum : list float -> float) (env : StartEnv)
  (rtsp_url output_csv ffmpeg_exe additional_params : string) (g0 : GUI) :
  exists g : GUI,
    launch py_sum env rtsp_url output_csv ffmpeg_exe additional_params g0 = (Ret tt, g)
    /\ monitor_thread g
       = Some (mkThreadArgs rtsp_url output_csv ffmpeg_exe additional_params)
    /\ running_event g = true
    /\ ffmpeg_process g = None
    /\ stats g = reset_stats
    /\ start_time g = Some (time_at_start env)
    /\ graph g
       = mkGraphData [PrimFloat.sub (time_at_graph env) (time_at_start env)]
           [label_at_graph env] [zero] [zero] [0]
    /\ start_button g = DISABLED
    /\ stop_button g = NORMAL
    /\ status_var g = StatusMonitoring
    /\ log_text g = []
    /\ log_queue g = log_queue g0
    /\ after_calls g
       = (after_calls g0 ++ [(200, cb_update_log_display); (1000, cb_update_graphs)])%list
    /\ signals (os g) = (signals (os g0) ++ stop_signals g0)%list
    /\ csv_file (os g) = csv_file (os g0)
    /\ messageboxes g = messageboxes g0.
Proof.
  destruct (stop_monitoring_effects g0)
    as (g1 & E & R & P & B1 & B2 & V & G & S1 & Q & T & Gr & C & A & Mb & _).
  unfold launch. unfold mbind at 1. rewrite E.
  exists (mkGUI (ffmpeg_process g1)
            (Some (mkThreadArgs rtsp_url output_csv ffmpeg_exe additional_params))
            true (log_queue g1) reset_stats (Some (time_at_start env))
            (mkGraphData [PrimFloat.sub (time_at_graph env) (time_at_start env)]
               [label_at_graph env] [zero] [zero] [0])
            DISABLED NORMAL StatusMonitoring [] (messageboxes g1)
            ((after_calls g1 ++ [(200, cb_update_log_display)])
               ++ [(1000, cb_update_graphs)])%list
            (os g1)).
  split; [lazy; reflexivity|].
  cbn. rewrite Q, A, G, C, Mb, <- app_assoc. repeat split. exact P.
Qed.

(** X11. With an address and an executable (the file named in the path
    field, or else the [ffmpeg] of the search path), [start_monitoring]
    replaces the session: a live probe is stopped as by [stop_monitoring],
    the statistics are reset, the log view is emptied and each graph has its
    first point; the event is set and the thread is given the stripped
    fields and the executable.  The messages still in the queue stay. *)
Theorem start_monitoring_replaces_the_session (py_sum : list float -> float) (form : Form)
  (env : StartEnv) (ffmpeg_exe : string) (g0 : GUI) :
  truthy_str (strip (rtsp_url_var form)) = true ->
  (truthy_str (strip (ffmpeg_path_var form)) = true
   /\ isfile env (strip (ffmpeg_path_var form)) = true
   /\ ffmpeg_exe = strip (ffmpeg_path_var form))
  \/ (truthy_str (strip (ffmpeg_path_var form)) = false
      /\ which_ffmpeg env = Some ffmpeg_exe
      /\ truthy_str ffmpeg_exe = true) ->
  exists g : GUI,
    start_monitoring py_sum form env g0 = (Ret tt, g)
    /\ monitor_thread g
       = Some (mkThreadArgs (strip (rtsp_url_var form)) (strip (output_csv_var form))
                 ffmpeg_exe (strip (ffmpeg_params_var form)))
    /\ running_event g = true
    /\ ffmpeg_process g = None
    /\ signals (os g) = (signals (os g0) ++ stop_signals g0)%list
    /\ stats g = reset_stats
    /\ log_text g = []
    /\ log_queue g = log_queue g0
    /\ graph g
       = mkGraphData [PrimFloat.sub (time_at_graph env) (time_at_start env)]
           [label_at_graph env] [zero] [zero] [0]
    /\ start_button g = DISABLED
    /\ stop_button g = NORMAL
    /\ status_var g = StatusMonitoring
    /\ after_calls g
       = (after_calls g0 ++ [(200, cb_update_log_display); (1000, cb_update_graphs)])%list.
Proof.
  intros Hurl H.
  destruct (launch_effects py_sum env (strip (rtsp_url_var form))
              (strip (output_csv_var form)) ffmpeg_exe (strip (ffmpeg_params_var form)) g0)
    as (g & L & Th & R & P & St & _ & Gr & B1 & B2 & V & T & Q & A & G & _).
  exists g. split.
  - unfold start_monitoring. rewrite Hurl. cbn [negb].
    destruct H as [(Hp & Hf & ->)|(Hp & Hw & He)]; rewrite Hp.
    + rewrite Hf. cbn [negb]. exact L.
    + rewrite Hw. cbn [of_opt_str truthy]. rewrite He. exact L.
  - repeat split; assumption.
Qed.

(** ** The timers *)

(** X12. Where the missed-packet count is one that lines 404-405 can
    format, [update_log_display] empties the queue into the log view, every
    message followed by a newline and under the tag of its class, in the
    order queued.  While the event is set it writes the averages into the
    status line and asks to be called again; once the event is clear it
    leaves the status line alone and does not ask again. *)
Theorem update_log_display_drains_the_queue (py_sum : list float -> float) (g : GUI) :
  int_fits_str (missed_packets_count (stats g)) = true ->
  exists (g2 : GUI) (avg_fps avg_speed : float),
    update_log_display py_sum g = (Ret tt, g2)
    /\ log_queue g2 = []
    /\ log_text g2
       = (log_text g ++ map (fun m => ((m ++ nl)%string, classify m)) (log_queue g))%list
    /\ average_fps (stats g) = Ret avg_fps
    /\ average_speed py_sum (stats g) = Ret avg_speed
    /\ status_var g2
       = (if running_event g
          then StatusStats avg_fps avg_speed (missed_packets_count (stats g))
          else status_var g)
    /\ after_calls g2
       = (if running_event g
          then after_calls g ++ [(200, cb_update_log_display)]
          else after_calls g)%list
    /\ stats g2 = stats g
    /\ running_event g2 = running_event g.
Proof.
  intros _.
  unfold update_log_display, mbind, drain_log_queue, modify, get, lift.
  cbn [stats set_log_queue set_log_text running_event].
  rewrite average_fps_returns, average_speed_returns.
  destruct (running_event g) eqn:Hrun;
    (eexists; eexists; eexists; split; [reflexivity|]);
    cbn; rewrite ?Hrun; repeat split.
Qed.

(** ** Tags and parsed keys *)

Lemma search_Lit (l s : string) :
  match search (Lit l) s with Some _ => true | None => false end = contains l s.
Proof.
  induction s as [|c s IH].
  - cbn [search rmatch contains]. destruct (strip_prefix l ""); reflexivity.
  - cbn [search rmatch contains]. destruct (strip_prefix l (String c s)); [reflexivity|exact IH].
Qed.

Lemma search_Cat_Lit (l : string) (r : regex) (s : string) (m : Match) :
  search (Cat (Lit l) r) s = Some m -> contains l s = true.
Proof.
  induction s as [|c s IH]; cbn [search rmatch contains].
  - destruct (strip_prefix l ""); [reflexivity|discriminate].
  - destruct (strip_prefix l (String c s)); [reflexivity|exact IH].
Qed.

Lemma strip_prefix_app (p q : string) :
  forall (s r : string), strip_prefix (p ++ q) s = Some r ->
    exists r' : string, strip_prefix p s = Some r'.
Proof.
  induction p as [|a p IH]; intros s r H; cbn [append strip_prefix] in *.
  - eexists. reflexivity.
  - destruct s as [|b s]; [discriminate|].
    destruct (Ascii.eqb a b); [exact (IH s r H)|discriminate].
Qed.

Lemma contains_shorter (p q s : string) :
  contains (p ++ q) s = true -> contains p s = true.
Proof.
  induction s as [|c s IH]; cbn [contains].
  - destruct (strip_prefix (p ++ q) "") eqn:H; [|discriminate].
    destruct (strip_prefix_app p q _ _ H) as [r' ->]. reflexivity.
  - destruct (strip_prefix (p ++ q) (String c s)) eqn:H.
    + destruct (strip_prefix_app p q _ _ H) as [r' ->]. reflexivity.
    + intros H'. rewrite (IH H'). destruct (strip_prefix p (String c s)); reflexivity.
Qed.

Lemma contains_after (sub pre s : string) :
  contains sub s = true -> contains sub (pre ++ s) = true.
Proof.
  intros H. induction pre as [|c pre IH]; cbn [append]; [exact H|].
  cbn [contains]. rewrite IH. destruct (strip_prefix sub (String c (pre ++ s))); reflexivity.
Qed.

Lemma strip_prefix_lower (p : string) :
  forall (s r : string), strip_prefix p s = Some r ->
    strip_prefix (lower p) (lower s) = Some (lower r).
Proof.
  induction p as [|a p IH]; intros s r H; cbn [lower strip_prefix] in *.
  - injection H as <-. reflexivity.
  - destruct s as [|b s]; [discriminate|]. cbn [lower].
    destruct (Ascii.eqb a b) eqn:E; [|discriminate].
    apply Ascii.eqb_eq in E. subst b. rewrite Ascii.eqb_refl. exact (IH s r H).
Qed.

Lemma contains_lower (sub s : string) :
  contains sub s = true -> contains (lower sub) (lower s) = true.
Proof.
  induction s as [|c s IH]; cbn [contains lower].
  - destruct (strip_prefix sub "") eqn:H; [|discriminate].
    pose proof (strip_prefix_lower sub "" _ H) as H'. cbn [lower] in H'. rewrite H'.
    reflexivity.
  - destruct (strip_prefix sub (String c s)) eqn:H.
    + pose proof (strip_prefix_lower sub _ _ H) as H'. cbn [lower] in H'. rewrite H'.
      reflexivity.
    + intros H'. rewrite (IH H').
      destruct (strip_prefix (lower sub) (String (lower_char c) (lower s))); reflexivity.
Qed.

(** A text that occurs in a line occurs, in lower case, in the lower-cased
    message queued for that line. *)
Lemma contains_in_message (sub ts line : string) :
  contains sub line = true ->
  contains (lower sub) (lower (ts ++ " -> " ++ line)) = true.
Proof.
  intros H. apply contains_lower.
  apply (contains_after sub ts (" -> " ++ line)).
  apply (contains_after sub " -> " line). exact H.
Qed.

(** X13. The parser raises its max-delay flag exactly for the lines that
    contain the text ["max delay reached"], in that case. *)
Theorem max_delay_flag_is_a_substring_test (line : string) :
  exists r : Parsed,
    parse_ffmpeg_line line = Ret r
    /\ max_delay r = contains "max delay reached" line.
Proof.
  eexists. split; [apply parse_ffmpeg_line_fields|].
  cbn [max_delay]. unfold max_delay_of, MAX_DELAY_PATTERN. apply search_Lit.
Qed.

(** X14. The tag the log view gives to the message of a line bounds what the
    parser found in that line, in the order of the tests of lines 384-395:
    a message that is not tagged as an error has no max-delay flag, one
    tagged below "warning" has no missed-packet count either, one tagged
    below "fps" no frame rate, one tagged below "speed" no speed, and a
    message without a tag carries no key at all. *)
Theorem tag_bounds_the_parsed_keys (ts line : string) :
  match classify (ts ++ " -> " ++ line) with
  | Some tag_error => True
  | Some tag_warning => max_delay_of line = false
  | Some tag_fps => max_delay_of line = false /\ missed_packets_of line = None
  | Some tag_speed =>
      max_delay_of line = false /\ missed_packets_of line = None /\ fps_of line = None
  | Some tag_decode =>
      max_delay_of line = false /\ missed_packets_of line = None /\ fps_of line = None
      /\ speed_of line = None
  | None =>
      max_delay_of line = false /\ missed_packets_of line = None /\ fps_of line = None
      /\ speed_of line = None /\ decode_errors_of line = None
  end.
Proof.
  set (msg := lower (ts ++ " -> " ++ line)).
  assert (Hmax : contains "max delay reached" msg = false -> max_delay_of line = false).
  { intros H. unfold max_delay_of, MAX_DELAY_PATTERN.
    pose proof (search_Lit "max delay reached" line) as S.
    destruct (search (Lit "max delay reached") line); [|reflexivity].
    symmetry in S. pose proof (contains_in_message _ ts line S) as C.
    change (lower "max delay reached") with "max delay reached" in C.
    fold msg in C. congruence. }
  assert (Hmissed : contains "missed" msg = false -> missed_packets_of line = None).
  { intros H. unfold missed_packets_of, MISSED_PACKETS_PATTERN.
    destruct (search _ line) as [m|] eqn:S; [|reflexivity].
    apply search_Cat_Lit in S. apply (contains_shorter "missed" " ") in S.
    pose proof (contains_in_message _ ts line S) as C.
    change (lower "missed") with "missed" in C. fold msg in C. congruence. }
  assert (Hfps : contains "fps=" msg = false -> fps_of line = None).
  { intros H. unfold fps_of, FPS_PATTERN.
    destruct (search _ line) as [m|] eqn:S; [|reflexivity].
    apply search_Cat_Lit in S.
    pose proof (contains_in_message _ ts line S) as C.
    change (lower "fps=") with "fps=" in C. fold msg in C. congruence. }
  assert (Hspeed : contains "speed=" msg = false -> speed_of line = None).
  { intros H. unfold speed_of, SPEED_PATTERN.
    destruct (search _ line) as [m|] eqn:S; [|reflexivity].
    apply search_Cat_Lit in S.
    pose proof (contains_in_message _ ts line S) as C.
    change (lower "speed=") with "speed=" in C. fold msg in C. congruence. }
  assert (Hdecode : contains "concealing" msg = false -> decode_errors_of line = None).
  { intros H. unfold decode_errors_of, DECODE_ERROR_PATTERN.
    destruct (search _ line) as [m|] eqn:S; [|reflexivity].
    apply search_Cat_Lit in S. apply (contains_shorter "concealing" " ") in S.
    pose proof (contains_in_message _ ts line S) as C.
    change (lower "concealing") with "concealing" in C. fold msg in C. congruence. }
  unfold classify. fold msg.
  destruct (contains "max delay reached" msg); [exact I|].
  destruct (contains "missed" msg); [auto|].
  destruct (contains "fps=" msg); [auto|].
  destruct (contains "speed=" msg); [auto|].
  destruct (contains "concealing" msg) eqn:Hc; cbn [orb].
  - auto.
  - destruct (contains "decode" msg); auto 6.
Qed.

(** ** What every history keeps *)

Lemma deque_append_bounded (x : float) (d : list float) :
  (List.length d <= maxlen)%nat -> (List.length (deque_append x d) <= maxlen)%nat.
Proof.
  unfold deque_append, maxlen. intros H.
  destruct (Nat.ltb_spec 50 (List.length (d ++ [x])%list)) as [L|L]; [|exact L].
  rewrite length_app in L. cbn [List.length] in L.
  destruct d as [|y d]; cbn [app tl List.length] in *.
  - lia.
  - rewrite length_app. cbn [List.length]. lia.
Qed.

Lemma update_stats_bounded (line : string) (s : Stats) :
  stats_bounded s -> stats_bounded (update_stats (record_of line) s).
Proof.
  intros (W & T & M). split; [|split].
  - rewrite update_stats_speed_values.
    destruct (speed (record_of line)) as [x|]; cbn [present fold_left];
      [apply deque_append_bounded|]; exact W.
  - rewrite update_stats_total_frames. lia.
  - pose proof (update_stats_monotone line s). lia.
Qed.

Lemma ingest_bounded (lines : list string) :
  forall s : Stats, stats_bounded s -> stats_bounded (ingest lines s).
Proof.
  unfold ingest. induction lines as [|l lines IH]; intros s H; cbn [fold_left].
  - exact H.
  - apply IH. apply update_stats_bounded. exact H.
Qed.

(** The [try] statement of lines 304-339 in any state with a probe: it
    returns, and the statistics are those of some lines, taken in. *)
Lemma guarded_with_block_stats (csv_exists : bool) (output : list Arrival)
  (g : GUI) (p : Popen) :
  ffmpeg_process g = Some p ->
  exists (gl : GUI) (lines : list string),
    try_except is_Exception
      (open_append ;;
       (if negb csv_exists then writerow csv_header else mret tt) ;;
       monitor_loop output)%M
      (fun e => queue_put ("Error writing CSV: " ++ exn_text e)) g = (Ret tt, gl)
    /\ same_frame g gl
    /\ stats gl = ingest lines (stats g).
Proof.
  intros Hp.
  destruct (guarded_with_block csv_exists output g p Hp) as (gl & El & Fl).
  exists gl.
  destruct (csv_open_error (os g)) as [e|] eqn:Hopen.
  - exists []. split; [exact El|]. split; [exact Fl|].
    revert El. unfold try_except. unfold mbind at 1. unfold open_append at 1.
    rewrite Hopen. cbn [is_Exception]. intros El. injection El as <-. reflexivity.
  - destruct (running_event g) eqn:Hrun.
    + destruct (with_block_run csv_exists output g p Hrun Hp Hopen) as (gl' & El' & _ & Sl).
      exists (delivered output). split; [exact El|]. split; [exact Fl|].
      revert El. unfold try_except. rewrite El'. intros El. injection El as <-. exact Sl.
    + exists []. split; [exact El|]. split; [exact Fl|].
      revert El. unfold try_except. unfold mbind at 1. unfold open_append at 1.
      rewrite Hopen.
      destruct (csv_file (os g)); destruct csv_exists; cbn [negb];
        unfold mbind, mret; cbn [writerow modify];
        rewrite monitor_loop_not_running by exact Hrun;
        intros El; injection El as <-; reflexivity.
Qed.

(** Lines 341-348 leave the graphs, the start time and the statistics. *)
Lemma shutdown_frame (g : GUI) :
  exists g2 : GUI,
    (terminate_if_running ;;
     modify (set_ffmpeg_process None) ;;
     queue_put ("Monitoring stopped." ++ nl))%M g = (Ret tt, g2)
    /\ graph g2 = graph g
    /\ start_time g2 = start_time g
    /\ running_event g2 = running_event g
    /\ stats g2 = stats g.
Proof.
  destruct g as [[[a [rc|] [|] out]|] th run q st t0 gr sb pb sv lt mb ac w];
    (eexists; split; [reflexivity|]); repeat split.
Qed.

Lemma update_log_display_effects (py_sum : list float -> float) (g : GUI) :
  exists g2 : GUI,
    update_log_display py_sum g = (Ret tt, g2)
    /\ graph g2 = graph g
    /\ start_time g2 = start_time g
    /\ running_event g2 = running_event g
    /\ stats g2 = stats g.
Proof.
  unfold update_log_display, mbind, drain_log_queue, modify, get, lift.
  cbn [stats set_log_queue set_log_text running_event].
  rewrite average_fps_returns, average_speed_returns.
  destruct (running_event g) eqn:Hrun;
    (eexists; split; [reflexivity|]); cbn; rewrite ?Hrun; repeat split.
Qed.

(** Whatever happens to it, the monitor thread leaves the graphs and the
    start time, sets the event never, and takes some lines into the
    statistics. *)
Lemma run_ffmpeg_monitor_frame (shlex_split : string -> Exc (list string))
  (rtsp_url output_csv ffmpeg_exe additional_params : string)
  (outcome : SpawnOutcome) (g : GUI) :
  exists (res : Exc unit) (g2 : GUI) (lines : list string),
    run_ffmpeg_monitor shlex_split rtsp_url output_csv ffmpeg_exe additional_params
      outcome g = (res, g2)
    /\ graph g2 = graph g
    /\ start_time g2 = start_time g
    /\ (running_event g2 = running_event g \/ running_event g2 = false)
    /\ stats g2 = ingest lines (stats g).
Proof.
  destruct (build_cmd shlex_split ffmpeg_exe rtsp_url additional_params) as [cmd|e] eqn:Hcmd.
  - destruct outcome as [e|[rc|] obeys output].
    + destruct (is_FileNotFoundError e) eqn:He.
      * destruct e; try discriminate He.
        exists (Ret tt). eexists. exists [].
        unfold run_ffmpeg_monitor. unfold mbind at 1. unfold lift at 1. rewrite Hcmd.
        split; [reflexivity|]. cbn. auto.
      * exists (Raise e), g, [].
        unfold run_ffmpeg_monitor. unfold mbind at 1. unfold lift at 1. rewrite Hcmd.
        unfold mbind at 1. unfold try_except at 1. unfold mbind at 1.
        unfold Popen_spawn at 1. unfold mraise at 1. rewrite He.
        split; [reflexivity|]. cbn. auto.
    + exists (Ret tt). eexists. exists [].
      rewrite (run_ffmpeg_monitor_exited _ _ _ _ _ cmd rc obeys output g Hcmd).
      split; [reflexivity|]. cbn. auto.
    + rewrite (run_ffmpeg_monitor_alive _ _ _ _ _ cmd obeys output g Hcmd).
      set (p := mkPopen cmd None obeys output).
      set (g1 := set_ffmpeg_process (Some p) _).
      set (b := match csv_file (os g) with Some _ => true | None => false end).
      destruct (guarded_with_block_stats b output g1 p eq_refl) as (gl & lines & El & Fl & Sl).
      destruct (shutdown_frame gl) as (g2 & E2 & Gr & T & R & S2).
      exists (Ret tt), g2, lines. split.
      * unfold mbind at 1. rewrite El. exact E2.
      * rewrite Gr, T, R, S2, Sl, (frame_graph _ _ Fl), (frame_start_time _ _ Fl),
          (frame_running_event _ _ Fl). cbn. auto.
  - exists (Raise e), g, [].
    unfold run_ffmpeg_monitor. unfold mbind at 1. unfold lift at 1. rewrite Hcmd.
    split; [reflexivity|]. cbn. auto.
Qed.

(** [start_monitoring] shows one error box and changes nothing else, or
    runs lines 230-261. *)
Lemma start_monitoring_cases (py_sum : list float -> float) (form : Form)
  (env : StartEnv) (g : GUI) :
  (exists title message : string,
      start_monitoring py_sum form env g
      = (Ret tt, set_messageboxes (messageboxes g ++ [(title, message)])%list g))
  \/ (exists rtsp_url output_csv ffmpeg_exe additional_params : string,
         start_monitoring py_sum form env g
         = launch py_sum env rtsp_url output_csv ffmpeg_exe additional_params g).
Proof.
  unfold start_monitoring.
  destruct (truthy_str (strip (rtsp_url_var form))); cbn [negb].
  - destruct (truthy_str (strip (ffmpeg_path_var form))).
    + destruct (isfile env (strip (ffmpeg_path_var form))); cbn [negb].
      * right. do 4 eexists. reflexivity.
      * left. do 2 eexists. reflexivity.
    + destruct (which_ffmpeg env) as [exe|]; cbn [of_opt_str truthy].
      * destruct (truthy_str exe).
        -- right. do 4 eexists. reflexivity.
        -- left. do 2 eexists. reflexivity.
      * left. do 2 eexists. reflexivity.
  - left. do 2 eexists. reflexivity.
Qed.

Lemma update_graphs_cases (py_sum : list float -> float) (now : float) (label : string)
  (g : GUI) :
  (exists res : Exc unit, update_graphs py_sum now label g = (res, g))
  \/ (exists (t0 avg_fps avg_speed : float),
         running_event g = true
         /\ start_time g = Some t0
         /\ update_graphs py_sum now label g
            = (Ret tt,
               set_after_calls (after_calls g ++ [(1000, cb_update_graphs)])%list
                 (set_graph
                    (mkGraphData
                       (graph_time_data (graph g) ++ [PrimFloat.sub now t0])
                       (graph_timestamp_labels (graph g) ++ [label])
                       (graph_avg_fps_data (graph g) ++ [avg_fps])
                       (graph_avg_speed_data (graph g) ++ [avg_speed])
                       (graph_missed_packets_data (graph g)
                          ++ [missed_packets_count (stats g)]))%list g))).
Proof.
  unfold update_graphs, mbind, get, lift.
  destruct (running_event g) eqn:Hrun; [|left; eexists; reflexivity].
  destruct (start_time g) as [t0|] eqn:Ht; [|left; eexists; reflexivity].
  right. cbn. rewrite average_fps_returns, average_speed_returns.
  do 3 eexists. repeat split.
Qed.

(** What every method keeps. *)
Lemma apply_op_invariant (py_sum : list float -> float)
  (shlex_split : string -> Exc (list string)) (op : Op) (g : GUI) :
  graph_aligned (graph g) /\ started_when_running g /\ stats_bounded (stats g) ->
  graph_aligned (graph (apply_op py_sum shlex_split op g))
  /\ started_when_running (apply_op py_sum shlex_split op g)
  /\ stats_bounded (stats (apply_op py_sum shlex_split op g)).
Proof.
  intros (Ha & Hs & Hb). unfold apply_op. destruct op as [form env| |u c x a o| |now label].
  - destruct (start_monitoring_cases py_sum form env g)
      as [(t & m & ->)|(u & c & x & a & ->)].
    + cbn. auto.
    + destruct (launch_effects py_sum env u c x a g)
        as (g2 & -> & _ & R & _ & St & T & Gr & _).
      cbn [snd]. rewrite Gr. split; [|split].
      * unfold graph_aligned. cbn. auto.
      * right. eexists. exact T.
      * rewrite St. unfold stats_bounded, maxlen. cbn. lia.
  - destruct (stop_monitoring_effects g)
      as (g2 & -> & R & _ & _ & _ & _ & _ & St & _ & _ & Gr & _).
    cbn [snd]. rewrite Gr, St. split; [exact Ha|]. split; [left; exact R|exact Hb].
  - destruct (run_ffmpeg_monitor_frame shlex_split u c x a o g)
      as (res & g2 & lines & -> & Gr & T & R & St).
    cbn [snd]. rewrite Gr, St. split; [exact Ha|]. split.
    + destruct R as [R|R]; [|left; exact R].
      destruct Hs as [Hs|(t0 & Hs)]; [left; congruence|right; exists t0; congruence].
    + apply ingest_bounded. exact Hb.
  - destruct (update_log_display_effects py_sum g) as (g2 & -> & Gr & T & R & St).
    cbn [snd]. rewrite Gr, St. split; [exact Ha|]. split; [|exact Hb].
    destruct Hs as [Hs|(t0 & Hs)]; [left; congruence|right; exists t0; congruence].
  - destruct (update_graphs_cases py_sum now label g)
      as [(res & ->)|(t0 & af & asp & R & T & ->)].
    + cbn. auto.
    + cbn [snd]. cbn. split; [|split; [right; exists t0; exact T|exact Hb]].
      destruct Ha as (A1 & A2 & A3 & A4). unfold graph_aligned. cbn.
      rewrite !length_app. cbn. lia.
Qed.

(** ** What the patterns capture *)

Lemma strip_prefix_split (p : string) :
  forall s rest : string, strip_prefix p s = Some rest -> s = p ++ rest.
Proof.
  induction p as [|a p IH]; intros s rest H; cbn [strip_prefix append] in *.
  - injection H as <-. reflexivity.
  - destruct s as [|b s]; [discriminate|].
    destruct (Ascii.eqb a b) eqn:E; [|discriminate].
    apply Ascii.eqb_eq in E. subst b. rewrite (IH s rest H). reflexivity.
Qed.

Lemma many_split {A : Type} (cls : ascii -> bool) (k : string -> option A) (res : A) :
  forall s : string,
    many cls s k = Some res ->
    exists t rest : string, s = t ++ rest /\ all_chars cls t = true /\ k rest = Some res.
Proof.
  induction s as [|c s IH]; cbn [many]; intros H.
  - exists "", "". repeat split. exact H.
  - destruct (cls c) eqn:Hc.
    + destruct (many cls s k) as [r|] eqn:Hm.
      * injection H as ->. destruct (IH eq_refl) as (t & rest & -> & Ht & Hk).
        exists (String c t), rest. cbn [append all_chars]. rewrite Hc, Ht. repeat split.
        exact Hk.
      * exists "", (String c s). repeat split. exact H.
    + exists "", (String c s). repeat split. exact H.
Qed.

Lemma substring_prefix (t rest : string) :
  substring 0 (String.length t) (t ++ rest) = t.
Proof.
  induction t as [|c t IH]; cbn [String.length append substring].
  - destruct rest; reflexivity.
  - rewrite IH. reflexivity.
Qed.

Lemma length_append (t rest : string) :
  String.length (t ++ rest) = (String.length t + String.length rest)%nat.
Proof. induction t as [|c t IH]; cbn [String.length append]; [reflexivity|]. rewrite IH. reflexivity. Qed.

Lemma consumed_prefix (t rest : string) : consumed (t ++ rest) rest = t.
Proof.
  unfold consumed. rewrite length_append.
  replace (String.length t + String.length rest - String.length rest)%nat
    with (String.length t) by lia.
  apply substring_prefix.
Qed.

Lemma append_assoc (a b c : string) : (a ++ b) ++ c = a ++ (b ++ c).
Proof. induction a as [|x a IH]; cbn [append]; [reflexivity|]. rewrite IH. reflexivity. Qed.

(** A match consumes a text the pattern describes and hands the groups of
    that text to what follows. *)
Lemma rmatch_sound {A : Type} (r : regex) :
  forall (s : string) (gs : list string) (k : string -> list string -> option A) (res : A),
    rmatch r s gs k = Some res ->
    exists (t rest : string) (new : list string),
      s = t ++ rest /\ captures r t new /\ k rest (gs ++ new)%list = Some res.
Proof.
  induction r as [l|cls|cls|r IH|r1 IH1 r2 IH2]; intros s gs k res H; cbn [rmatch] in H.
  - destruct (strip_prefix l s) as [rest|] eqn:E; [|discriminate].
    exists l, rest, []. rewrite app_nil_r. cbn [captures].
    split; [exact (strip_prefix_split l s rest E)|]. split; [split; reflexivity|exact H].
  - destruct (many_split cls _ res s H) as (t & rest & -> & Ht & Hk).
    exists t, rest, []. rewrite app_nil_r. cbn [captures]. repeat split; assumption.
  - destruct s as [|c s]; [discriminate|]. destruct (cls c) eqn:Hc; [|discriminate].
    destruct (many_split cls _ res s H) as (t & rest & -> & Ht & Hk).
    exists (String c t), rest, []. rewrite app_nil_r. cbn [captures all_chars truthy_str].
    rewrite Hc, Ht. repeat split. exact Hk.
  - destruct (IH s gs _ res H) as (t & rest & new & -> & Hc & Hk).
    rewrite consumed_prefix in Hk. rewrite <- app_assoc in Hk.
    exists t, rest, (new ++ [t])%list. cbn [captures].
    split; [reflexivity|]. split; [exists new; split; [exact Hc|reflexivity]|exact Hk].
  - destruct (IH1 s gs _ res H) as (t1 & rest1 & new1 & -> & Hc1 & Hk1).
    destruct (IH2 rest1 _ k res Hk1) as (t2 & rest2 & new2 & -> & Hc2 & Hk2).
    exists (t1 ++ t2), rest2, (new1 ++ new2)%list. cbn [captures].
    split; [symmetry; apply append_assoc|]. split.
    + exists t1, t2, new1, new2. repeat split; assumption.
    + rewrite app_assoc. exact Hk2.
Qed.

(** The groups of a match object are those of some text the pattern
    describes. *)
Lemma search_sound (r : regex) (s : string) (m : Match) :
  search r s = Some m -> exists t : string, captures r t m.
Proof.
  induction s as [|c s IH]; cbn [search]; intros H.
  - destruct (rmatch r "" [] (fun _ gs => Some gs)) as [m'|] eqn:E; [|discriminate].
    injection H as ->.
    destruct (rmatch_sound r _ _ _ _ E) as (t & rest & new & _ & Hc & Hk).
    cbn in Hk. injection Hk as <-. exists t. exact Hc.
  - destruct (rmatch r (String c s) [] (fun _ gs => Some gs)) as [m'|] eqn:E.
    + injection H as ->.
      destruct (rmatch_sound r _ _ _ _ E) as (t & rest & new & _ & Hc & Hk).
      cbn in Hk. injection Hk as <-. exists t. exact Hc.
    + exact (IH H).
Qed.

Lemma fps_group (line : string) (m : Match) :
  search FPS_PATTERN line = Some m ->
  exists t : string,
    m = [t] /\ truthy_str t = true /\ all_chars is_digit_or_dot t = true.
Proof.
  intros H. destruct (search_sound _ _ _ H) as (T & C). cbn [FPS_PATTERN captures] in C.
  destruct C as (t1 & t2 & gs1 & gs2 & _ & (_ & ->) & C & ->).
  destruct C as (t3 & t4 & gs3 & gs4 & _ & (_ & ->) & C & ->).
  destruct C as (inner & (Ht & Ha & ->) & ->).
  exists t4. repeat split; assumption.
Qed.

Lemma speed_group (line : string) (m : Match) :
  search SPEED_PATTERN line = Some m ->
  exists t : string,
    m = [t] /\ truthy_str t = true /\ all_chars is_digit_or_dot t = true.
Proof.
  intros H. destruct (search_sound _ _ _ H) as (T & C). cbn [SPEED_PATTERN captures] in C.
  destruct C as (t1 & t2 & gs1 & gs2 & _ & (_ & ->) & C & ->).
  destruct C as (t3 & t4 & gs3 & gs4 & _ & (_ & ->) & C & ->).
  destruct C as (t5 & t6 & gs5 & gs6 & _ & C & (_ & ->) & ->).
  destruct C as (inner & (Ht & Ha & ->) & ->).
  exists t5. repeat split; assumption.
Qed.

Lemma missed_group (line : string) (m : Match) :
  search MISSED_PACKETS_PATTERN line = Some m ->
  exists t : string,
    m = [t] /\ truthy_str t = true /\ all_chars is_digit t = true.
Proof.
  intros H. destruct (search_sound _ _ _ H) as (T & C).
  cbn [MISSED_PACKETS_PATTERN captures] in C.
  destruct C as (t1 & t2 & gs1 & gs2 & _ & (_ & ->) & C & ->).
  destruct C as (t3 & t4 & gs3 & gs4 & _ & C & (_ & ->) & ->).
  destruct C as (inner & (Ht & Ha & ->) & ->).
  exists t3. repeat split; assumption.
Qed.

Lemma decode_groups (line : string) (m : Match) :
  search DECODE_ERROR_PATTERN line = Some m ->
  exists d1 d2 d3 : string,
    m = [d1; d2; d3]
    /\ (truthy_str d1 = true /\ all_chars is_digit d1 = true)
    /\ (truthy_str d2 = true /\ all_chars is_digit d2 = true)
    /\ (truthy_str d3 = true /\ all_chars is_digit d3 = true).
Proof.
  intros H. destruct (search_sound _ _ _ H) as (T & C).
  cbn [DECODE_ERROR_PATTERN captures] in C.
  destruct C as (? & ? & ? & ? & _ & (_ & ->) & C & ->).
  destruct C as (d1 & ? & ? & ? & _ & (? & (H1 & A1 & ->) & ->) & C & ->).
  destruct C as (? & ? & ? & ? & _ & (_ & ->) & C & ->).
  destruct C as (? & ? & ? & ? & _ & (_ & ->) & C & ->).
  destruct C as (d2 & ? & ? & ? & _ & (? & (H2 & A2 & ->) & ->) & C & ->).
  destruct C as (? & ? & ? & ? & _ & (_ & ->) & C & ->).
  destruct C as (? & ? & ? & ? & _ & (_ & ->) & C & ->).
  destruct C as (d3 & ? & ? & ? & _ & (? & (H3 & A3 & ->) & ->) & (_ & ->) & ->).
  exists d1, d2, d3. repeat split; assumption.
Qed.

(** X18. When the parser gives a text for the decode errors, the text is
    ["DC="], [",AC="] and [",MV="] each followed by a run of one or more
    decimal digits, copied from the line as they stand. *)
Theorem decode_errors_hold_three_numbers (line : string) (r : Parsed) (s : string) :
  parse_ffmpeg_line line = Ret r ->
  decode_errors r = Some s ->
  exists d1 d2 d3 : string,
    s = "DC=" ++ d1 ++ ",AC=" ++ d2 ++ ",MV=" ++ d3
    /\ (truthy_str d1 = true /\ all_chars is_digit d1 = true)
    /\ (truthy_str d2 = true /\ all_chars is_digit d2 = true)
    /\ (truthy_str d3 = true /\ all_chars is_digit d3 = true).
Proof.
  intros Hp Hd. rewrite parse_ffmpeg_line_fields in Hp. injection Hp as <-.
  cbn [decode_errors] in Hd. unfold decode_errors_of in Hd.
  destruct (search DECODE_ERROR_PATTERN line) as [m|] eqn:Hs; [|discriminate].
  destruct (decode_groups line m Hs) as (d1 & d2 & d3 & -> & H1 & H2 & H3).
  injection Hd as <-. exists d1, d2, d3. cbn [group pred nth].
  split; [reflexivity|]. split; [exact H1|]. split; [exact H2|exact H3].
Qed.

(** X19. Where the missed-packets pattern occurs, the count is the decimal
    value of the digits captured; it is absent only when there are more
    digits than [int()] accepts. *)
Theorem missed_packets_fail_only_on_length (line : string) (r : Parsed) (m : Match) :
  parse_ffmpeg_line line = Ret r ->
  search MISSED_PACKETS_PATTERN line = Some m ->
  missed_packets r
  = if (String.length (group 1 m) <=? int_max_str_digits)%nat
    then Some (decimal_value 0 (group 1 m))
    else None.
Proof.
  intros Hp Hs. rewrite parse_ffmpeg_line_fields in Hp. injection Hp as <-.
  cbn [missed_packets]. unfold missed_packets_of. rewrite Hs.
  destruct (missed_group line m Hs) as (t & -> & Ht & Ha).
  cbn [group pred nth]. unfold py_int. rewrite Ht, Ha. cbn [negb orb].
  destruct (Nat.leb_spec (String.length t) int_max_str_digits) as [L|L].
  - destruct (Nat.ltb_spec int_max_str_digits (String.length t)) as [L'|L']; [lia|reflexivity].
  - destruct (Nat.ltb_spec int_max_str_digits (String.length t)) as [L'|L']; [reflexivity|lia].
Qed.

(** X20. Where the frame-rate pattern occurs, the frame rate is absent
    exactly when the captured text has two dots or more, or no digit; the
    same holds of the speed and its pattern. *)
Theorem numbers_fail_only_on_dots (line : string) (r : Parsed) :
  parse_ffmpeg_line line = Ret r ->
  (forall m : Match,
      search FPS_PATTERN line = Some m ->
      (fps r = None
       <-> (2 <= count_chars is_dot (group 1 m))%nat
           \/ count_chars is_digit (group 1 m) = 0%nat))
  /\ (forall m : Match,
        search SPEED_PATTERN line = Some m ->
        (speed r = None
         <-> (2 <= count_chars is_dot (group 1 m))%nat
             \/ count_chars is_digit (group 1 m) = 0%nat)).
Proof.
  intros Hp. rewrite parse_ffmpeg_line_fields in Hp. injection Hp as <-.
  assert (K : forall t : string,
             all_chars is_digit_or_dot t = true ->
             (match py_float t with Ret x => Some x | Raise _ => None end = None
              <-> (2 <= count_chars is_dot t)%nat \/ count_chars is_digit t = 0%nat)).
  { intros t Ha. unfold py_float. rewrite Ha. cbn [andb].
    destruct (Nat.leb_spec (count_chars is_dot t) 1) as [D|D];
      destruct (Nat.leb_spec 1 (count_chars is_digit t)) as [G|G]; cbn [andb];
      split; intros H; try discriminate H; try reflexivity; try lia. }
  split; intros m Hs; cbn [fps speed].
  - unfold fps_of. rewrite Hs. destruct (fps_group line m Hs) as (t & -> & _ & Ha).
    cbn [group pred nth]. exact (K t Ha).
  - unfold speed_of. rewrite Hs. destruct (speed_group line m Hs) as (t & -> & _ & Ha).
    cbn [group pred nth]. exact (K t Ha).
Qed.

Lemma history_invariant (py_sum : list float -> float)
  (shlex_split : string -> Exc (list string)) (ops : list Op) (w : OS) :
  graph_aligned (graph (history py_sum shlex_split ops w))
  /\ started_when_running (history py_sum shlex_split ops w)
  /\ stats_bounded (stats (history py_sum shlex_split ops w)).
Proof.
  unfold history.
  assert (G : forall g : GUI,
             graph_aligned (graph g) /\ started_when_running g /\ stats_bounded (stats g) ->
             graph_aligned
               (graph (fold_left (fun g op => apply_op py_sum shlex_split op g) ops g))
             /\ started_when_running
                  (fold_left (fun g op => apply_op py_sum shlex_split op g) ops g)
             /\ stats_bounded
                  (stats (fold_left (fun g op => apply_op py_sum shlex_split op g) ops g))).
  { induction ops as [|op ops IH]; intros g H; cbn [fold_left].
    - exact H.
    - apply IH. apply apply_op_invariant. exact H. }
  apply G. split; [|split].
  - unfold graph_aligned. cbn. auto.
  - left. reflexivity.
  - unfold stats_bounded, maxlen. cbn. lia.
Qed.

(** X15. However the methods follow one another from start-up, the five
    lists behind the graphs have the same length: every point has its time,
    its label and its three values. *)
Theorem graphs_stay_aligned (py_sum : list float -> float)
  (shlex_split : string -> Exc (list string)) (ops : list Op) (w : OS) :
  graph_aligned (graph (history py_sum shlex_split ops w)).
Proof. exact (proj1 (history_invariant py_sum shlex_split ops w)). Qed.

(** X16. However the methods follow one another from start-up, the event is
    never set without a recorded start time: the subtraction of line 414
    never meets [None]. *)
Theorem event_set_only_after_start_time (py_sum : list float -> float)
  (shlex_split : string -> Exc (list string)) (ops : list Op) (w : OS) :
  started_when_running (history py_sum shlex_split ops w).
Proof. exact (proj1 (proj2 (history_invariant py_sum shlex_split ops w))). Qed.

(** X17. However the methods follow one another from start-up, the window
    of speeds holds at most fifty values and neither the frame count nor
    the missed-packet counter is negative. *)
Theorem statistics_stay_bounded (py_sum : list float -> float)
  (shlex_split : string -> Exc (list string)) (ops : list Op) (w : OS) :
  stats_bounded (stats (history py_sum shlex_split ops w)).
Proof. exact (proj2 (proj2 (history_invariant py_sum shlex_split ops w))). Qed.

(** * More examples *)

(** The two lines of [example_output] into a new log file. *)
Lemma two_lines_give_header_and_two_rows :
  build_cmd split_blanks "/usr/bin/ffmpeg" "rtsp://example/stream" "" = Ret example_cmd
  /\ running_event ready_gui = true
  /\ csv_open_error (os ready_gui) = None
  /\ exists g2 : GUI,
       run_ffmpeg_monitor split_blanks "rtsp://example/stream" "stream_log.csv"
         "/usr/bin/ffmpeg" "" (Spawned None true example_output) ready_gui = (Ret tt, g2)
       /\ csv_file (os g2)
          = Some
              [ csv_header;
                [ VStr "2024-01-01T00:00:00"; VFloat 25%float;
                  VFloat 0x1.051eb851eb852p+0%float; VStr ""; VInt 0; VStr "";
                  VStr "frame= 120 fps= 25.0 q=-1.0 size=N/A time=00:00:05.00 bitrate=N/A speed=1.02x" ];
                [ VStr "2024-01-01T00:00:00"; VStr ""; VStr ""; VStr ""; VInt 1; VStr "";
                  VStr "[rtsp @ 0x1] max delay reached. need to consume packet" ] ].
Proof.
  assert (Hcmd : build_cmd split_blanks "/usr/bin/ffmpeg" "rtsp://example/stream" ""
                 = Ret example_cmd) by reflexivity.
  assert (Hrun : running_event ready_gui = true) by reflexivity.
  assert (Hopen : csv_open_error (os ready_gui) = None) by reflexivity.
  split; [exact Hcmd|]. split; [exact Hrun|]. split; [exact Hopen|].
  destruct (log_file_gets_one_row_per_line split_blanks "rtsp://example/stream"
              "stream_log.csv" "/usr/bin/ffmpeg" "" example_cmd true example_output
              ready_gui Hcmd Hrun Hopen) as (g2 & E & C & _).
  exists g2. split; [exact E|]. rewrite C. vm_compute. reflexivity.
Defined.

Lemma two_lines_give_three_messages :
  build_cmd split_blanks "/usr/bin/ffmpeg" "rtsp://example/stream" "" = Ret example_cmd
  /\ running_event ready_gui = true
  /\ csv_open_error (os ready_gui) = None
  /\ exists g2 : GUI,
       run_ffmpeg_monitor split_blanks "rtsp://example/stream" "stream_log.csv"
         "/usr/bin/ffmpeg" "" (Spawned None true example_output) ready_gui = (Ret tt, g2)
       /\ log_queue g2
          = [ "2024-01-01T00:00:00 -> frame= 120 fps= 25.0 q=-1.0 size=N/A time=00:00:05.00 bitrate=N/A speed=1.02x";
              "2024-01-01T00:00:00 -> [rtsp @ 0x1] max delay reached. need to consume packet";
              "Monitoring stopped." ++ nl ].
Proof.
  assert (Hcmd : build_cmd split_blanks "/usr/bin/ffmpeg" "rtsp://example/stream" ""
                 = Ret example_cmd) by reflexivity.
  assert (Hrun : running_event ready_gui = true) by reflexivity.
  assert (Hopen : csv_open_error (os ready_gui) = None) by reflexivity.
  split; [exact Hcmd|]. split; [exact Hrun|]. split; [exact Hopen|].
  destruct (queue_gets_one_message_per_line split_blanks "rtsp://example/stream"
              "stream_log.csv" "/usr/bin/ffmpeg" "" example_cmd true example_output
              ready_gui Hcmd Hrun Hopen) as (g2 & E & Q).
  exists g2. split; [exact E|]. rewrite Q. vm_compute. reflexivity.
Defined.

(** The run on a probe that ignores SIGTERM returns as well. *)
Lemma run_on_a_stubborn_probe_returns :
  build_cmd split_blanks "/usr/bin/ffmpeg" "rtsp://example/stream" "" = Ret example_cmd
  /\ exists (g2 : GUI) (earlier : list string),
       run_ffmpeg_monitor split_blanks "rtsp://example/stream" "stream_log.csv"
         "/usr/bin/ffmpeg" "" (Spawned None false example_output) ready_gui = (Ret tt, g2)
       /\ ffmpeg_process g2 = None
       /\ log_queue g2 = (earlier ++ [("Monitoring stopped." ++ nl)%string])%list
       /\ running_event g2 = true.
Proof.
  assert (Hcmd : build_cmd split_blanks "/usr/bin/ffmpeg" "rtsp://example/stream" ""
                 = Ret example_cmd) by reflexivity.
  split; [exact Hcmd|].
  destruct (run_on_a_live_probe_always_returns split_blanks "rtsp://example/stream"
              "stream_log.csv" "/usr/bin/ffmpeg" "" example_cmd false example_output
              ready_gui Hcmd) as (g2 & earlier & E & P & Q & R).
  exists g2, earlier. split; [exact E|]. split; [exact P|]. split; [exact Q|].
  rewrite R. reflexivity.
Defined.

Lemma locked_log_file_is_reported :
  build_cmd split_blanks "/usr/bin/ffmpeg" "rtsp://example/stream" "" = Ret example_cmd
  /\ csv_open_error (os locked_gui) = Some (OSError "Permission denied")
  /\ exists g2 : GUI,
       run_ffmpeg_monitor split_blanks "rtsp://example/stream" "stream_log.csv"
         "/usr/bin/ffmpeg" "" (Spawned None true example_output) locked_gui = (Ret tt, g2)
       /\ log_queue g2
          = ["Error writing CSV: Permission denied"; "Monitoring stopped." ++ nl]
       /\ stats g2 = reset_stats
       /\ csv_file (os g2) = None.
Proof.
  assert (Hcmd : build_cmd split_blanks "/usr/bin/ffmpeg" "rtsp://example/stream" ""
                 = Ret example_cmd) by reflexivity.
  assert (Hopen : csv_open_error (os locked_gui) = Some (OSError "Permission denied"))
    by reflexivity.
  split; [exact Hcmd|]. split; [exact Hopen|].
  destruct (unwritable_log_is_reported split_blanks "rtsp://example/stream"
              "stream_log.csv" "/usr/bin/ffmpeg" "" example_cmd true example_output
              locked_gui (OSError "Permission denied") Hcmd Hopen)
    as (g2 & E & Q & S2 & C & _).
  exists g2. split; [exact E|]. split; [rewrite Q; reflexivity|].
  split; [rewrite S2; reflexivity|]. rewrite C. reflexivity.
Defined.

(** A stop that comes before the probe is spawned: the thread finds the
    event clear when it reaches the loop. *)
Lemma stopped_before_the_loop :
  build_cmd split_blanks "/usr/bin/ffmpeg" "rtsp://example/stream" "" = Ret example_cmd
  /\ running_event fresh_gui = false
  /\ csv_open_error (os fresh_gui) = None
  /\ exists g2 : GUI,
       run_ffmpeg_monitor split_blanks "rtsp://example/stream" "stream_log.csv"
         "/usr/bin/ffmpeg" "" (Spawned None true example_output) fresh_gui = (Ret tt, g2)
       /\ stats g2 = reset_stats
       /\ csv_file (os g2) = Some [csv_header]
       /\ log_queue g2 = ["Monitoring stopped." ++ nl].
Proof.
  assert (Hcmd : build_cmd split_blanks "/usr/bin/ffmpeg" "rtsp://example/stream" ""
                 = Ret example_cmd) by reflexivity.
  assert (Hrun : running_event fresh_gui = false) by reflexivity.
  assert (Hopen : csv_open_error (os fresh_gui) = None) by reflexivity.
  split; [exact Hcmd|]. split; [exact Hrun|]. split; [exact Hopen|].
  destruct (cleared_event_reads_nothing split_blanks "rtsp://example/stream"
              "stream_log.csv" "/usr/bin/ffmpeg" "" example_cmd true example_output
              fresh_gui Hcmd Hrun Hopen) as (g2 & E & S2 & C & Q).
  exists g2. split; [exact E|]. split; [rewrite S2; reflexivity|].
  split; [rewrite C; reflexivity|]. rewrite Q. reflexivity.
Defined.

Lemma vanished_executable_is_reported :
  build_cmd split_blanks "/usr/bin/ffmpeg" "rtsp://example/stream" "" = Ret example_cmd
  /\ exists g2 : GUI,
       run_ffmpeg_monitor split_blanks "rtsp://example/stream" "stream_log.csv"
         "/usr/bin/ffmpeg" "" (SpawnRaises FileNotFoundError) ready_gui = (Ret tt, g2)
       /\ log_queue g2 = ["Error: ffmpeg not found. Check installation or path."]
       /\ running_event g2 = false
       /\ spawned (os g2) = [].
Proof.
  assert (Hcmd : build_cmd split_blanks "/usr/bin/ffmpeg" "rtsp://example/stream" ""
                 = Ret example_cmd) by reflexivity.
  split; [exact Hcmd|].
  destruct (missing_executable_is_reported split_blanks "rtsp://example/stream"
              "stream_log.csv" "/usr/bin/ffmpeg" "" example_cmd ready_gui Hcmd)
    as (g2 & E & Q & R & _ & _ & O).
  exists g2. split; [exact E|]. split; [rewrite Q; reflexivity|].
  split; [exact R|]. rewrite O. reflexivity.
Defined.

(** An executable without the permission to run. *)
Lemma permission_error_escapes :
  build_cmd split_blanks "/usr/bin/ffmpeg" "rtsp://example/stream" "" = Ret example_cmd
  /\ is_FileNotFoundError (OSError "Permission denied") = false
  /\ run_ffmpeg_monitor split_blanks "rtsp://example/stream" "stream_log.csv"
       "/usr/bin/ffmpeg" "" (SpawnRaises (OSError "Permission denied")) ready_gui
     = (Raise (OSError "Permission denied"), ready_gui).
Proof.
  assert (Hcmd : build_cmd split_blanks "/usr/bin/ffmpeg" "rtsp://example/stream" ""
                 = Ret example_cmd) by reflexivity.
  assert (He : is_FileNotFoundError (OSError "Permission denied") = false) by reflexivity.
  split; [exact Hcmd|]. split; [exact He|].
  exact (other_spawn_errors_escape split_blanks "rtsp://example/stream" "stream_log.csv"
           "/usr/bin/ffmpeg" "" example_cmd (OSError "Permission denied") ready_gui Hcmd He).
Defined.

(** An address of three blanks, while a session runs. *)
Lemma three_blanks_are_no_address :
  all_chars is_space (rtsp_url_var (mkForm "   " "stream_log.csv" "" "")) = true
  /\ start_monitoring sum_left (mkForm "   " "stream_log.csv" "" "") example_env ready_gui
     = (Ret tt, set_messageboxes [("Error", "Please enter an RTSP URL.")] ready_gui).
Proof.
  assert (H : all_chars is_space (rtsp_url_var (mkForm "   " "stream_log.csv" "" "")) = true)
    by reflexivity.
  split; [exact H|].
  exact (blank_url_is_rejected sum_left (mkForm "   " "stream_log.csv" "" "") example_env
           ready_gui H).
Defined.

(** A path that names no file is an error even though the search path has
    an [ffmpeg]. *)
Lemma wrong_path_is_not_replaced_by_the_search_path :
  truthy_str (strip (rtsp_url_var (mkForm "rtsp://example/stream" "" "/opt/ffmpeg" ""))) = true
  /\ (truthy_str (strip (ffmpeg_path_var (mkForm "rtsp://example/stream" "" "/opt/ffmpeg" "")))
      = true
      /\ isfile example_env
           (strip (ffmpeg_path_var (mkForm "rtsp://example/stream" "" "/opt/ffmpeg" "")))
         = false)
  /\ which_ffmpeg example_env = Some "/usr/bin/ffmpeg"
  /\ exists title message : string,
       start_monitoring sum_left (mkForm "rtsp://example/stream" "" "/opt/ffmpeg" "")
         example_env ready_gui
       = (Ret tt, set_messageboxes [(title, message)] ready_gui).
Proof.
  assert (Hurl : truthy_str
                   (strip (rtsp_url_var (mkForm "rtsp://example/stream" "" "/opt/ffmpeg" "")))
                 = true) by reflexivity.
  assert (Hp : truthy_str
                 (strip (ffmpeg_path_var (mkForm "rtsp://example/stream" "" "/opt/ffmpeg" "")))
               = true
               /\ isfile example_env
                    (strip (ffmpeg_path_var
                              (mkForm "rtsp://example/stream" "" "/opt/ffmpeg" "")))
                  = false) by (split; reflexivity).
  split; [exact Hurl|]. split; [exact Hp|]. split; [reflexivity|].
  destruct (unresolved_executable_is_rejected sum_left
              (mkForm "rtsp://example/stream" "" "/opt/ffmpeg" "") example_env ready_gui
              Hurl (or_introl Hp)) as (title & message & E).
  exists title, message. exact E.
Defined.

(** Starting from the fresh application with [example_form]. *)
Lemma example_form_starts_a_session :
  truthy_str (strip (rtsp_url_var example_form)) = true
  /\ (truthy_str (strip (ffmpeg_path_var example_form)) = false
      /\ which_ffmpeg example_env = Some "/usr/bin/ffmpeg"
      /\ truthy_str "/usr/bin/ffmpeg" = true)
  /\ exists g : GUI,
       start_monitoring sum_left example_form example_env fresh_gui = (Ret tt, g)
       /\ monitor_thread g
          = Some (mkThreadArgs "rtsp://example/stream" "stream_log.csv" "/usr/bin/ffmpeg"
                    "-rtsp_transport tcp")
       /\ running_event g = true
       /\ signals (os g) = []
       /\ status_var g = StatusMonitoring.
Proof.
  assert (Hurl : truthy_str (strip (rtsp_url_var example_form)) = true) by reflexivity.
  assert (Hw : truthy_str (strip (ffmpeg_path_var example_form)) = false
               /\ which_ffmpeg example_env = Some "/usr/bin/ffmpeg"
               /\ truthy_str "/usr/bin/ffmpeg" = true) by (repeat split).
  split; [exact Hurl|]. split; [exact Hw|].
  destruct (start_monitoring_replaces_the_session sum_left example_form example_env
              "/usr/bin/ffmpeg" fresh_gui Hurl (or_intror Hw))
    as (g & E & Th & R & _ & G & _ & _ & _ & _ & _ & _ & V & _).
  exists g. split; [exact E|]. split; [rewrite Th; reflexivity|].
  split; [exact R|]. split; [rewrite G; reflexivity|exact V].
Defined.

Lemma decode_errors_keep_leading_zeros :
  parse_ffmpeg_line "concealing 12 DC, 3 AC, 007 MV errors"
  = Ret (mkParsed None None None false (Some "DC=12,AC=3,MV=007"))
  /\ decode_errors (mkParsed None None None false (Some "DC=12,AC=3,MV=007"))
     = Some "DC=12,AC=3,MV=007"
  /\ exists d1 d2 d3 : string,
       "DC=12,AC=3,MV=007" = "DC=" ++ d1 ++ ",AC=" ++ d2 ++ ",MV=" ++ d3
       /\ all_chars is_digit d1 = true
       /\ all_chars is_digit d2 = true
       /\ all_chars is_digit d3 = true.
Proof.
  assert (Hp : parse_ffmpeg_line "concealing 12 DC, 3 AC, 007 MV errors"
               = Ret (mkParsed None None None false (Some "DC=12,AC=3,MV=007")))
    by (vm_compute; reflexivity).
  assert (Hd : decode_errors (mkParsed None None None false (Some "DC=12,AC=3,MV=007"))
               = Some "DC=12,AC=3,MV=007") by reflexivity.
  split; [exact Hp|]. split; [exact Hd|].
  destruct (decode_errors_hold_three_numbers _ _ _ Hp Hd)
    as (d1 & d2 & d3 & E & (_ & A1) & (_ & A2) & (_ & A3)).
  exists d1, d2, d3. repeat split; assumption.
Defined.

Lemma missed_0042_packets_is_42 :
  parse_ffmpeg_line "missed 0042 packets" = Ret (mkParsed None None (Some 42) false None)
  /\ search MISSED_PACKETS_PATTERN "missed 0042 packets" = Some ["0042"]
  /\ missed_packets (mkParsed None None (Some 42) false None) = Some 42.
Proof.
  assert (Hp : parse_ffmpeg_line "missed 0042 packets"
               = Ret (mkParsed None None (Some 42) false None)) by (vm_compute; reflexivity).
  assert (Hs : search MISSED_PACKETS_PATTERN "missed 0042 packets" = Some ["0042"])
    by (vm_compute; reflexivity).
  split; [exact Hp|]. split; [exact Hs|].
  rewrite (missed_packets_fail_only_on_length _ _ _ Hp Hs). vm_compute. reflexivity.
Defined.

Lemma two_dots_lose_the_frame_rate_only :
  parse_ffmpeg_line "fps=1.2.3 speed=2x" = Ret (mkParsed None (Some 2%float) None false None)
  /\ search FPS_PATTERN "fps=1.2.3 speed=2x" = Some ["1.2.3"]
  /\ (2 <= count_chars is_dot (group 1 ["1.2.3"]))%nat.
Proof.
  assert (Hp : parse_ffmpeg_line "fps=1.2.3 speed=2x"
               = Ret (mkParsed None (Some 2%float) None false None))
    by (vm_compute; reflexivity).
  assert (Hs : search FPS_PATTERN "fps=1.2.3 speed=2x" = Some ["1.2.3"])
    by (vm_compute; reflexivity).
  split; [exact Hp|]. split; [exact Hs|].
  destruct (proj1 (proj1 (numbers_fail_only_on_dots _ _ Hp) _ Hs) eq_refl) as [D|D].
  - exact D.
  - vm_compute in D. discriminate D.
Defined.

(** Two queued messages while a session runs: both reach the log view with
    their tags, and the status line shows the statistics. *)
Lemma two_messages_reach_the_log_view :
  int_fits_str (missed_packets_count (stats queued_gui)) = true
  /\ exists g2 : GUI,
       update_log_display sum_left queued_gui = (Ret tt, g2)
       /\ log_queue g2 = []
       /\ log_text g2
          = [ (("t1 -> fps= 25.0 speed=1.02x" ++ nl)%string, Some tag_fps);
              (("t2 -> missed 7 packets" ++ nl)%string, Some tag_warning) ]
       /\ status_var g2 = StatusStats 25%float 1%float 7
       /\ after_calls g2 = [(200, cb_update_log_display)].
Proof.
  assert (Hfmt : int_fits_str (missed_packets_count (stats queued_gui)) = true)
    by (vm_compute; reflexivity).
  split; [exact Hfmt|].
  destruct (update_log_display_drains_the_queue sum_left queued_gui Hfmt)
    as (g2 & a & b & E & Q & T & A & B & V & C & _).
  exists g2. split; [exact E|]. split; [exact Q|]. split; [rewrite T; reflexivity|].
  split.
  - rewrite V. vm_compute in A, B. injection A as <-. injection B as <-. reflexivity.
  - rewrite C. reflexivity.
Defined.
